(** * tts_agents: batch dispatch, retry, validation and streaming

    A shallow embedding of the Python package [tts_agents]
    ([models.py], [exceptions.py], [core.py], [batch.py], [streaming.py])
    and the properties of its batch dispatch and retry engine.

    Conventions of the embedding.
    - A Python [str] is a [string]; one [ascii] stands for one character
      (a code point below 256).  [bytes] is [list Byte.byte].
    - A Python [int] is a [Z]; loop counters that start at 0 are [nat].
    - A Python [float] is a primitive binary64 [float], and a product of
      two floats is the rounded product.  The durations that the engine
      hands to [asyncio.sleep], the products [1.0 * n], are rationals (they
      are exact for every [n] a retry counter can reach); the durations
      of the agent, [rate_limit_delay * n], are floats.
    - A coroutine is a function from the state of the world before it runs
      to its outcome and the state after it: [World -> outcome A * World].
      An outcome is a returned value or a raised exception. *)

From Stdlib Require Import ZArith QArith Qminmax String Ascii List Floats
  DecimalString Sorted Lia.
From stdpp Require Import base option list strings gmap.

Local Open Scope string_scope.
Local Open Scope Z_scope.

(** ** Python built-ins used by the package *)

Module Py.

Definition bytes : Type := list Byte.byte.

(** [str(n)] for an [int]. *)
Definition str_of_Z (z : Z) : string := NilZero.string_of_int (Z.to_int z).
Definition str_of_nat (n : nat) : string := NilZero.string_of_uint (Nat.to_uint n).

(** [float(n)] for an [int] that is not negative: the nearest float, which
    is what the product of a float and an [int] converts the [int] to.
    The conversion goes through a 63-bit integer and holds below 2^63. *)
Definition float_of_nat (n : nat) : float :=
  PrimFloat.of_uint63 (Uint63.of_Z (Z.of_nat n)).

(** [c.isspace()] on the characters below 256: TAB, LF, VT, FF, CR,
    FS, GS, RS, US, SPACE, NEL and NBSP. *)
Definition isspace (c : ascii) : bool :=
  let n := nat_of_ascii c in
  ((9 <=? n) && (n <=? 13) || (28 <=? n) && (n <=? 32)
   || (n =? 133) || (n =? 160))%nat.

(** [s.lstrip()], [s.rstrip()], [s.strip()]. *)
Fixpoint lstrip (s : string) : string :=
  match s with
  | EmptyString => EmptyString
  | String c s' => if isspace c then lstrip s' else s
  end.

Fixpoint rev_append (s acc : string) : string :=
  match s with
  | EmptyString => acc
  | String c s' => rev_append s' (String c acc)
  end.

Definition rev (s : string) : string := rev_append s EmptyString.

Definition rstrip (s : string) : string := rev (lstrip (rev s)).

Definition strip (s : string) : string := rstrip (lstrip s).

(** Truth value of a [str]: empty is false. *)
Definition truthy_str (s : string) : bool :=
  match s with EmptyString => false | _ => true end.

(** [x or d] for an optional [str] and for an optional [float]. *)
Definition or_str (x : option string) (d : string) : string :=
  match x with
  | Some s => if truthy_str s then s else d
  | None => d
  end.

Definition or_float (x : option float) (d : float) : float :=
  match x with
  | Some f => if PrimFloat.eqb f 0%float then d else f
  | None => d
  end.

(** [s * n] *)
Fixpoint str_mul (s : string) (n : nat) : string :=
  match n with
  | O => EmptyString
  | S n' => s +:+ str_mul s n'
  end.

(** [b"".join(chunks)]. *)
Definition join (chunks : list bytes) : bytes := concat chunks.

(** [s.startswith(p)]. *)
Definition startswith (s p : string) : bool := String.prefix p s.

(** [s[:n]]. *)
Definition take_str (n : nat) (s : string) : string := String.substring 0 n s.

(** [str(Path(s))] is never empty: [Path("")] is the current directory. *)
Definition path_str (s : string) : string :=
  match s with
  | EmptyString => "."
  | _ => s
  end.

End Py.

(** ** exceptions.py *)

Module Exceptions.

(** One pydantic error line: the field and the message. *)
Record FieldError := { loc : string; msg : string }.

(** The exception classes that occur in the package.  Every one of them
    is a subclass of [Exception].  [OtherError] stands for any exception
    class of a collaborator (the HTTP client, the file system, a callback). *)
Inductive exn : Type :=
| TTSAgentError (message : string) (error_code : option string)
| TTSConfigError (message : string) (config_key : option string)
| TTSAPIError (message : string) (status_code : option Z)
              (api_error_type : option string)
| TTSValidationError (message : string) (field : option string)
| TTSFileError (message : string) (file_path : option string)
| PydanticValidationError (model : string) (errors : list FieldError)
| OtherError (message : string).

Definition truthy_opt_str (o : option string) : option string :=
  match o with
  | Some s => if Py.truthy_str s then Some s else None
  | None => None
  end.

Definition api_error_details (status_code : option Z)
           (api_error_type : option string) : string :=
  let status :=
    match status_code with
    | Some c => if (c =? 0)%Z then [] else ["Status: " +:+ Py.str_of_Z c]
    | None => []
    end in
  let type :=
    match truthy_opt_str api_error_type with
    | Some t => ["Type: " +:+ t]
    | None => []
    end in
  match (status ++ type)%list with
  | [] => ""
  | [a] => " (" +:+ a +:+ ")"
  | a :: b :: _ => " (" +:+ a +:+ ", " +:+ b +:+ ")"
  end.

Definition str_field_error (e : FieldError) : string :=
  loc e +:+ ": " +:+ msg e.

(** [str(e)].  The rendering of a pydantic error belongs to pydantic; it
    is rendered here as the count, the model and the error lines. *)
Definition str (e : exn) : string :=
  match e with
  | TTSAgentError m code =>
      match truthy_opt_str code with
      | Some c => "[" +:+ c +:+ "] " +:+ m
      | None => m
      end
  | TTSConfigError m key =>
      match truthy_opt_str key with
      | Some k => "[CONFIG_ERROR] Configuration error for '" +:+ k +:+ "': " +:+ m
      | None => "[CONFIG_ERROR] " +:+ m
      end
  | TTSAPIError m sc ty => "[API_ERROR] " +:+ m +:+ api_error_details sc ty
  | TTSValidationError m f =>
      match truthy_opt_str f with
      | Some k =>
          "[VALIDATION_ERROR] Validation error for field '" +:+ k +:+ "': "
          +:+ m
      | None => "[VALIDATION_ERROR] " +:+ m
      end
  | TTSFileError m p =>
      match truthy_opt_str p with
      | Some k => "[FILE_ERROR] File operation error for '" +:+ k +:+ "': " +:+ m
      | None => "[FILE_ERROR] " +:+ m
      end
  | PydanticValidationError model errs =>
      Py.str_of_nat (length errs) +:+ " validation error(s) for " +:+ model
      +:+ String.concat "" (map (fun e => "; " +:+ str_field_error e) errs)
  | OtherError m => m
  end.

Definition is_TTSValidationError (e : exn) : bool :=
  match e with TTSValidationError _ _ => true | _ => false end.

Definition is_TTSAPIError (e : exn) : bool :=
  match e with TTSAPIError _ _ _ => true | _ => false end.

(** The outcome of a call: a value, or a raised exception. *)
Inductive outcome (A : Type) : Type :=
| Return (a : A)
| Raise (e : exn).
Arguments Return {A} a.
Arguments Raise {A} e.

End Exceptions.
Export Exceptions.


(** ** models.py *)

Module Models.

Import Py.

Inductive Voice := ALLOY | ECHO | FABLE | ONYX | NOVA | SHIMMER.
Inductive AudioFormat := MP3 | OPUS | AAC | FLAC.
Inductive TTSModel := TTS_1 | TTS_1_HD.

Definition Voice_value (v : Voice) : string :=
  match v with
  | ALLOY => "alloy" | ECHO => "echo" | FABLE => "fable"
  | ONYX => "onyx" | NOVA => "nova" | SHIMMER => "shimmer"
  end.

Definition AudioFormat_value (f : AudioFormat) : string :=
  match f with
  | MP3 => "mp3" | OPUS => "opus" | AAC => "aac" | FLAC => "flac"
  end.

Definition TTSModel_value (m : TTSModel) : string :=
  match m with TTS_1 => "tts-1" | TTS_1_HD => "tts-1-hd" end.

(** The name of a member, as in [AudioFormat.MP3]. *)
Definition AudioFormat_name (f : AudioFormat) : string :=
  match f with
  | MP3 => "MP3" | OPUS => "OPUS" | AAC => "AAC" | FLAC => "FLAC"
  end.

Definition Voice_values : list string :=
  map Voice_value [ALLOY; ECHO; FABLE; ONYX; NOVA; SHIMMER].
Definition AudioFormat_values : list string :=
  map AudioFormat_value [MP3; OPUS; AAC; FLAC].
Definition TTSModel_values : list string :=
  map TTSModel_value [TTS_1; TTS_1_HD].

(** Membership of a value in an enumeration, as the enum field validator
    of pydantic decides it. *)
Definition is_member (values : list string) (s : string) : bool :=
  existsb (String.eqb s) values.

(** The result of validating one field: the error, or the value kept. *)
Definition checked (A : Type) : Type := (FieldError + A)%type.

Definition field_errors {A} (c : checked A) : list FieldError :=
  match c with inl e => [e] | inr _ => [] end.

(** [TTSRequest.validate_text]. *)
Definition validate_text (v : string) : checked string :=
  if negb (truthy_str (strip v))
  then inl {| loc := "text"; msg := "Text cannot be empty or only whitespace" |}
  else inr (strip v).

(** The field [text]: [Field(..., min_length=1, max_length=4096)], whose
    length checks pydantic runs on the value as given, and then the
    validator [validate_text]. *)
Definition check_text (v : string) : checked string :=
  if (String.length v <? 1)%nat
  then inl {| loc := "text"; msg := "ensure this value has at least 1 characters" |}
  else if (4096 <? String.length v)%nat
  then inl {| loc := "text"; msg := "ensure this value has at most 4096 characters" |}
  else validate_text v.

Definition check_enum (field : string) (values : list string) (v : string)
  : checked string :=
  if is_member values v then inr v
  else inl {| loc := field;
              msg := "value is not a valid enumeration member" |}.

(** [TTSRequest.validate_speed]: [if not 0.25 <= v <= 4.0: raise]. *)
Definition validate_speed (v : float) : checked float :=
  if negb (PrimFloat.leb 0.25 v && PrimFloat.leb v 4)
  then inl {| loc := "speed"; msg := "Speed must be between 0.25 and 4.0" |}
  else inr v.

(** The field [speed]: [Field(default=1.0, ge=0.25, le=4.0)], then
    [validate_speed]. *)
Definition check_speed (v : float) : checked float :=
  if negb (PrimFloat.leb 0.25 v)
  then inl {| loc := "speed";
              msg := "ensure this value is greater than or equal to 0.25" |}
  else if negb (PrimFloat.leb v 4)
  then inl {| loc := "speed";
              msg := "ensure this value is less than or equal to 4.0" |}
  else validate_speed v.

(** [use_enum_values = True]: the enumeration fields hold the string values. *)
Record TTSRequest := {
  text : string;
  voice : string;
  model : string;
  format : string;
  speed : float
}.

(** [TTSRequest(text=..., voice=..., model=..., format=..., speed=...)]:
    every field is validated, in the order of declaration, the errors of
    all fields are collected, and a [ValidationError] of pydantic is raised
    when there is one. *)
Definition TTSRequest_new (text_ voice_ model_ format_ : string) (speed_ : float)
  : outcome TTSRequest :=
  let c_text := check_text text_ in
  let c_voice := check_enum "voice" Voice_values voice_ in
  let c_model := check_enum "model" TTSModel_values model_ in
  let c_format := check_enum "format" AudioFormat_values format_ in
  let c_speed := check_speed speed_ in
  match c_text, c_voice, c_model, c_format, c_speed with
  | inr t, inr v, inr m, inr f, inr s =>
      Return {| text := t; voice := v; model := m; format := f; speed := s |}
  | _, _, _, _, _ =>
      Raise (PydanticValidationError "TTSRequest"
               (field_errors c_text ++ field_errors c_voice
                ++ field_errors c_model ++ field_errors c_format
                ++ field_errors c_speed)%list)
  end.

(** A value of the [metadata] dictionary. *)
Inductive MetaValue :=
| MStr (s : string)
| MFloat (f : float)
| MInt (z : Z)
| MBool (b : bool).

Record TTSResponse := {
  success : bool;
  audio_data : option bytes;
  file_path : option string;
  duration : option float;
  file_size : option Z;
  metadata : gmap string MetaValue;
  error : option string
}.

(** [TTSResponse(success=False, error=msg)].  The validator of [file_path]
    accepts [None], so no construction of the package can fail. *)
Definition TTSResponse_failure (message : string) : TTSResponse :=
  {| success := false; audio_data := None; file_path := None;
     duration := None; file_size := None; metadata := ∅;
     error := Some message |}.

Record BatchTTSResponse := {
  total_requests : Z;
  successful : Z;
  failed : Z;
  results : list TTSResponse;
  processing_time : float;
  errors : list string
}.

(** [BatchTTSResponse(...)] with its root validator [validate_counts]. *)
Definition BatchTTSResponse_new (total_requests_ successful_ failed_ : Z)
    (results_ : list TTSResponse) (processing_time_ : float)
    (errors_ : list string) : outcome BatchTTSResponse :=
  if negb (successful_ + failed_ =? total_requests_)
  then Raise (PydanticValidationError "BatchTTSResponse"
         [{| loc := "__root__";
             msg := "Successful and failed counts must equal total requests" |}])
  else if negb (Z.of_nat (length results_) =? total_requests_)
  then Raise (PydanticValidationError "BatchTTSResponse"
         [{| loc := "__root__";
             msg := "Number of results must equal total requests" |}])
  else Return {| total_requests := total_requests_;
                 successful := successful_;
                 failed := failed_;
                 results := results_;
                 processing_time := processing_time_;
                 errors := errors_ |}.

(** The part of [TTSConfig] the agent reads. *)
Record TTSConfig := {
  max_retries : nat;
  rate_limit_delay : float;
  default_voice : string;
  default_model : string;
  default_format : string;
  default_speed : float
}.

(** [TTSConfig()] *)
Definition TTSConfig_default : TTSConfig :=
  {| max_retries := 3; rate_limit_delay := 1;
     default_voice := "alloy"; default_model := "tts-1";
     default_format := "mp3"; default_speed := 1 |}.

(** [TTSConfig] with all its fields, as its constructor validates them. *)
Module ConfigModel.

Record TTSConfig := {
  api_key : option string;
  base_url : option string;
  timeout : Z;
  max_retries : Z;
  rate_limit_delay : float;
  default_voice : string;
  default_model : string;
  default_format : string;
  default_speed : float
}.

(** [TTSConfig.validate_api_key]. *)
Definition validate_api_key (v : option string) : checked (option string) :=
  match v with
  | Some k =>
      if negb (startswith k "sk-")
      then inl {| loc := "api_key";
                  msg := "OpenAI API key must start with 'sk-'" |}
      else inr v
  | None => inr v
  end.

(** [TTSConfig.validate_base_url]:
    [v.startswith(('http://', 'https://'))]. *)
Definition validate_base_url (v : option string) : checked (option string) :=
  match v with
  | Some u =>
      if negb (startswith u "http://" || startswith u "https://")
      then inl {| loc := "base_url";
                  msg := "Base URL must start with 'http://' or 'https://'" |}
      else inr v
  | None => inr v
  end.

(** An [int] field with [Field(ge=lo, le=hi)]. *)
Definition check_int (field : string) (lo hi v : Z) : checked Z :=
  if negb (lo <=? v)
  then inl {| loc := field;
              msg := "ensure this value is greater than or equal to "
                     +:+ str_of_Z lo |}
  else if negb (v <=? hi)
  then inl {| loc := field;
              msg := "ensure this value is less than or equal to "
                     +:+ str_of_Z hi |}
  else inr v.

(** A [float] field with [Field(ge=lo, le=hi)]; [lo_repr] and [hi_repr]
    are the bounds as the messages print them. *)
Definition check_float (field lo_repr hi_repr : string) (lo hi v : float)
  : checked float :=
  if negb (PrimFloat.leb lo v)
  then inl {| loc := field;
              msg := "ensure this value is greater than or equal to "
                     +:+ lo_repr |}
  else if negb (PrimFloat.leb v hi)
  then inl {| loc := field;
              msg := "ensure this value is less than or equal to "
                     +:+ hi_repr |}
  else inr v.

(** The binary64 number that the literal [0.1] denotes. *)
Definition one_tenth : float := 0x1.999999999999ap-4%float.

(** [TTSConfig(api_key=..., ..., default_speed=...)]: the fields are
    validated in the order of declaration and all their errors are
    reported together. *)
Definition TTSConfig_new (api_key_ base_url_ : option string)
    (timeout_ max_retries_ : Z) (rate_limit_delay_ : float)
    (default_voice_ default_model_ default_format_ : string)
    (default_speed_ : float) : outcome TTSConfig :=
  let c_key := validate_api_key api_key_ in
  let c_url := validate_base_url base_url_ in
  let c_timeout := check_int "timeout" 5 300 timeout_ in
  let c_retries := check_int "max_retries" 0 10 max_retries_ in
  let c_delay :=
    check_float "rate_limit_delay" "0.1" "10.0" one_tenth 10
                rate_limit_delay_ in
  let c_voice := check_enum "default_voice" Voice_values default_voice_ in
  let c_model := check_enum "default_model" TTSModel_values default_model_ in
  let c_format :=
    check_enum "default_format" AudioFormat_values default_format_ in
  let c_speed :=
    check_float "default_speed" "0.25" "4.0" 0.25 4 default_speed_ in
  match c_key, c_url, c_timeout, c_retries, c_delay,
        c_voice, c_model, c_format, c_speed with
  | inr k, inr u, inr t, inr r, inr d, inr v, inr m, inr f, inr s =>
      Return {| api_key := k; base_url := u; timeout := t;
                max_retries := r; rate_limit_delay := d;
                default_voice := v; default_model := m;
                default_format := f; default_speed := s |}
  | _, _, _, _, _, _, _, _, _ =>
      Raise (PydanticValidationError "TTSConfig"
               (field_errors c_key ++ field_errors c_url
                ++ field_errors c_timeout ++ field_errors c_retries
                ++ field_errors c_delay ++ field_errors c_voice
                ++ field_errors c_model ++ field_errors c_format
                ++ field_errors c_speed)%list)
  end.

End ConfigModel.

End Models.
Export Models.



(** ** The world a coroutine runs in *)

Module Effects.

Import Py.

(** What the Backend, the remote speech endpoint behind [self._client],
    answers to one call: the chunks [iter_bytes] yields, or the exception
    raised by the call or while the answer is read. *)
Inductive ApiOutcome :=
| ApiOk (chunks : list bytes)
| ApiFail (e : exn).

(** The Backend as one item sees it: the answer to the [n]-th call made for
    the item (counted from 0), given the validated request that is sent. *)
Definition Backend : Type := nat -> TTSRequest -> ApiOutcome.

(** The observable effects, in the order they happen. *)
Inductive Event :=
| EvAttempt (attempt : nat)      (* batch.py: one iteration of the retry loop *)
| EvApiCall (n : nat)            (* core.py: [audio.speech.create] *)
| EvSleepAgent (seconds : float) (* core.py: [asyncio.sleep] between API calls *)
| EvSleepEngine (seconds : Q)    (* batch.py: [asyncio.sleep] between attempts *)
| EvMkdir (path : string)
| EvCallback (chunk : bytes)     (* streaming.py: [chunk_callback(chunk)] *)
| EvLogWarning (message : string).

Record World := {
  api_calls : nat;
  trace : list Event;
  files : gmap string bytes
}.

Definition World_initial : World :=
  {| api_calls := 0; trace := []; files := ∅ |}.

(** What the interpreter and the operating system decide: [hash], the
    operations of [pathlib], and the failures of the file system. *)
Record Runtime := {
  py_hash : string -> Z;
  path_join : string -> string -> string;
  path_parent : string -> string;
  path_suffix : string -> string;
  path_with_suffix : string -> string -> outcome string;
  mkdir_error : string -> option exn;
  write_error : string -> option exn
}.

(** A coroutine: state in, outcome and state out. *)
Definition M (A : Type) : Type := World -> outcome A * World.

Definition ret {A} (a : A) : M A := fun w => (Return a, w).

Definition raise {A} (e : exn) : M A := fun w => (Raise e, w).

Definition bind {A B} (m : M A) (k : A -> M B) : M B :=
  fun w =>
    match m w with
    | (Return a, w') => k a w'
    | (Raise e, w') => (Raise e, w')
    end.

(** [try: m  except Exception as e: h e]. *)
Definition try_except {A} (m : M A) (h : exn -> M A) : M A :=
  fun w =>
    match m w with
    | (Return a, w') => (Return a, w')
    | (Raise e, w') => h e w'
    end.

Definition lift {A} (o : outcome A) : M A := fun w => (o, w).

(** The world after one more event. *)
Definition after (e : Event) (w : World) : World :=
  {| api_calls := api_calls w;
     trace := (trace w ++ [e])%list;
     files := files w |}.

Definition emit (e : Event) : M unit := fun w => (Return tt, after e w).

(** The next call of the Backend: it is counted and answered. *)
Definition call_backend (backend : Backend) (request : TTSRequest)
  : M ApiOutcome :=
  fun w =>
    let n := api_calls w in
    (Return (backend n request),
     {| api_calls := S n;
        trace := (trace w ++ [EvApiCall n])%list;
        files := files w |}).

(** [Path(p).mkdir(parents=True, exist_ok=True)]. *)
Definition mkdir (rt : Runtime) (p : string) : M unit :=
  bind (emit (EvMkdir p))
       (fun _ => match mkdir_error rt p with
                 | Some e => raise e
                 | None => ret tt
                 end).

(** [with open(p, 'wb') as f: f.write(data)].  Opening truncates the file;
    writing [None] raises a [TypeError] after that. *)
Definition write_file (rt : Runtime) (p : string) (data : option bytes)
  : M unit :=
  fun w =>
    match write_error rt p with
    | Some e => (Raise e, w)
    | None =>
        match data with
        | Some d =>
            (Return tt,
             {| api_calls := api_calls w; trace := trace w;
                files := <[p := d]> (files w) |})
        | None =>
            (Raise (OtherError "a bytes-like object is required, not 'NoneType'"),
             {| api_calls := api_calls w; trace := trace w;
                files := <[p := []]> (files w) |})
        end
    end.

(** The events of the retry loop of the engine: its attempts and its
    sleeps. *)
Definition is_engine_event (e : Event) : bool :=
  match e with
  | EvAttempt _ | EvSleepEngine _ => true
  | _ => false
  end.

Definition engine_events (tr : list Event) : list Event :=
  List.filter is_engine_event tr.

(** The sleeps in a trace, of the engine and of the agent. *)
Definition is_sleep (e : Event) : bool :=
  match e with
  | EvSleepAgent _ | EvSleepEngine _ => true
  | _ => false
  end.

Definition sleeps (tr : list Event) : list Event := List.filter is_sleep tr.

(** The number of attempts of the engine in a trace. *)
Definition is_attempt (e : Event) : bool :=
  match e with EvAttempt _ => true | _ => false end.

Definition attempts (tr : list Event) : nat :=
  length (List.filter is_attempt tr).

(** A file system on which no operation fails. *)
Definition reliable (rt : Runtime) : Prop :=
  (forall p, mkdir_error rt p = None) /\
  (forall p, write_error rt p = None) /\
  (forall p s, exists p', path_with_suffix rt p s = Return p').

End Effects.
Export Effects.

Notation "'let*' x ':=' m 'in' k" := (bind m (fun x => k))
  (at level 10, x name, m at level 100, k at level 200).
Notation "m ';;' k" := (bind m (fun _ => k))
  (at level 100, k at level 200, right associativity).

(** ** core.py *)

Module Core.

Import Py.

(** The loop of [TTSAgent._call_openai_api]:
    [for attempt in range(self.config.max_retries + 1)].  [iterations] is
    the number of iterations left; a loop that ends without [return] makes
    the method return [None].  The duration of a sleep,
    [self.config.rate_limit_delay * (attempt + 1)], is the product of a
    float and an [int], so a float: 0.1 * 3 is 0.30000000000000004. *)
Fixpoint api_retry_loop (cfg : TTSConfig) (backend : Backend)
    (request : TTSRequest) (iterations attempt : nat) : M (option bytes) :=
  match iterations with
  | O => ret None
  | S iterations' =>
      let* answer := call_backend backend request in
      match answer with
      | ApiOk chunks => ret (Some (join chunks))
      | ApiFail e =>
          if (attempt <? max_retries cfg)%nat
          then
            emit (EvSleepAgent
                    (rate_limit_delay cfg * float_of_nat (attempt + 1))) ;;
            api_retry_loop cfg backend request iterations' (S attempt)
          else
            raise (TTSAPIError
                     ("API call failed after "
                      +:+ str_of_nat (max_retries cfg + 1)
                      +:+ " attempts: " +:+ str e) None None)
      end
  end.

(** [TTSAgent._call_openai_api].  The client is set by [__init__], and the
    statements of the outer [try] other than the loop do not raise. *)
Definition call_openai_api (cfg : TTSConfig) (backend : Backend)
    (request : TTSRequest) : M (option bytes) :=
  api_retry_loop cfg backend request (max_retries cfg + 1) 0.

(** [if not output_path.suffix:
        output_path = output_path.with_suffix(f".{format}")] *)
Definition ensure_suffix (rt : Runtime) (output_path format_ : string)
  : outcome string :=
  if truthy_str (path_suffix rt output_path) then Return output_path
  else path_with_suffix rt output_path ("." +:+ format_).

(** [TTSAgent._save_audio_file]. *)
Definition save_audio_file (rt : Runtime) (audio : option bytes)
    (output_path : string) (format_ : string) : M string :=
  fun w =>
    match ensure_suffix rt output_path format_ with
    | Raise e =>
        (Raise (TTSFileError ("Failed to save audio file: " +:+ str e)
                             (Some output_path)), w)
    | Return p =>
        match (mkdir rt (path_parent rt p) ;; write_file rt p audio) w with
        | (Return _, w') => (Return p, w')
        | (Raise e, w') =>
            (Raise (TTSFileError ("Failed to save audio file: " +:+ str e)
                                 (Some p)), w')
        end
    end.

Definition len_bytes (b : bytes) : Z := Z.of_nat (length b).

(** The [metadata] dictionary of a successful response. *)
Definition response_metadata (request : TTSRequest) (text_ : string)
  : gmap string MetaValue :=
  <["voice" := MStr (voice request)]>
  (<["model" := MStr (model request)]>
  (<["format" := MStr (format request)]>
  (<["speed" := MFloat (speed request)]>
  (<["text_length" := MInt (Z.of_nat (String.length text_))]> ∅)))).

(** [TTSRequest(text=text, voice=voice or self.config.default_voice, ...)],
    the request that [generate_speech] and [stream_speech] build first. *)
Definition build_request (cfg : TTSConfig) (text_ : string)
    (voice_ model_ format_ : option string) (speed_ : option float)
  : outcome TTSRequest :=
  TTSRequest_new text_
    (or_str voice_ (default_voice cfg))
    (or_str model_ (default_model cfg))
    (or_str format_ (default_format cfg))
    (or_float speed_ (default_speed cfg)).

(** The body of the [try] of [TTSAgent.generate_speech]. *)
Definition generate_speech_body (rt : Runtime) (cfg : TTSConfig)
    (backend : Backend) (text_ : string) (voice_ model_ format_ : option string)
    (speed_ : option float) (output_path : option string) : M TTSResponse :=
  let* request :=
    lift (build_request cfg text_ voice_ model_ format_ speed_) in
  let* audio := call_openai_api cfg backend request in
  let response :=
    {| success := true;
       audio_data := audio;
       file_path := None;
       duration := None;
       file_size :=
         match audio with
         | Some [] | None => None
         | Some d => Some (len_bytes d)
         end;
       metadata := response_metadata request text_;
       error := None |} in
  match output_path with
  | Some p =>
      if truthy_str p then
        let* saved := save_audio_file rt audio p (format request) in
        ret {| success := success response;
               audio_data := audio_data response;
               file_path := Some saved;
               duration := duration response;
               file_size := file_size response;
               metadata := metadata response;
               error := error response |}
      else ret response
  | None => ret response
  end.

(** [TTSAgent.generate_speech]: [TTSValidationError] and [TTSAPIError] are
    raised again, any other exception becomes a failed response. *)
Definition generate_speech (rt : Runtime) (cfg : TTSConfig)
    (backend : Backend) (text_ : string) (voice_ model_ format_ : option string)
    (speed_ : option float) (output_path : option string) : M TTSResponse :=
  try_except
    (generate_speech_body rt cfg backend text_ voice_ model_ format_ speed_
                          output_path)
    (fun e =>
       if is_TTSValidationError e || is_TTSAPIError e then raise e
       else ret (TTSResponse_failure ("Unexpected error: " +:+ str e))).

(** [TTSAgent._call_openai_api_streaming]: one call of the streaming
    endpoint, no retry; every exception becomes a [TTSAPIError]. *)
Definition call_openai_api_streaming (backend : Backend)
    (request : TTSRequest) : M bytes :=
  let* answer := call_backend backend request in
  match answer with
  | ApiOk chunks => ret (join chunks)
  | ApiFail e =>
      raise (TTSAPIError ("Streaming API call failed: " +:+ str e) None None)
  end.

(** The body of the [try] of [TTSAgent.generate_speech_streaming]. *)
Definition generate_speech_streaming_body (rt : Runtime) (cfg : TTSConfig)
    (backend : Backend) (text_ : string) (voice_ model_ format_ : option string)
    (speed_ : option float) (output_path : option string) : M TTSResponse :=
  let* request :=
    lift (build_request cfg text_ voice_ model_ format_ speed_) in
  let* audio := call_openai_api_streaming backend request in
  let response :=
    {| success := true;
       audio_data := Some audio;
       file_path := None;
       duration := None;
       file_size :=
         match audio with
         | [] => None
         | d => Some (len_bytes d)
         end;
       metadata :=
         <["streaming" := MBool true]> (response_metadata request text_);
       error := None |} in
  match output_path with
  | Some p =>
      if truthy_str p then
        let* saved := save_audio_file rt (Some audio) p (format request) in
        ret {| success := success response;
               audio_data := audio_data response;
               file_path := Some saved;
               duration := duration response;
               file_size := file_size response;
               metadata := metadata response;
               error := error response |}
      else ret response
  | None => ret response
  end.

(** [TTSAgent.generate_speech_streaming]: every exception becomes a failed
    response. *)
Definition generate_speech_streaming (rt : Runtime) (cfg : TTSConfig)
    (backend : Backend) (text_ : string) (voice_ model_ format_ : option string)
    (speed_ : option float) (output_path : option string) : M TTSResponse :=
  try_except
    (generate_speech_streaming_body rt cfg backend text_ voice_ model_ format_
                                    speed_ output_path)
    (fun e => ret (TTSResponse_failure ("Unexpected error: " +:+ str e))).

(** [TTSAgent.get_available_voices], [get_available_models] and
    [get_available_formats]: [list(Voice)] and so on, the members in the
    order of their definition. *)
Definition get_available_voices : list Voice :=
  [ALLOY; ECHO; FABLE; ONYX; NOVA; SHIMMER].
Definition get_available_models : list TTSModel := [TTS_1; TTS_1_HD].
Definition get_available_formats : list AudioFormat := [MP3; OPUS; AAC; FLAC].

(** The calls of one run of [_call_openai_api] with the sleeps between
    them: the call number [first], made in the iteration [attempt], then
    [retries] times a sleep and the next call.  It ends with a call. *)
Fixpoint agent_schedule (cfg : TTSConfig) (first attempt retries : nat)
  : list Event :=
  match retries with
  | O => [EvApiCall first]
  | S retries' =>
      EvApiCall first
      :: EvSleepAgent (rate_limit_delay cfg * float_of_nat (attempt + 1))
      :: agent_schedule cfg (S first) (S attempt) retries'
  end.

End Core.
Export Core.


(** ** batch.py *)

Module Batch.

Import Py.

(** What is outside the program, for one item: the Backend as the item
    sees it, the exception that entering the semaphore or the throttler
    raises, if any, and whether the task of the item is cancelled. *)
Record ItemEnv := {
  item_backend : Backend;
  item_gate : option exn;
  item_cancelled : bool
}.

(** What is outside the program, for one call of [process_batch]. *)
Record BatchEnv := {
  rt : Runtime;
  cfg : TTSConfig;
  items : nat -> ItemEnv;
  time_start : float;
  time_end : float
}.

(** [f"tts_{hash(request.text) % 1000000}.{request.format}"], for a
    request whose format is held as a [str], as it is when the format was
    given to [TTSRequest] or assigned to it ([use_enum_values]).  A request
    built without a format holds the member [AudioFormat.MP3], which an
    f-string renders as its value only up to Python 3.10. *)
Definition filename (rt_ : Runtime) (request : TTSRequest) : string :=
  "tts_" +:+ str_of_Z (py_hash rt_ (text request) mod 1000000)
  +:+ "." +:+ format request.

(** [asyncio.sleep(1.0 * (attempt + 1))] *)
Definition backoff (attempt : nat) : Q := 1 * inject_Z (Z.of_nat (attempt + 1)).

(** The loop of [BatchProcessor._process_single_request]:
    [for attempt in range(retry_attempts + 1)], with [iterations] the
    number of iterations left.  [retry_attempts] is not negative: this is
    the contract of the engine, and [BatchTTSRequest] bounds it by 0 and
    10. *)
Fixpoint retry_loop (rt_ : Runtime) (cfg_ : TTSConfig) (backend : Backend)
    (request : TTSRequest) (output_directory : option string)
    (retry_attempts iterations attempt : nat) : M TTSResponse :=
  match iterations with
  | O => ret (TTSResponse_failure "Unexpected error in retry logic")
  | S iterations' =>
      fun w =>
        let output_path :=
          match output_directory with
          | Some d => Some (path_join rt_ d (filename rt_ request))
          | None => None
          end in
        match (emit (EvAttempt attempt) ;;
               generate_speech rt_ cfg_ backend (text request)
                 (Some (voice request)) (Some (model request))
                 (Some (format request)) (Some (speed request)) output_path) w
        with
        | (Return response, w1) =>
            if success response then (Return response, w1)
            else if (attempt <? retry_attempts)%nat
            then (emit (EvSleepEngine (backoff attempt)) ;;
                  retry_loop rt_ cfg_ backend request output_directory
                             retry_attempts iterations' (S attempt)) w1
            else (Return response, w1)
        | (Raise e, w1) =>
            if (attempt <? retry_attempts)%nat
            then (emit (EvSleepEngine (backoff attempt)) ;;
                  retry_loop rt_ cfg_ backend request output_directory
                             retry_attempts iterations' (S attempt)) w1
            else (Return (TTSResponse_failure
                            ("Failed after " +:+ str_of_nat (retry_attempts + 1)
                             +:+ " attempts: " +:+ str e)), w1)
        end
  end.

(** [BatchProcessor._process_single_request].  The semaphore and the
    throttler delay the item; they change no value the item computes. *)
Definition process_single_request (rt_ : Runtime) (cfg_ : TTSConfig)
    (item : ItemEnv) (request : TTSRequest) (output_directory : option string)
    (retry_attempts : nat) : M TTSResponse :=
  match item_gate item with
  | Some e => raise e
  | None =>
      retry_loop rt_ cfg_ (item_backend item) request output_directory
                 retry_attempts (retry_attempts + 1) 0
  end.

(** What [asyncio.gather(..., return_exceptions=True)] collects for a task:
    the response it returned, the exception it raised, or a cancellation,
    which is no [Exception] and no [TTSResponse]. *)
Inductive TaskResult :=
| TaskReturned (r : TTSResponse)
| TaskRaised (e : exn)
| TaskCancelled.

(** The task of one item, started in a world of its own. *)
Definition run_task (rt_ : Runtime) (cfg_ : TTSConfig) (item : ItemEnv)
    (request : TTSRequest) (output_directory : option string)
    (retry_attempts : nat) : TaskResult * World :=
  if item_cancelled item then (TaskCancelled, World_initial)
  else
    match process_single_request rt_ cfg_ item request output_directory
                                 retry_attempts World_initial with
    | (Return r, w) => (TaskReturned r, w)
    | (Raise e, w) => (TaskRaised e, w)
    end.

(** *** asyncio.gather

    Every child holds its own result once it is done; when the number of
    finished children reaches the number of children, the results are read
    from the children in the order the children were given. *)
Record Gathering (A : Type) := {
  children : list (option A);
  nfinished : nat;
  outer : option (list A)
}.
Arguments children {A} g.
Arguments nfinished {A} g.
Arguments outer {A} g.

Definition gather_start {A} (n : nat) : Gathering A :=
  {| children := replicate n None;
     nfinished := 0;
     outer := if (n =? 0)%nat then Some [] else None |}.

(** The child [i] finishes with its result. *)
Definition child_done {A} (task_results : list A) (g : Gathering A) (i : nat)
  : Gathering A :=
  match task_results !! i with
  | None => g
  | Some r =>
      let children' := <[i := Some r]> (children g) in
      let nfinished' := S (nfinished g) in
      {| children := children';
         nfinished := nfinished';
         outer := if (nfinished' =? length children')%nat
                  then mapM id children' else outer g |}
  end.

(** [await asyncio.gather] of the tasks, with [return_exceptions=True] when the tasks
    finish in the order [completion]; [None] when the awaited future is never
    resolved. *)
Definition gather {A} (completion : list nat) (task_results : list A)
  : option (list A) :=
  outer (foldl (child_done task_results)
               (gather_start (length task_results)) completion).

(** What holds of a gathering after the children listed in [finished] are
    done: every child that is done holds its result, the others hold none,
    and the awaited future is resolved, with the results in the order of the
    children, once all of them are done. *)
Definition gather_inv {A} (task_results : list A) (finished : list nat)
    (g : Gathering A) : Prop :=
  length (children g) = length task_results /\
  nfinished g = length finished /\
  (forall i, (i < length task_results)%nat ->
     children g !! i =
       Some (if bool_decide (i ∈ finished) then task_results !! i else None)) /\
  ((length finished < length task_results)%nat -> outer g = None) /\
  (length finished = length task_results -> outer g = Some task_results).

(** *** process_batch *)

(** The four accumulators of the loop over [enumerate(results)]. *)
Record Tally := {
  n_successful : Z;
  n_failed : Z;
  error_list : list string;
  processed_results : list TTSResponse
}.

Definition Tally_initial : Tally :=
  {| n_successful := 0; n_failed := 0; error_list := [];
     processed_results := [] |}.

Definition request_error (i : nat) (message : string) : string :=
  "Request " +:+ str_of_nat i +:+ ": " +:+ message.

(** One iteration of [for i, result in enumerate(results)]. *)
Definition tally_step (t : Tally) (entry : nat * TaskResult) : Tally :=
  let '(i, result) := entry in
  match result with
  | TaskRaised e =>
      let error_msg := request_error i (str e) in
      {| n_successful := n_successful t;
         n_failed := n_failed t + 1;
         error_list := (error_list t ++ [error_msg])%list;
         processed_results :=
           (processed_results t ++ [TTSResponse_failure error_msg])%list |}
  | TaskReturned r =>
      if success r then
        {| n_successful := n_successful t + 1;
           n_failed := n_failed t;
           error_list := error_list t;
           processed_results := (processed_results t ++ [r])%list |}
      else
        {| n_successful := n_successful t;
           n_failed := n_failed t + 1;
           error_list :=
             match error r with
             | Some m =>
                 if truthy_str m
                 then (error_list t ++ [request_error i m])%list
                 else error_list t
             | None => error_list t
             end;
           processed_results := (processed_results t ++ [r])%list |}
  | TaskCancelled =>
      let error_msg := request_error i "Unknown error" in
      {| n_successful := n_successful t;
         n_failed := n_failed t + 1;
         error_list := (error_list t ++ [error_msg])%list;
         processed_results :=
           (processed_results t ++ [TTSResponse_failure error_msg])%list |}
  end.

(** [for i, result in enumerate(results)], from the index [i] on. *)
Fixpoint tally_loop (i : nat) (t : Tally) (task_results : list TaskResult)
  : Tally :=
  match task_results with
  | [] => t
  | result :: rest => tally_loop (S i) (tally_step t (i, result)) rest
  end.

Definition tally (task_results : list TaskResult) : Tally :=
  tally_loop 0 Tally_initial task_results.

(** The two checks at the head of the [try]. *)
Definition check_batch (requests : list TTSRequest) : outcome unit :=
  match requests with
  | [] => Raise (TTSValidationError
                   "No requests provided for batch processing" None)
  | _ =>
      if (100 <? length requests)%nat
      then Raise (TTSValidationError
                    "Maximum 100 requests allowed per batch" None)
      else Return tt
  end.

(** [if output_directory: ... mkdir ... else: output_dir = None] *)
Definition prepare_output_directory (rt_ : Runtime)
    (output_directory : option string) : M (option string) :=
  match output_directory with
  | Some d =>
      if truthy_str d then (mkdir rt_ d ;; ret (Some d)) else ret None
  | None => ret None
  end.

(** The tasks of the batch, one for each request, in the order of the
    requests. *)
Definition dispatch (env : BatchEnv) (requests : list TTSRequest)
    (output_dir : option string) (retry_attempts : nat)
  : list (TaskResult * World) :=
  imap (fun i request =>
          run_task (rt env) (cfg env) (items env i) request output_dir
                   retry_attempts)
       requests.

Definition elapsed (env : BatchEnv) : float :=
  PrimFloat.sub (time_end env) (time_start env).

(** The [except Exception as e] clause of [process_batch]. *)
Definition batch_failure (env : BatchEnv) (requests : list TTSRequest)
    (e : exn) : outcome BatchTTSResponse :=
  BatchTTSResponse_new
    (Z.of_nat (length requests)) 0 (Z.of_nat (length requests))
    (map (fun _ => TTSResponse_failure (str e)) requests)
    (elapsed env) [str e].

(** One call of [process_batch]: what the caller gets ([None] when the call
    never returns), the world of the call itself, and the world of each task
    that was started. *)
Record BatchRun := {
  batch_result : option (outcome BatchTTSResponse);
  batch_world : World;
  item_worlds : list World
}.

(** The body of the [try] of [BatchProcessor.process_batch].  [completion]
    is the order in which the tasks finish. *)
Definition process_batch_try (env : BatchEnv) (requests : list TTSRequest)
    (output_directory : option string) (retry_attempts : nat)
    (completion : list nat) : BatchRun :=
  match check_batch requests with
  | Raise e =>
      {| batch_result := Some (Raise e);
         batch_world := World_initial;
         item_worlds := [] |}
  | Return _ =>
      match prepare_output_directory (rt env) output_directory World_initial
      with
      | (Raise e, w) =>
          {| batch_result := Some (Raise e);
             batch_world := w;
             item_worlds := [] |}
      | (Return output_dir, w) =>
          let runs := dispatch env requests output_dir retry_attempts in
          match gather completion (runs.*1) with
          | None =>
              {| batch_result := None;
                 batch_world := w;
                 item_worlds := runs.*2 |}
          | Some task_results =>
              let t := tally task_results in
              {| batch_result :=
                   Some (BatchTTSResponse_new
                           (Z.of_nat (length requests))
                           (n_successful t) (n_failed t)
                           (processed_results t) (elapsed env)
                           (error_list t));
                 batch_world := w;
                 item_worlds := runs.*2 |}
          end
      end
  end.

(** [BatchProcessor.process_batch]: the [try] and its
    [except Exception as e] clause. *)
Definition process_batch (env : BatchEnv) (requests : list TTSRequest)
    (output_directory : option string) (retry_attempts : nat)
    (completion : list nat) : BatchRun :=
  let run :=
    process_batch_try env requests output_directory retry_attempts completion in
  match batch_result run with
  | Some (Raise e) =>
      {| batch_result := Some (batch_failure env requests e);
         batch_world := batch_world run;
         item_worlds := item_worlds run |}
  | _ => run
  end.

(** The message of the validation error of a batch that is empty or too
    large, as [str] renders it. *)
Definition malformed_message (requests : list TTSRequest) : string :=
  match requests with
  | [] => "[VALIDATION_ERROR] No requests provided for batch processing"
  | _ => "[VALIDATION_ERROR] Maximum 100 requests allowed per batch"
  end.

(** The request that [generate_speech] builds from the fields of an item. *)
Definition item_request (cfg_ : TTSConfig) (request : TTSRequest)
  : outcome TTSRequest :=
  build_request cfg_ (text request) (Some (voice request))
    (Some (model request)) (Some (format request)) (Some (speed request)).

(** Attempts with the sleeps between them: the attempt [first], then
    [retries] times a sleep of as many seconds as the number of the retry
    and the next attempt.  It ends with an attempt. *)
Fixpoint engine_schedule (first retries : nat) : list Event :=
  match retries with
  | O => [EvAttempt first]
  | S retries' =>
      EvAttempt first
      :: EvSleepEngine (inject_Z (Z.of_nat (S first)))
      :: engine_schedule (S first) retries'
  end.

(** The sleeps of the agent in one run of [_call_openai_api] in which [k]
    calls are retried, from the iteration [attempt] on. *)
Fixpoint agent_sleeps (cfg_ : TTSConfig) (attempt k : nat) : list Event :=
  match k with
  | O => []
  | S k' =>
      EvSleepAgent (rate_limit_delay cfg_ * float_of_nat (attempt + 1))
      :: agent_sleeps cfg_ (S attempt) k'
  end.

(** The sleeps of an item.  [ks] holds, for each attempt of the engine
    from the attempt [attempt] on, the number of calls that the agent
    retried in it: the sleeps of the agent in the attempt, then, before the
    next attempt, the sleep of the engine. *)
Fixpoint item_sleeps (cfg_ : TTSConfig) (attempt : nat) (ks : list nat)
  : list Event :=
  match ks with
  | [] => []
  | k :: ks' =>
      agent_sleeps cfg_ 0 k
      ++ match ks' with
         | [] => []
         | _ :: _ =>
             EvSleepEngine (inject_Z (Z.of_nat (S attempt)))
             :: item_sleeps cfg_ (S attempt) ks'
         end
  end.

(** The response that the loop of [process_batch] appends for the entry
    [i] of [enumerate(results)]. *)
Definition item_outcome (i : nat) (result : TaskResult) : TTSResponse :=
  match result with
  | TaskReturned r => r
  | TaskRaised e => TTSResponse_failure (request_error i (str e))
  | TaskCancelled => TTSResponse_failure (request_error i "Unknown error")
  end.

(** *** models.py: BatchTTSRequest, and process_batch_from_config *)

Module BatchRequest.

(** A [Path] is held as its string. *)
Record BatchTTSRequest := {
  requests : list TTSRequest;
  output_directory : option string;
  concurrent_limit : Z;
  retry_attempts : Z
}.

(** The field [requests]: [Field(..., min_items=1, max_items=100)], then
    [validate_requests], which raises on an empty list. *)
Definition check_requests (v : list TTSRequest) : checked (list TTSRequest) :=
  if (length v <? 1)%nat
  then inl {| loc := "requests";
              msg := "ensure this value has at least 1 items" |}
  else if (100 <? length v)%nat
  then inl {| loc := "requests";
              msg := "ensure this value has at most 100 items" |}
  else
    match v with
    | [] => inl {| loc := "requests";
                   msg := "At least one TTS request is required" |}
    | _ => inr v
    end.

(** [BatchTTSRequest(requests=..., output_directory=..., ...)].  The
    validator of [output_directory] creates the directory; an [OSError] of
    [mkdir] is none of the errors pydantic collects, so it leaves the
    constructor as it is. *)
Definition BatchTTSRequest_new (rt_ : Runtime) (requests_ : list TTSRequest)
    (output_directory_ : option string) (concurrent_limit_ retry_attempts_ : Z)
  : M BatchTTSRequest :=
  let c_requests := check_requests requests_ in
  let output_dir := path_str <$> output_directory_ in
  match output_dir with
  | Some d => mkdir rt_ d
  | None => ret tt
  end ;;
  let c_limit :=
    ConfigModel.check_int "concurrent_limit" 1 20 concurrent_limit_ in
  let c_retry :=
    ConfigModel.check_int "retry_attempts" 0 10 retry_attempts_ in
  match c_requests, c_limit, c_retry with
  | inr rs, inr l, inr r =>
      ret {| requests := rs; output_directory := output_dir;
             concurrent_limit := l; retry_attempts := r |}
  | _, _, _ =>
      raise (PydanticValidationError "BatchTTSRequest"
               (field_errors c_requests ++ field_errors c_limit
                ++ field_errors c_retry)%list)
  end.

End BatchRequest.

(** [BatchProcessor.process_batch_from_config].  The concurrency limit of
    the request is not read. *)
Definition process_batch_from_config (env : BatchEnv)
    (batch_request : BatchRequest.BatchTTSRequest) (completion : list nat)
  : BatchRun :=
  process_batch env
    (BatchRequest.requests batch_request)
    (BatchRequest.output_directory batch_request)
    (Z.to_nat (BatchRequest.retry_attempts batch_request))
    completion.

End Batch.
Export Batch.


(** ** streaming.py *)

Module Streaming.

Import Py.

(** What the Backend answers to one streaming call: the chunks
    [iter_bytes(chunk_size)] yields and, when the call or the transfer
    fails, the exception raised after them. *)
Definition StreamBackend : Type := TTSRequest -> list bytes * option exn.

(** [chunk_callback]: what the call with a chunk raises, if anything. *)
Definition Callback : Type := bytes -> option exn.

(** One step of a generator. *)
Inductive GenStep (A : Type) : Type :=
| Yield (a : A)
| Stop
| Throw (e : exn).
Arguments Yield {A} a.
Arguments Stop {A}.
Arguments Throw {A} e.

Definition truthy_bytes (b : bytes) : bool :=
  match b with [] => false | _ => true end.

(** [StreamingTTS._stream_audio_chunks], one [__anext__]: the chunks left
    are read until one is not empty.  The client is set by the constructor
    of the agent. *)
Fixpoint stream_audio_chunks_next (source : list bytes) (failure : option exn)
  : GenStep bytes * list bytes :=
  match source with
  | [] =>
      match failure with
      | Some e =>
          (Throw (TTSAPIError ("Streaming API call failed: " +:+ str e)
                              None None), [])
      | None => (Stop, [])
      end
  | chunk :: source' =>
      if truthy_bytes chunk then (Yield chunk, source')
      else stream_audio_chunks_next source' failure
  end.

(** [StreamingTTS._save_streaming_audio]. *)
Definition save_streaming_audio (rt : Runtime) (audio : bytes)
    (output_path : string) (format_ : string) : M string :=
  fun w =>
    match ensure_suffix rt output_path format_ with
    | Raise e =>
        (Raise (TTSAgentError ("Failed to save streaming audio: " +:+ str e)
                              None), w)
    | Return p =>
        match (mkdir rt (path_parent rt p) ;; write_file rt p (Some audio)) w
        with
        | (Return _, w') => (Return p, w')
        | (Raise e, w') =>
            (Raise (TTSAgentError
                      ("Failed to save streaming audio: " +:+ str e) None), w')
        end
    end.

(** The arguments of one call of [stream_speech]. *)
Record StreamCall := {
  s_text : string;
  s_voice : option string;
  s_model : option string;
  s_format : option string;
  s_speed : option float;
  s_output_path : option string;
  s_chunk_callback : option Callback
}.

(** Where the generator [stream_speech] stands between two steps. *)
Inductive StreamState :=
| Fresh
| Running (request : TTSRequest) (source : list bytes)
          (failure : option exn) (audio_chunks : list bytes)
| Closed.

(** [raise TTSAgentError(f"Streaming speech failed: {str(e)}")] *)
Definition streaming_failed (e : exn) : exn :=
  TTSAgentError ("Streaming speech failed: " +:+ str e) None.

(** The call of the callback inside its own [try]. *)
Definition call_chunk_callback (callback : option Callback) (chunk : bytes)
  : M unit :=
  match callback with
  | Some cb =>
      emit (EvCallback chunk) ;;
      match cb chunk with
      | Some e => emit (EvLogWarning ("Chunk callback error: " +:+ str e))
      | None => ret tt
      end
  | None => ret tt
  end.

(** One step of the loop of [stream_speech] and of what follows the loop. *)
Definition stream_speech_running (rt : Runtime) (call : StreamCall)
    (request : TTSRequest) (source : list bytes) (failure : option exn)
    (audio_chunks : list bytes) : World -> GenStep bytes * StreamState * World :=
  fun w =>
    match stream_audio_chunks_next source failure with
    | (Yield chunk, source') =>
        let audio_chunks' := (audio_chunks ++ [chunk])%list in
        let '(_, w') := call_chunk_callback (s_chunk_callback call) chunk w in
        (Yield chunk, Running request source' failure audio_chunks', w')
    | (Stop, _) =>
        match s_output_path call with
        | Some p =>
            if truthy_str p && bool_decide (audio_chunks <> [])
            then
              match save_streaming_audio rt (join audio_chunks) p
                                         (format request) w with
              | (Return _, w') => (Stop, Closed, w')
              | (Raise e, w') => (Throw (streaming_failed e), Closed, w')
              end
            else (Stop, Closed, w)
        | None => (Stop, Closed, w)
        end
    | (Throw e, _) => (Throw (streaming_failed e), Closed, w)
    end.

(** [StreamingTTS.stream_speech], one [__anext__]. *)
Definition stream_speech_next (rt : Runtime) (cfg : TTSConfig)
    (backend : StreamBackend) (call : StreamCall) (st : StreamState)
  : World -> GenStep bytes * StreamState * World :=
  fun w =>
    match st with
    | Fresh =>
        match build_request cfg (s_text call) (s_voice call) (s_model call)
                (s_format call) (s_speed call) with
        | Raise e => (Throw (streaming_failed e), Closed, w)
        | Return request =>
            let '(source, failure) := backend request in
            stream_speech_running rt call request source failure [] w
        end
    | Running request source failure audio_chunks =>
        stream_speech_running rt call request source failure audio_chunks w
    | Closed => (Stop, Closed, w)
    end.

(** What a consumer [async for chunk in stream_speech(...)] has seen. *)
Record Consumed := {
  yielded : list bytes;
  ending : option (option exn)
    (* [None]: still running; [Some None]: the generator is exhausted;
       [Some (Some e)]: it raised [e] *)
}.

(** The consumer takes at most [steps] steps. *)
Fixpoint consume (rt : Runtime) (cfg : TTSConfig) (backend : StreamBackend)
    (call : StreamCall) (steps : nat) (st : StreamState) (w : World)
  : Consumed * World :=
  match steps with
  | O => ({| yielded := []; ending := None |}, w)
  | S steps' =>
      match stream_speech_next rt cfg backend call st w with
      | (Yield chunk, st', w') =>
          let '(c, w'') := consume rt cfg backend call steps' st' w' in
          ({| yielded := chunk :: yielded c; ending := ending c |}, w'')
      | (Stop, _, w') => ({| yielded := []; ending := Some None |}, w')
      | (Throw e, _, w') => ({| yielded := []; ending := Some (Some e) |}, w')
      end
  end.

(** The chunks that are not empty, in their order. *)
Definition nonempty_chunks (chunks : list bytes) : list bytes :=
  List.filter truthy_bytes chunks.

(** The events of the callback for one chunk: the call and, when the call
    raises, the warning that is logged. *)
Definition callback_events (callback : option Callback) (chunk : bytes)
  : list Event :=
  match callback with
  | Some cb =>
      EvCallback chunk
      :: match cb chunk with
         | Some e => [EvLogWarning ("Chunk callback error: " +:+ str e)]
         | None => []
         end
  | None => []
  end.

Definition is_callback_event (e : Event) : bool :=
  match e with
  | EvCallback _ | EvLogWarning _ => true
  | _ => false
  end.

(** The file that a stream is saved to, when an output path is given and
    the extension can be added. *)
Definition stream_target (rt : Runtime) (call : StreamCall)
    (request : TTSRequest) : option string :=
  match s_output_path call with
  | Some p =>
      if truthy_str p then
        match ensure_suffix rt p (format request) with
        | Return p' => Some p'
        | Raise _ => None
        end
      else None
  | None => None
  end.

(** *** stream_speech_to_file *)

(** [aiofiles.open(p, 'wb')]: the file is created, or emptied.  As for
    [write_file], the file system decides at this point whether the file
    can be written. *)
Definition open_wb (rt : Runtime) (p : string) : M unit :=
  fun w =>
    match write_error rt p with
    | Some e => (Raise e, w)
    | None =>
        (Return tt,
         {| api_calls := api_calls w; trace := trace w;
            files := <[p := []]> (files w) |})
    end.

(** [await f.write(chunk)] on the file opened at [p]. *)
Definition write_chunk (p : string) (chunk : bytes) (w : World) : World :=
  {| api_calls := api_calls w; trace := trace w;
     files := <[p := (default [] (files w !! p) ++ chunk)%list]> (files w) |}.

(** [async for chunk in self.stream_speech(...): await f.write(chunk)],
    for at most [steps] steps of the generator; [None] when the loop is
    still running after them. *)
Fixpoint write_chunks (rt : Runtime) (cfg : TTSConfig)
    (backend : StreamBackend) (call : StreamCall) (p : string) (steps : nat)
    (st : StreamState) (w : World) : option (outcome unit) * World :=
  match steps with
  | O => (None, w)
  | S steps' =>
      match stream_speech_next rt cfg backend call st w with
      | (Yield chunk, st', w') =>
          write_chunks rt cfg backend call p steps' st' (write_chunk p chunk w')
      | (Stop, _, w') => (Some (Return tt), w')
      | (Throw e, _, w') => (Some (Raise e), w')
      end
  end.

(** [raise TTSAgentError(f"Streaming to file failed: {str(e)}")] *)
Definition streaming_to_file_failed (e : exn) : exn :=
  TTSAgentError ("Streaming to file failed: " +:+ str e) None.

(** What Python holds where a format is expected: a [str], or a member
    of [AudioFormat].  A field that pydantic has validated holds the value
    as a [str] ([use_enum_values]); a default, which pydantic does not
    validate, is the member, and so is what the command line hands over,
    [AudioFormat(format)]. *)
Inductive FormatObject :=
| FormatStr (s : string)
| FormatMember (a : AudioFormat).

(** The [str] that the object is: a member of an enumeration that mixes in
    [str] is equal to its value, and validates to it. *)
Definition FormatObject_value (f : FormatObject) : string :=
  match f with
  | FormatStr s => s
  | FormatMember a => AudioFormat_value a
  end.

(** The two ways in which an f-string renders such a member: up to
    Python 3.10 it is formatted as the [str] it is, its value; from
    Python 3.11 on, [Enum.__format__] is [Enum.__str__], which gives the
    names of the class and of the member. *)
Inductive Python := UpTo_3_10 | From_3_11.

(** [f"{format}"] *)
Definition format_spec (py : Python) (f : FormatObject) : string :=
  match f with
  | FormatStr s => s
  | FormatMember a =>
      match py with
      | UpTo_3_10 => AudioFormat_value a
      | From_3_11 => "AudioFormat." +:+ AudioFormat_name a
      end
  end.

(** [x or d] for an optional format. *)
Definition or_format (x : option FormatObject) (d : FormatObject)
  : FormatObject :=
  match x with
  | Some f => if truthy_str (FormatObject_value f) then f else d
  | None => d
  end.

(** [self.agent.config.default_format] as Python holds it: the value that
    was given to [TTSConfig], as a [str], or the default [AudioFormat.MP3],
    a member, when none was given. *)
Definition config_default_format (cfg : TTSConfig) (default_given : bool)
  : FormatObject :=
  if default_given then FormatStr (default_format cfg) else FormatMember MP3.

(** The path that [stream_speech_to_file] writes to, and the format it
    hands to [stream_speech]: a path without suffix gets the suffix
    [f".{format}"]. *)
Definition to_file_target (py : Python) (rt : Runtime) (cfg : TTSConfig)
    (default_given : bool) (output_path : string)
    (format_ : option FormatObject)
  : outcome string * option FormatObject :=
  if truthy_str (path_suffix rt output_path)
  then (Return output_path, format_)
  else
    let format' :=
      or_format format_ (config_default_format cfg default_given) in
    (path_with_suffix rt output_path ("." +:+ format_spec py format'),
     Some format').

(** [StreamingTTS.stream_speech_to_file]; [None] when the generator is
    still running after [steps] steps. *)
Definition stream_speech_to_file (py : Python) (rt : Runtime)
    (cfg : TTSConfig) (default_given : bool) (backend : StreamBackend)
    (text_ : string) (output_path : string) (voice_ model_ : option string)
    (format_ : option FormatObject) (speed_ : option float)
    (steps : nat) : World -> option (outcome string) * World :=
  fun w =>
    match mkdir rt (path_parent rt output_path) w with
    | (Raise e, w1) => (Some (Raise (streaming_to_file_failed e)), w1)
    | (Return _, w1) =>
        match to_file_target py rt cfg default_given output_path format_
        with
        | (Raise e, _) => (Some (Raise (streaming_to_file_failed e)), w1)
        | (Return target, format') =>
            match open_wb rt target w1 with
            | (Raise e, w2) => (Some (Raise (streaming_to_file_failed e)), w2)
            | (Return _, w2) =>
                let call :=
                  {| s_text := text_; s_voice := voice_; s_model := model_;
                     s_format := FormatObject_value <$> format';
                     s_speed := speed_;
                     s_output_path := None; s_chunk_callback := None |} in
                match write_chunks rt cfg backend call target steps Fresh w2
                with
                | (None, w3) => (None, w3)
                | (Some (Return _), w3) => (Some (Return target), w3)
                | (Some (Raise e), w3) =>
                    (Some (Raise (streaming_to_file_failed e)), w3)
                end
            end
        end
    end.

(** *** stream_speech_with_progress *)

(** [progress_callback]: what the call with the bytes received and the
    estimated total raises, if anything. *)
Definition ProgressCallback : Type := Z -> Z -> option exn.

(** What the loop of [stream_speech_with_progress] holds between two
    chunks, and the calls of the callback so far. *)
Record Progress := {
  progress_chunks : list bytes;
  total_bytes : Z;
  progress_calls : list (Z * Z)
}.

Definition Progress_initial : Progress :=
  {| progress_chunks := []; total_bytes := 0; progress_calls := [] |}.

(** The body of the loop for one chunk. *)
Definition progress_step (callback : option ProgressCallback)
    (text_ : string) (chunk : bytes) (p : Progress) (w : World)
  : Progress * World :=
  let audio_chunks' := (progress_chunks p ++ [chunk])%list in
  let total_bytes' := total_bytes p + len_bytes chunk in
  match callback with
  | Some cb =>
      let estimated_total := Z.of_nat (String.length text_) * 100 in
      ({| progress_chunks := audio_chunks';
          total_bytes := total_bytes';
          progress_calls :=
            (progress_calls p ++ [(total_bytes', estimated_total)])%list |},
       match cb total_bytes' estimated_total with
       | Some e => after (EvLogWarning ("Progress callback error: " +:+ str e)) w
       | None => w
       end)
  | None =>
      ({| progress_chunks := audio_chunks';
          total_bytes := total_bytes';
          progress_calls := progress_calls p |}, w)
  end.

(** The loop, for at most [steps] steps of the generator. *)
Fixpoint progress_loop (rt : Runtime) (cfg : TTSConfig)
    (backend : StreamBackend) (call : StreamCall)
    (callback : option ProgressCallback) (steps : nat) (st : StreamState)
    (p : Progress) (w : World) : option (option exn) * Progress * World :=
  match steps with
  | O => (None, p, w)
  | S steps' =>
      match stream_speech_next rt cfg backend call st w with
      | (Yield chunk, st', w') =>
          let '(p', w'') := progress_step callback (s_text call) chunk p w' in
          progress_loop rt cfg backend call callback steps' st' p' w''
      | (Stop, _, w') => (Some None, p, w')
      | (Throw e, _, w') => (Some (Some e), p, w')
      end
  end.

(** One call of [stream_speech_with_progress]: what the caller gets
    ([None] when the generator is still running after [steps] steps) and
    the calls of the progress callback. *)
Record ProgressRun := {
  progress_result : option (outcome bytes);
  progress_reports : list (Z * Z)
}.

(** [StreamingTTS.stream_speech_with_progress]. *)
Definition stream_speech_with_progress (rt : Runtime) (cfg : TTSConfig)
    (backend : StreamBackend) (text_ : string)
    (voice_ model_ format_ : option string) (speed_ : option float)
    (callback : option ProgressCallback) (steps : nat)
  : World -> ProgressRun * World :=
  fun w =>
    let call :=
      {| s_text := text_; s_voice := voice_; s_model := model_;
         s_format := format_; s_speed := speed_;
         s_output_path := None; s_chunk_callback := None |} in
    match progress_loop rt cfg backend call callback steps Fresh
                        Progress_initial w with
    | (None, p, w') =>
        ({| progress_result := None;
            progress_reports := progress_calls p |}, w')
    | (Some None, p, w') =>
        ({| progress_result := Some (Return (join (progress_chunks p)));
            progress_reports := progress_calls p |}, w')
    | (Some (Some e), p, w') =>
        ({| progress_result :=
              Some (Raise (TTSAgentError
                             ("Streaming with progress failed: " +:+ str e)
                             None));
            progress_reports := progress_calls p |}, w')
    end.

(** The exception that [stream_speech] raises when the Backend fails
    with [e], and how a stream ends: normally, or with that exception. *)
Definition stream_failure (e : exn) : exn :=
  streaming_failed
    (TTSAPIError ("Streaming API call failed: " +:+ str e) None None).

Definition stream_ending (failure : option exn) : outcome unit :=
  match failure with
  | None => Return tt
  | Some e => Raise (stream_failure e)
  end.

(** The bytes received after each chunk, starting from [received]. *)
Fixpoint running_totals (received : Z) (chunks : list bytes) : list Z :=
  match chunks with
  | [] => []
  | chunk :: rest =>
      (received + len_bytes chunk)
      :: running_totals (received + len_bytes chunk) rest
  end.

(** *** The chunk size *)

Record StreamingTTS := { chunk_size : Z }.

(** [StreamingTTS(agent, chunk_size)] *)
Definition StreamingTTS_new (chunk_size_ : Z) : StreamingTTS :=
  {| chunk_size := chunk_size_ |}.

(** [StreamingTTS.get_chunk_size] *)
Definition get_chunk_size (self : StreamingTTS) : Z := chunk_size self.

(** [StreamingTTS.set_chunk_size]: the outcome and the object after the
    call. *)
Definition set_chunk_size (self : StreamingTTS) (chunk_size_ : Z)
  : outcome unit * StreamingTTS :=
  if chunk_size_ <=? 0
  then (Raise (OtherError "Chunk size must be positive"), self)
  else (Return tt, {| chunk_size := chunk_size_ |}).

End Streaming.
Export Streaming.

(** ** cli.py: the command [generate] *)

Module Cli.

Import Py.

(** What is outside the program for one command: what the constructor of
    the client raises in [TTSAgent.__init__], what [self._client.close()]
    raises, the name of the class of a [Path] ([PosixPath] or
    [WindowsPath]), and the interpreter. *)
Record CliEnv := {
  client_init : option exn;
  client_close : option exn;
  path_class : string;
  python : Python
}.

(** The rows of the table of results. *)
Record Results := {
  row_text : string;
  row_voice : string;
  row_model : string;
  row_format : string;
  row_speed : float;
  row_output_file : string;
  row_file_size : string
}.

(** What the command prints, without the markup. *)
Inductive Line :=
| AgentErrorLine (message : string)        (* TTS Agent Error: ... *)
| UnexpectedErrorLine (message : string)   (* Unexpected Error: ... *)
| GenerationFailedLine (error : option string)  (* Generation failed: ... *)
| ResultsTable (rows : Results).

(** How a block of statements ends: it completes, it raises an
    [Exception], or [sys.exit] raises [SystemExit], which is no
    [Exception]. *)
Inductive Signal :=
| Completed
| Raised (e : exn)
| SystemExit (code : Z).

(** [isinstance(e, TTSAgentError)] *)
Definition is_TTSAgentError (e : exn) : bool :=
  match e with
  | TTSAgentError _ _ | TTSConfigError _ _ | TTSAPIError _ _ _
  | TTSValidationError _ _ | TTSFileError _ _ => true
  | PydanticValidationError _ _ | OtherError _ => false
  end.

(** What [response.success] raises when [response] is a [Path]. *)
Definition no_attribute (class_name attribute : string) : exn :=
  OtherError ("'" +:+ class_name +:+ "' object has no attribute '"
              +:+ attribute +:+ "'").

Definition results_table (text_ voice_ model_ format_ : string)
    (speed_ : float) (output : string) (response : TTSResponse) : Results :=
  {| row_text :=
       if (50 <? String.length text_)%nat
       then take_str 50 text_ +:+ "..." else text_;
     row_voice := voice_;
     row_model := model_;
     row_format := format_;
     row_speed := speed_;
     row_output_file :=
       match file_path response with
       | Some p => p
       | None => output
       end;
     row_file_size :=
       match file_size response with
       | Some n => if n =? 0 then "N/A" else str_of_Z n +:+ " bytes"
       | None => "N/A"
       end |}.

(** What follows the call in both branches:
    [if response.success: ... else: ... sys.exit(1)]. *)
Definition report (text_ voice_ model_ format_ : string) (speed_ : float)
    (output : string) (response : TTSResponse) : list Line * Signal :=
  if success response
  then ([ResultsTable (results_table text_ voice_ model_ format_ speed_
                                     output response)], Completed)
  else ([GenerationFailedLine (error response)], SystemExit 1).

(** The body of [async with TTSAgent(config) as agent]; [None] when the
    stream is still running after [steps] steps.  The command hands over
    the members [Voice(voice)], [TTSModel(model)] and [AudioFormat(format)],
    and its configuration was built without [default_format]. *)
Definition generate_body (env : CliEnv) (rt : Runtime) (cfg : TTSConfig)
    (backend : Backend) (stream_backend : StreamBackend) (text_ : string)
    (voice_ : Voice) (model_ : TTSModel) (format_ : AudioFormat)
    (speed_ : float) (output : string) (streaming : bool) (steps : nat)
  : World -> option (list Line * Signal) * World :=
  fun w =>
    let v := Voice_value voice_ in
    let m := TTSModel_value model_ in
    let f := AudioFormat_value format_ in
    if streaming then
      match stream_speech_to_file (python env) rt cfg false stream_backend
              text_ output (Some v) (Some m) (Some (FormatMember format_))
              (Some speed_) steps w with
      | (None, w') => (None, w')
      | (Some (Raise e), w') => (Some ([], Raised e), w')
      | (Some (Return _), w') =>
          (Some ([], Raised (no_attribute (path_class env) "success")), w')
      end
    else
      match generate_speech rt cfg backend text_ (Some v) (Some m) (Some f)
              (Some speed_) (Some output) w with
      | (Raise e, w') => (Some ([], Raised e), w')
      | (Return response, w') =>
          (Some (report text_ v m f speed_ output response), w')
      end.

(** One run of a command: what it printed and the exit status of the
    process. *)
Record CliRun := {
  printed : list Line;
  exit_status : Z
}.

(** The command [generate]: the agent is created, the body runs, the
    agent is closed, and the two [except] clauses handle what leaves the
    [async with]. *)
Definition generate (env : CliEnv) (rt : Runtime) (cfg : TTSConfig)
    (backend : Backend) (stream_backend : StreamBackend) (text_ : string)
    (voice_ : Voice) (model_ : TTSModel) (format_ : AudioFormat)
    (speed_ : float) (output : string) (streaming : bool) (steps : nat)
  : World -> option CliRun * World :=
  fun w =>
    let handled lines e :=
      {| printed :=
           (lines ++ [if is_TTSAgentError e then AgentErrorLine (str e)
                      else UnexpectedErrorLine (str e)])%list;
         exit_status := 1 |} in
    match client_init env with
    | Some e =>
        (Some (handled []
                 (TTSConfigError
                    ("Failed to initialize OpenAI client: " +:+ str e) None)),
         w)
    | None =>
        match generate_body env rt cfg backend stream_backend text_ voice_
                model_ format_ speed_ output streaming steps w with
        | (None, w') => (None, w')
        | (Some (lines, signal), w') =>
            let leaving :=
              match client_close env with
              | Some e => Raised e
              | None => signal
              end in
            (Some match leaving with
                  | Completed => {| printed := lines; exit_status := 0 |}
                  | SystemExit code =>
                      {| printed := lines; exit_status := code |}
                  | Raised e => handled lines e
                  end, w')
        end
    end.

End Cli.

(** ** The properties, in the words of the specification *)

Module Spec.

(** The requests that the specification says the validator accepts: the
    text is not empty after trimming and has at most 4096 characters after
    trimming, the speed lies in [0.25, 4.0], and voice, model and format are
    members of their enumerations. *)
Definition validate_accepts (t v m f : string) (s : float) : Prop :=
  Py.strip t <> EmptyString /\
  (String.length (Py.strip t) <= 4096)%nat /\
  PrimFloat.leb 0.25 s = true /\ PrimFloat.leb s 4 = true /\
  (exists x, v = Voice_value x) /\
  (exists x, m = TTSModel_value x) /\
  (exists x, f = AudioFormat_value x).

End Spec.

(** ** Concrete collaborators, for the examples *)

Module Examples.

Import Py.

(** The characters of a reversed path up to the first dot, when the dot
    comes before any separator: the extension, the dot included. *)
Fixpoint extension_of_rev (rev_path acc : string) : string :=
  match rev_path with
  | EmptyString => EmptyString
  | String c rest =>
      if Ascii.eqb c "."
      then match acc, rest with
           | EmptyString, _ => EmptyString
           | _, EmptyString => EmptyString
           | _, String "/" _ => EmptyString
           | _, _ => String c acc
           end
      else if Ascii.eqb c "/" then EmptyString
      else extension_of_rev rest (String c acc)
  end.

(** The reversed path after its first separator. *)
Fixpoint parent_of_rev (rev_path : string) : string :=
  match rev_path with
  | EmptyString => EmptyString
  | String c rest => if Ascii.eqb c "/" then rest else parent_of_rev rest
  end.

(** A file system on which nothing fails. *)
Definition rt_ok : Runtime :=
  {| py_hash := fun s => Z.of_nat (String.length s);
     path_join := fun d name => d +:+ "/" +:+ name;
     path_parent :=
       fun p => match rev (parent_of_rev (rev p)) with
                | EmptyString => "."
                | d => d
                end;
     path_suffix := fun p => extension_of_rev (rev p) EmptyString;
     path_with_suffix := fun p s => Return (p +:+ s);
     mkdir_error := fun _ => None;
     write_error := fun _ => None |}.

(** A file system on which no file can be written. *)
Definition rt_read_only : Runtime :=
  {| py_hash := py_hash rt_ok;
     path_join := path_join rt_ok;
     path_parent := path_parent rt_ok;
     path_suffix := path_suffix rt_ok;
     path_with_suffix := path_with_suffix rt_ok;
     mkdir_error := fun _ => None;
     write_error := fun _ => Some (OtherError "Read-only file system") |}.

Definition audio : bytes := list_byte_of_string "fake_audio_data".

(** A Backend stub that fails its first [k] calls and answers from then on. *)
Definition fails_first_stub (k : nat) : Backend :=
  fun n _ =>
    if (n <? k)%nat
    then ApiFail (OtherError ("Network Error " +:+ str_of_nat n))
    else ApiOk [audio].

Definition hello : TTSRequest :=
  {| text := "Hello, world!"; voice := "alloy"; model := "tts-1";
     format := "mp3"; speed := 1 |}.

(** A request object that was built without validation, as
    [TTSRequest.construct(text="   ")] builds it. *)
Definition blank : TTSRequest :=
  {| text := "   "; voice := "alloy"; model := "tts-1";
     format := "mp3"; speed := 1 |}.

Definition cfg_retries (m : nat) : TTSConfig :=
  {| max_retries := m; rate_limit_delay := 1;
     default_voice := "alloy"; default_model := "tts-1";
     default_format := "mp3"; default_speed := 1 |}.

Definition item_ok : ItemEnv :=
  {| item_backend := fails_first_stub 0; item_gate := None;
     item_cancelled := false |}.

Definition item_failing (k : nat) : ItemEnv :=
  {| item_backend := fails_first_stub k; item_gate := None;
     item_cancelled := false |}.

(** A Backend that is down: every call fails. *)
Definition item_down : ItemEnv :=
  {| item_backend := fun _ _ => ApiFail (OtherError "Service unavailable");
     item_gate := None; item_cancelled := false |}.

Definition item_raising : ItemEnv :=
  {| item_backend := fails_first_stub 0;
     item_gate := Some (OtherError "injected");
     item_cancelled := false |}.

(** Every item succeeds. *)
Definition env_ok : BatchEnv :=
  {| rt := rt_ok; cfg := TTSConfig_default; items := fun _ => item_ok;
     time_start := 10; time_end := 12 |}.

(** The task of the item 1 raises; the other items succeed. *)
Definition env_one_raises : BatchEnv :=
  {| rt := rt_ok; cfg := TTSConfig_default;
     items := fun i => if (i =? 1)%nat then item_raising else item_ok;
     time_start := 10; time_end := 12 |}.

(** [" " + "A" * 4096] *)
Definition long_text : string := " " +:+ str_mul "A" 4096.

Definition chunk_ab : bytes := list_byte_of_string "ab".
Definition chunk_cd : bytes := list_byte_of_string "cd".

(** A streaming Backend that sends an empty chunk between two others. *)
Definition stream_with_empty_chunk : StreamBackend :=
  fun _ => ([chunk_ab; []; chunk_cd], None).

(** A callback that raises on every chunk. *)
Definition callback_raising : Callback :=
  fun _ => Some (OtherError "callback failed").

Definition stream_call (output_path : option string)
    (callback : option Callback) : StreamCall :=
  {| s_text := "Hello, world!"; s_voice := None; s_model := None;
     s_format := None; s_speed := None;
     s_output_path := output_path; s_chunk_callback := callback |}.

End Examples.

(** * Properties *)

Local Open Scope list_scope.

(** ** The validation of a request *)

Section Validation.

(** A value is a member of an enumeration when it is the value of one of
    its members; [members] lists them all. *)
Lemma is_member_values {E : Type} (value : E -> string) (members : list E)
    (v : string) :
  (forall x, In x members) ->
  is_member (map value members) v = true <-> exists x, v = value x.
Proof.
  intros Hall. unfold is_member. rewrite existsb_exists. split.
  - intros (s & Hin & Heq). apply String.eqb_eq in Heq. subst s.
    apply in_map_iff in Hin as (x & <- & _). by exists x.
  - intros [x ->]. exists (value x). split; [| apply String.eqb_refl].
    apply in_map, Hall.
Qed.

Ltac all_members := intros x; destruct x; cbn; tauto.

Lemma is_member_Voice v :
  is_member Voice_values v = true <-> exists x, v = Voice_value x.
Proof. apply is_member_values. all_members. Qed.

Lemma is_member_TTSModel v :
  is_member TTSModel_values v = true <-> exists x, v = TTSModel_value x.
Proof. apply is_member_values. all_members. Qed.

Lemma is_member_AudioFormat v :
  is_member AudioFormat_values v = true <-> exists x, v = AudioFormat_value x.
Proof. apply is_member_values. all_members. Qed.

Lemma check_enum_inr field values v v' :
  check_enum field values v = inr v' <-> is_member values v = true /\ v' = v.
Proof.
  unfold check_enum. destruct (is_member values v); split.
  - intros [= <-]. auto.
  - intros [_ ->]. reflexivity.
  - discriminate.
  - intros [? _]. discriminate.
Qed.

Lemma truthy_str_true s : Py.truthy_str s = true <-> s <> "".
Proof. destruct s; cbn; split; congruence. Qed.

Lemma check_text_inr t t' :
  check_text t = inr t' <->
  (String.length t <= 4096)%nat /\ Py.strip t <> "" /\ t' = Py.strip t.
Proof.
  unfold check_text, validate_text.
  destruct (Nat.ltb_spec (String.length t) 1) as [Hlt | Hge].
  - split; [discriminate |]. intros (_ & Hne & _). exfalso.
    destruct t; [apply Hne; reflexivity | cbn in Hlt; lia].
  - destruct (Nat.ltb_spec 4096 (String.length t)) as [Hbig | Hok].
    + split; [discriminate | intros (? & _); exfalso; lia].
    + destruct (Py.truthy_str (Py.strip t)) eqn:Htr; cbn.
      * apply truthy_str_true in Htr. split.
        -- intros [= <-]. auto.
        -- intros (_ & _ & ->). reflexivity.
      * split; [discriminate |]. intros (_ & Hne & _). exfalso.
        apply truthy_str_true in Hne. congruence.
Qed.

Lemma check_speed_inr s s' :
  check_speed s = inr s' <->
  PrimFloat.leb 0.25 s = true /\ PrimFloat.leb s 4 = true /\ s' = s.
Proof.
  unfold check_speed, validate_speed.
  destruct (PrimFloat.leb 0.25 s), (PrimFloat.leb s 4); cbn; split;
    try discriminate; try (intros (? & ? & ?); discriminate).
  - intros [= <-]. auto.
  - intros (_ & _ & ->). reflexivity.
Qed.

Lemma TTSRequest_new_Return t v m f s r :
  TTSRequest_new t v m f s = Return r <->
  check_text t = inr (text r) /\ check_enum "voice" Voice_values v = inr (voice r) /\
  check_enum "model" TTSModel_values m = inr (model r) /\
  check_enum "format" AudioFormat_values f = inr (format r) /\
  check_speed s = inr (speed r).
Proof.
  unfold TTSRequest_new.
  destruct (check_text t), (check_enum "voice" Voice_values v),
    (check_enum "model" TTSModel_values m),
    (check_enum "format" AudioFormat_values f), (check_speed s);
    split; try discriminate;
    try (intros (? & ? & ? & ? & ?); discriminate).
  - intros [= <-]. cbn. auto.
  - destruct r; cbn. intros (? & ? & ? & ? & ?). congruence.
Qed.

Lemma TTSRequest_new_Raise t v m f s e :
  TTSRequest_new t v m f s = Raise e ->
  exists errs, errs <> [] /\ e = PydanticValidationError "TTSRequest" errs.
Proof.
  unfold TTSRequest_new.
  destruct (check_text t), (check_enum "voice" Voice_values v),
    (check_enum "model" TTSModel_values m),
    (check_enum "format" AudioFormat_values f), (check_speed s);
    intros [= <-]; eexists; (split; [| reflexivity]); cbn; discriminate.
Qed.

Lemma lstrip_length s : (String.length (Py.lstrip s) <= String.length s)%nat.
Proof.
  induction s as [| c s IH]; [done |].
  cbn [Py.lstrip]. destruct (Py.isspace c); cbn [String.length]; lia.
Qed.

Lemma rev_append_length s : forall acc,
  String.length (Py.rev_append s acc)
  = (String.length s + String.length acc)%nat.
Proof.
  induction s as [| c s IH]; intros acc; [done |].
  cbn [Py.rev_append]. rewrite IH. cbn [String.length]. lia.
Qed.

Lemma rev_length s : String.length (Py.rev s) = String.length s.
Proof. unfold Py.rev. rewrite rev_append_length. cbn. lia. Qed.

(** Trimming does not make a text longer. *)
Lemma strip_length s : (String.length (Py.strip s) <= String.length s)%nat.
Proof.
  unfold Py.strip, Py.rstrip. rewrite rev_length.
  pose proof (lstrip_length (Py.rev (Py.lstrip s))) as H1.
  rewrite rev_length in H1. pose proof (lstrip_length s). lia.
Qed.

End Validation.

(** C7, as amended.  The constructor of [TTSRequest] accepts a request if
    and only if the text as given has at most 4096 characters and is not
    empty after trimming, the speed lies in [0.25, 4.0], and voice, model
    and format are members of their enumerations; the accepted request holds
    the trimmed text and the other fields as given.  Every rejection is a
    validation error of pydantic with at least one error line.  The speeds
    0.25 and 4.0 pass the check of the speed, 0.1 and 5.0 do not. *)
Theorem TTSRequest_new_accepts_iff (t v m f : string) (s : float) :
  (forall r,
     TTSRequest_new t v m f s = Return r <->
     ((String.length t <= 4096)%nat /\ Py.strip t <> "" /\
      PrimFloat.leb 0.25 s = true /\ PrimFloat.leb s 4 = true /\
      (exists x, v = Voice_value x) /\
      (exists x, m = TTSModel_value x) /\
      (exists x, f = AudioFormat_value x)) /\
     r = {| text := Py.strip t; voice := v; model := m; format := f;
            speed := s |}) /\
  (forall e,
     TTSRequest_new t v m f s = Raise e ->
     exists errs, errs <> [] /\ e = PydanticValidationError "TTSRequest" errs) /\
  check_speed 0.25 = inr 0.25%float /\
  check_speed 4 = inr 4%float /\
  (exists e, check_speed 0x1.999999999999ap-4 = inl e) /\
  (exists e, check_speed 5 = inl e).
Proof.
  split; [| split; [apply TTSRequest_new_Raise |]].
  - intros r. rewrite TTSRequest_new_Return, check_text_inr, !check_enum_inr,
      check_speed_inr, is_member_Voice, is_member_TTSModel,
      is_member_AudioFormat.
    destruct r as [rt_ rv rm rf rs]; cbn. split.
    + intros ((? & ? & ->) & (? & ->) & (? & ->) & (? & ->) & (? & ? & ->)).
      repeat split; done.
    + intros ((? & ? & ? & ? & ? & ? & ?) & [= -> -> -> -> ->]).
      repeat split; done.
  - repeat split; try reflexivity; eexists; reflexivity.
Qed.

(** A padded greeting is accepted and stored trimmed. *)
Lemma TTSRequest_new_accepts_iff_witness :
  TTSRequest_new "  Hello, world!  " "alloy" "tts-1" "mp3" 1
  = Return {| text := "Hello, world!"; voice := "alloy"; model := "tts-1";
              format := "mp3"; speed := 1 |}.
Proof.
  apply (proj1 (TTSRequest_new_accepts_iff "  Hello, world!  " "alloy" "tts-1"
                  "mp3" 1)).
  split; [| reflexivity].
  split; [vm_compute; lia |].
  split; [vm_compute; discriminate |].
  split; [reflexivity |]. split; [reflexivity |].
  split; [exists ALLOY; reflexivity |].
  split; [exists TTS_1; reflexivity | exists MP3; reflexivity].
Defined.

(** C7, counterexample.  A text of one space and 4096 letters is not empty
    after trimming and has 4096 characters after trimming, and the other
    fields are valid, so the specification accepts it; the constructor
    rejects it, because the length is checked before the text is trimmed. *)
Lemma TTSRequest_new_rejects_padded_text :
  Spec.validate_accepts Examples.long_text "alloy" "tts-1" "mp3" 1 /\
  TTSRequest_new Examples.long_text "alloy" "tts-1" "mp3" 1
  = Raise (PydanticValidationError "TTSRequest"
       [{| loc := "text";
           msg := "ensure this value has at most 4096 characters" |}]).
Proof.
  split; [| vm_compute; reflexivity].
  unfold Spec.validate_accepts.
  split; [vm_compute; discriminate |].
  split; [apply Nat.leb_le; vm_compute; reflexivity |].
  split; [reflexivity |]. split; [reflexivity |].
  split; [exists ALLOY; reflexivity |].
  split; [exists TTS_1; reflexivity | exists MP3; reflexivity].
Qed.

(** The constructor and the specification agree on every text that has at
    most 4096 characters before it is trimmed. *)
Lemma TTSRequest_new_agrees_with_spec (t v m f : string) (s : float) :
  (String.length t <= 4096)%nat ->
  Spec.validate_accepts t v m f s <->
  exists r, TTSRequest_new t v m f s = Return r.
Proof.
  intros Hlen. unfold Spec.validate_accepts. split.
  - intros (Hne & _ & Hlo & Hhi & Hv & Hm & Hf).
    exists {| text := Py.strip t; voice := v; model := m; format := f;
              speed := s |}.
    apply TTSRequest_new_Return. cbn.
    rewrite check_text_inr, !check_enum_inr, check_speed_inr,
      is_member_Voice, is_member_TTSModel, is_member_AudioFormat.
    repeat split; done.
  - intros [r Hr]. apply TTSRequest_new_Return in Hr.
    rewrite check_text_inr, !check_enum_inr, check_speed_inr,
      is_member_Voice, is_member_TTSModel, is_member_AudioFormat in Hr.
    destruct Hr as ((_ & Hne & _) & (Hv & _) & (Hm & _) & (Hf & _)
                    & (Hlo & Hhi & _)).
    pose proof (strip_length t). repeat split; try done. lia.
Qed.

(** ** asyncio.gather gives the results in the order of the tasks *)

Section Gather.

Context {A : Type} (task_results : list A).

Let n := length task_results.

Lemma gather_inv_start : gather_inv task_results [] (gather_start n).
Proof.
  unfold gather_inv, gather_start; cbn; fold n. repeat split.
  - apply length_replicate.
  - intros i Hi. rewrite lookup_replicate_2 by done.
    rewrite bool_decide_eq_false_2; [done | apply not_elem_of_nil].
  - intros Hn. destruct n; [lia | done].
  - intros Hn. subst n. rewrite <- Hn. cbn.
    symmetry in Hn. apply length_zero_iff_nil in Hn. by rewrite Hn.
Qed.

Lemma all_finished (finished : list nat) :
  NoDup finished -> (forall i, i ∈ finished -> (i < n)%nat) ->
  length finished = n -> forall i, (i < n)%nat -> i ∈ finished.
Proof.
  intros Hnd Hlt Hlen i Hi.
  assert (Hsub : finished ⊆+ seq 0 n).
  { apply NoDup_submseteq; [done |]. intros x Hx. apply elem_of_seq.
    specialize (Hlt x Hx). lia. }
  apply submseteq_length_Permutation in Hsub.
  - rewrite Hsub. apply elem_of_seq. lia.
  - rewrite length_seq. lia.
Qed.

Lemma gather_inv_step (finished : list nat) (g : Gathering A) (i : nat) :
  NoDup (finished ++ [i]) ->
  (forall j, j ∈ finished ++ [i] -> (j < n)%nat) ->
  gather_inv task_results finished g ->
  gather_inv task_results (finished ++ [i]) (child_done task_results g i).
Proof.
  intros Hnd Hlt (Hlen & Hfin & Hch & Hnone & Hsome).
  fold n in Hlen, Hch, Hnone, Hsome.
  assert (Hlast : i ∈ finished ++ [i]).
  { apply elem_of_app. right. by apply list_elem_of_singleton. }
  assert (Hi : (i < n)%nat) by (by apply Hlt).
  assert (Hnotin : i ∉ finished).
  { apply NoDup_app in Hnd as (_ & Hdisj & _). intros Hin.
    apply (Hdisj i Hin). by apply list_elem_of_singleton. }
  destruct (lookup_lt_is_Some_2 task_results i Hi) as [r Hr].
  unfold child_done. rewrite Hr. rewrite length_insert, Hfin, Hlen.
  assert (Hlookup : forall j, (j < n)%nat ->
            <[i:=Some r]> (children g) !! j =
              Some (if bool_decide (j ∈ finished ++ [i])
                    then task_results !! j else None)).
  { intros j Hj. destruct (decide (i = j)) as [<- | Hne].
    - rewrite list_lookup_insert_eq by lia.
      rewrite bool_decide_eq_true_2 by done. by rewrite Hr.
    - rewrite list_lookup_insert_ne by done. rewrite Hch by done.
      f_equal. destruct (decide (j ∈ finished)) as [Hin | Hout].
      + rewrite !bool_decide_eq_true_2;
          [done | apply elem_of_app; by left | done].
      + rewrite !bool_decide_eq_false_2; [done | | done].
        intros [Hin | Hin]%elem_of_app; [done |].
        apply list_elem_of_singleton in Hin. congruence. }
  destruct (Nat.eqb_spec (S (length finished)) n) as [Hall | Hless];
    unfold gather_inv; cbn [children nfinished outer]; fold n;
    rewrite length_insert, length_app; cbn [length];
    (split; [done |]); (split; [lia |]); (split; [done |]); split;
    try (intros; lia).
  - intros _. apply mapM_Some. apply Forall2_same_length_lookup_2.
    + by rewrite length_insert.
    + intros j x y Hx Hy.
      assert (Hj : (j < n)%nat) by (apply lookup_lt_Some in Hy; done).
      rewrite Hlookup in Hx by done.
      rewrite bool_decide_eq_true_2 in Hx.
      * cbn. congruence.
      * apply all_finished; try done. rewrite length_app; cbn; lia.
  - intros Hlt'. apply Hnone. lia.
Qed.

Lemma gather_inv_fold (finished : list nat) :
  NoDup finished -> (forall i, i ∈ finished -> (i < n)%nat) ->
  gather_inv task_results finished
    (foldl (child_done task_results) (gather_start n) finished).
Proof.
  induction finished as [| i finished IH] using rev_ind; intros Hnd Hlt.
  - apply gather_inv_start.
  - rewrite foldl_app. cbn. apply gather_inv_step; [done | done |].
    apply IH.
    + by apply NoDup_app in Hnd as (? & _ & _).
    + intros j Hj. apply Hlt, elem_of_app. by left.
Qed.

(** Whatever the order in which the tasks finish, [gather] hands back the
    results in the order of the tasks. *)
Lemma gather_Permutation (completion : list nat) :
  completion ≡ₚ seq 0 n -> gather completion task_results = Some task_results.
Proof.
  intros Hperm. unfold gather.
  destruct (gather_inv_fold completion) as (_ & _ & _ & _ & Hsome).
  - rewrite Hperm. apply NoDup_seq.
  - intros i Hi. rewrite Hperm in Hi. apply elem_of_seq in Hi. lia.
  - apply Hsome. rewrite Hperm. apply length_seq.
Qed.

End Gather.

(** ** The loop over the results and the response of the batch *)

Section BatchLemmas.

Lemma tally_loop_spec (l : list TaskResult) : forall (i : nat) (t : Tally),
  n_successful (tally_loop i t l) + n_failed (tally_loop i t l)
    = n_successful t + n_failed t + Z.of_nat (length l) /\
  processed_results (tally_loop i t l)
    = processed_results t ++ imap (fun k r => item_outcome (i + k) r) l.
Proof.
  induction l as [| result l IH]; intros i t.
  - cbn. split; [lia | by rewrite app_nil_r].
  - cbn [tally_loop]. destruct (IH (S i) (tally_step t (i, result))) as [Hc Hp].
    rewrite Hc, Hp. rewrite imap_cons, Nat.add_0_r.
    assert (Hext : imap (fun k r => item_outcome (S i + k) r) l
                   = imap ((fun k r => item_outcome (i + k) r) ∘ S) l).
    { apply imap_ext. intros k r _. cbn. f_equal. lia. }
    rewrite Hext. clear IH Hc Hp Hext.
    split.
    + cbn [length]. unfold tally_step.
      destruct result as [r | e |]; [destruct (success r) |..]; cbn; lia.
    + unfold tally_step.
      destruct result as [r | e |]; [destruct (success r) |..]; cbn;
        by rewrite <- app_assoc.
Qed.

Lemma tally_counts (l : list TaskResult) :
  n_successful (tally l) + n_failed (tally l) = Z.of_nat (length l).
Proof.
  unfold tally. destruct (tally_loop_spec l 0 Tally_initial) as [-> _].
  cbn. lia.
Qed.

Lemma tally_processed (l : list TaskResult) :
  processed_results (tally l) = imap item_outcome l.
Proof.
  unfold tally. destruct (tally_loop_spec l 0 Tally_initial) as [_ ->].
  done.
Qed.

Lemma BatchTTSResponse_new_Return total s f rs pt es :
  s + f = total -> Z.of_nat (length rs) = total ->
  BatchTTSResponse_new total s f rs pt es
  = Return {| total_requests := total; successful := s; failed := f;
              results := rs; processing_time := pt; errors := es |}.
Proof.
  intros Hc Hl. unfold BatchTTSResponse_new.
  rewrite (proj2 (Z.eqb_eq _ _) Hc), (proj2 (Z.eqb_eq _ _) Hl). done.
Qed.

Lemma BatchTTSResponse_new_Raise total s f rs pt es :
  s + f <> total \/ Z.of_nat (length rs) <> total ->
  exists errs, BatchTTSResponse_new total s f rs pt es
               = Raise (PydanticValidationError "BatchTTSResponse" errs).
Proof.
  intros Hbad. unfold BatchTTSResponse_new.
  destruct (Z.eqb_spec (s + f) total) as [Hc | Hc]; cbn; [| eauto].
  destruct (Z.eqb_spec (Z.of_nat (length rs)) total) as [Hl | Hl]; cbn; [| eauto].
  tauto.
Qed.

Lemma BatchTTSResponse_new_inv total s f rs pt es response :
  BatchTTSResponse_new total s f rs pt es = Return response ->
  successful response + failed response = total_requests response /\
  Z.of_nat (length (results response)) = total_requests response.
Proof.
  unfold BatchTTSResponse_new.
  destruct (Z.eqb_spec (s + f) total) as [Hc | Hc]; cbn; [| discriminate].
  destruct (Z.eqb_spec (Z.of_nat (length rs)) total) as [Hl | Hl]; cbn;
    [| discriminate].
  intros [= <-]. cbn. done.
Qed.

Lemma batch_failure_Return env requests e :
  batch_failure env requests e
  = Return {| total_requests := Z.of_nat (length requests);
              successful := 0;
              failed := Z.of_nat (length requests);
              results := map (fun _ => TTSResponse_failure (str e)) requests;
              processing_time := elapsed env;
              errors := [str e] |}.
Proof.
  unfold batch_failure. apply BatchTTSResponse_new_Return; [lia |].
  by rewrite length_map.
Qed.

Lemma check_batch_Return requests :
  check_batch requests = Return tt <->
  (1 <= length requests <= 100)%nat.
Proof.
  unfold check_batch. destruct requests as [| request requests].
  - cbn. split; [discriminate | lia].
  - destruct (Nat.ltb_spec 100 (length (request :: requests))); cbn in *;
      split; try discriminate; try done; lia.
Qed.

Lemma check_batch_Raise requests e :
  check_batch requests = Raise e ->
  (requests = [] /\
   e = TTSValidationError "No requests provided for batch processing" None) \/
  ((100 < length requests)%nat /\
   e = TTSValidationError "Maximum 100 requests allowed per batch" None).
Proof.
  unfold check_batch. destruct requests as [| request requests].
  - intros [= <-]. by left.
  - destruct (Nat.ltb_spec 100 (length (request :: requests)));
      [| discriminate].
    intros [= <-]. by right.
Qed.

(** The responses of the tasks, in the order of the requests. *)
Lemma dispatch_results env requests od r :
  (dispatch env requests od r).*1
  = imap (fun i request =>
            (run_task (rt env) (cfg env) (items env i) request od r).1)
         requests.
Proof. unfold dispatch. by rewrite fmap_imap. Qed.

(** The call when the batch is dispatched and every task finishes. *)
Lemma process_batch_dispatched env requests out r completion od w :
  (1 <= length requests <= 100)%nat ->
  prepare_output_directory (rt env) out World_initial = (Return od, w) ->
  completion ≡ₚ seq 0 (length requests) ->
  let task_results := (dispatch env requests od r).*1 in
  batch_result (process_batch env requests out r completion)
  = Some (Return
      {| total_requests := Z.of_nat (length requests);
         successful := n_successful (tally task_results);
         failed := n_failed (tally task_results);
         results := imap item_outcome task_results;
         processing_time := elapsed env;
         errors := error_list (tally task_results) |}).
Proof.
  intros Hlen Hprep Hperm task_results.
  assert (Hn : length task_results = length requests).
  { unfold task_results, dispatch. by rewrite length_fmap, length_imap. }
  unfold process_batch, process_batch_try.
  rewrite (proj2 (check_batch_Return requests) Hlen), Hprep.
  fold task_results.
  rewrite gather_Permutation by (by rewrite Hn).
  cbn [batch_result].
  rewrite BatchTTSResponse_new_Return.
  - by rewrite tally_processed.
  - rewrite tally_counts. by rewrite Hn.
  - rewrite tally_processed, length_imap. by rewrite Hn.
Qed.

(** The call when the [try] raises before the dispatch. *)
Lemma process_batch_not_dispatched env requests out r completion e :
  check_batch requests = Raise e \/
  (check_batch requests = Return tt /\
   exists w, prepare_output_directory (rt env) out World_initial = (Raise e, w)) ->
  batch_result (process_batch env requests out r completion)
  = Some (batch_failure env requests e) /\
  item_worlds (process_batch env requests out r completion) = [].
Proof.
  unfold process_batch, process_batch_try.
  intros [Hc | (Hc & w & Hp)].
  - rewrite Hc. done.
  - rewrite Hc, Hp. done.
Qed.

Lemma prepare_output_directory_cases rt_ out :
  (exists od w, prepare_output_directory rt_ out World_initial = (Return od, w)) \/
  (exists e w, prepare_output_directory rt_ out World_initial = (Raise e, w)).
Proof.
  destruct (prepare_output_directory rt_ out World_initial) as [[od | e] w];
    eauto.
Qed.

End BatchLemmas.

(** ** The batch as a whole *)

Section BatchTheorems.

Import Examples.

(** A batch of 1 to 100 requests whose tasks all finish gets a response. *)
Lemma process_batch_returns_consistent (env : BatchEnv)
    (requests : list TTSRequest) (out : option string) (r : nat)
    (completion : list nat) :
  (1 <= length requests <= 100)%nat ->
  completion ≡ₚ seq 0 (length requests) ->
  exists response,
    batch_result (process_batch env requests out r completion)
      = Some (Return response) /\
    successful response + failed response = total_requests response /\
    Z.of_nat (length (results response)) = total_requests response /\
    total_requests response = Z.of_nat (length requests).
Proof.
  intros Hsize Hdone.
  destruct (prepare_output_directory_cases (rt env) out)
    as [(od & w & Hp) | (e & w & Hp)].
  - eexists. split; [by eapply process_batch_dispatched |]. cbn.
    rewrite tally_counts, length_imap, length_fmap.
    unfold dispatch. rewrite length_imap. done.
  - destruct (process_batch_not_dispatched env requests out r completion e)
      as [Hres _].
    { right. split; [by apply check_batch_Return | eauto]. }
    rewrite Hres, batch_failure_Return. eexists. split; [done |]. cbn.
    rewrite length_map. lia.
Qed.

(** C1.  For a batch of 1 to 100 requests whose tasks all finish,
    [process_batch] returns a response in which successful + failed equals
    total_requests and the number of results equals total_requests, which is
    the number of requests.  The constructor of the response raises when one
    of the two equations is violated, and every response it returns
    satisfies both. *)
Theorem process_batch_counts_reconcile (env : BatchEnv)
    (requests : list TTSRequest) (out : option string) (r : nat)
    (completion : list nat)
    (Hsize : (1 <= length requests <= 100)%nat)
    (Hdone : completion ≡ₚ seq 0 (length requests)) :
  (exists response,
     batch_result (process_batch env requests out r completion)
       = Some (Return response) /\
     successful response + failed response = total_requests response /\
     Z.of_nat (length (results response)) = total_requests response /\
     total_requests response = Z.of_nat (length requests)) /\
  (forall total s f rs pt es,
     s + f <> total \/ Z.of_nat (length rs) <> total ->
     exists errs,
       BatchTTSResponse_new total s f rs pt es
       = Raise (PydanticValidationError "BatchTTSResponse" errs)) /\
  (forall total s f rs pt es response,
     BatchTTSResponse_new total s f rs pt es = Return response ->
     successful response + failed response = total_requests response /\
     Z.of_nat (length (results response)) = total_requests response).
Proof.
  split; [by apply process_batch_returns_consistent |].
  split; [apply BatchTTSResponse_new_Raise | apply BatchTTSResponse_new_inv].
Qed.

Lemma seq3_completion : [2; 0; 1]%nat ≡ₚ seq 0 3.
Proof.
  cbn. apply Permutation_sym.
  apply perm_trans with [0; 2; 1]%nat; repeat constructor.
Qed.

(** Three requests whose tasks finish in the order 2, 0, 1. *)
Lemma process_batch_counts_reconcile_witness :
  exists response,
    batch_result (process_batch env_ok [hello; hello; hello] None 1 [2; 0; 1]%nat)
      = Some (Return response) /\
    successful response + failed response = total_requests response /\
    Z.of_nat (length (results response)) = total_requests response /\
    total_requests response = 3.
Proof.
  apply (process_batch_counts_reconcile env_ok [hello; hello; hello] None 1
           [2; 0; 1]%nat).
  - cbn. lia.
  - exact seq3_completion.
Defined.

(** C2.  For a batch that is dispatched and whose tasks all finish, the
    i-th result of the response is what the loop keeps for the task of the
    i-th request, and the response is the same for every order in which the
    tasks finish. *)
Theorem process_batch_index_aligned (env : BatchEnv)
    (requests : list TTSRequest) (out od : option string) (w : World)
    (r : nat) (completion : list nat)
    (Hsize : (1 <= length requests <= 100)%nat)
    (Hdir : prepare_output_directory (rt env) out World_initial = (Return od, w))
    (Hdone : completion ≡ₚ seq 0 (length requests)) :
  exists response,
    batch_result (process_batch env requests out r completion)
      = Some (Return response) /\
    length (results response) = length requests /\
    (forall i request,
       requests !! i = Some request ->
       results response !! i
       = Some (item_outcome i
                 (run_task (rt env) (cfg env) (items env i) request od r).1)) /\
    (forall completion',
       completion' ≡ₚ seq 0 (length requests) ->
       batch_result (process_batch env requests out r completion')
       = Some (Return response)).
Proof.
  eexists. split; [by eapply process_batch_dispatched |]. cbn.
  split; [| split].
  - rewrite length_imap, length_fmap. unfold dispatch. by rewrite length_imap.
  - intros i request Hi.
    rewrite list_lookup_imap, dispatch_results, list_lookup_imap, Hi. done.
  - intros completion' Hdone'. by eapply process_batch_dispatched.
Qed.

Lemma process_batch_index_aligned_witness :
  exists response,
    batch_result (process_batch env_one_raises [hello; hello; hello] None 1
                    [2; 0; 1]%nat)
      = Some (Return response) /\
    length (results response) = 3%nat /\
    (forall i request,
       [hello; hello; hello] !! i = Some request ->
       results response !! i
       = Some (item_outcome i
                 (run_task rt_ok TTSConfig_default (items env_one_raises i)
                    request None 1).1)) /\
    (forall completion',
       completion' ≡ₚ seq 0 3 ->
       batch_result (process_batch env_one_raises [hello; hello; hello] None 1
                       completion')
       = Some (Return response)).
Proof.
  apply (process_batch_index_aligned env_one_raises [hello; hello; hello] None
           None World_initial 1 [2; 0; 1]%nat).
  - cbn. lia.
  - reflexivity.
  - exact seq3_completion.
Defined.

(** C3, counterexample.  The call with an empty list of requests raises
    nothing: it returns a response, with the message of the validation error
    as its only error. *)
Lemma process_batch_empty_returns :
  batch_result (process_batch env_ok [] None 3 [])
  = Some (Return
      {| total_requests := 0; successful := 0; failed := 0; results := [];
         processing_time := elapsed env_ok;
         errors :=
           ["[VALIDATION_ERROR] No requests provided for batch processing"] |}).
Proof. reflexivity. Qed.

(** C3, as amended.  The call with an empty list, or with more than 100
    requests, starts no task and creates no directory; the validation error
    is caught inside the call, which returns a response with successful = 0,
    failed = the number of requests, one failed result for each request and
    the message of the validation error as its only error. *)
Theorem process_batch_malformed (env : BatchEnv) (requests : list TTSRequest)
    (out : option string) (r : nat) (completion : list nat)
    (Hbad : requests = [] \/ (100 < length requests)%nat) :
  process_batch env requests out r completion
  = {| batch_result :=
         Some (Return
           {| total_requests := Z.of_nat (length requests);
              successful := 0;
              failed := Z.of_nat (length requests);
              results :=
                map (fun _ => TTSResponse_failure (malformed_message requests))
                    requests;
              processing_time := elapsed env;
              errors := [malformed_message requests] |});
       batch_world := World_initial;
       item_worlds := [] |}.
Proof.
  unfold process_batch, process_batch_try.
  destruct (check_batch requests) as [[] | e] eqn:Hc.
  - apply check_batch_Return in Hc. destruct Hbad as [-> | Hbig]; cbn in *; lia.
  - cbn. rewrite batch_failure_Return.
    apply check_batch_Raise in Hc as [[-> ->] | [Hbig ->]]; [done |].
    destruct requests; [cbn in Hbig; lia | done].
Qed.

Lemma process_batch_malformed_witness :
  process_batch env_ok [] (Some "out") 3 []
  = {| batch_result :=
         Some (Return
           {| total_requests := 0; successful := 0; failed := 0; results := [];
              processing_time := elapsed env_ok;
              errors :=
                ["[VALIDATION_ERROR] No requests provided for batch processing"]
           |});
       batch_world := World_initial;
       item_worlds := [] |}.
Proof.
  apply (process_batch_malformed env_ok [] (Some "out") 3 []).
  left. reflexivity.
Defined.

(** C10.  [process_batch] raises nothing, whatever it is given: when the
    body of its [try] raises, it returns a response with successful = 0,
    failed = the number of requests, one failed result for each request and
    the message of the exception as its only error; and it returns whenever
    the tasks it started all finish. *)
Theorem process_batch_never_raises (env : BatchEnv)
    (requests : list TTSRequest) (out : option string) (r : nat)
    (completion : list nat) :
  (forall e,
     batch_result (process_batch env requests out r completion)
     <> Some (Raise e)) /\
  (forall e,
     batch_result (process_batch_try env requests out r completion)
       = Some (Raise e) ->
     batch_result (process_batch env requests out r completion)
     = Some (Return
         {| total_requests := Z.of_nat (length requests);
            successful := 0;
            failed := Z.of_nat (length requests);
            results := map (fun _ => TTSResponse_failure (str e)) requests;
            processing_time := elapsed env;
            errors := [str e] |})) /\
  (completion ≡ₚ seq 0 (length requests) ->
   exists response,
     batch_result (process_batch env requests out r completion)
     = Some (Return response)).
Proof.
  split; [| split].
  - intros e. unfold process_batch.
    destruct (batch_result (process_batch_try env requests out r completion))
      as [[response | e'] |] eqn:Htry; cbn.
    + rewrite Htry. discriminate.
    + rewrite batch_failure_Return. discriminate.
    + rewrite Htry. discriminate.
  - intros e Htry. unfold process_batch. rewrite Htry. cbn.
    by rewrite batch_failure_Return.
  - intros Hdone. destruct (check_batch requests) as [[] | e] eqn:Hc.
    + apply check_batch_Return in Hc.
      destruct (process_batch_returns_consistent env requests out r completion
                  Hc Hdone) as (response & Hres & _); eauto.
    + destruct (process_batch_not_dispatched env requests out r completion e)
        as [Hres _]; [by left |].
      rewrite Hres, batch_failure_Return. eauto.
Qed.

(** One request whose task finishes: the call returns a response. *)
Lemma process_batch_never_raises_witness :
  exists response,
    batch_result (process_batch env_ok [hello] None 0 [0%nat])
    = Some (Return response).
Proof.
  apply (proj2 (proj2 (process_batch_never_raises env_ok [hello] None 0
                         [0%nat]))).
  reflexivity.
Defined.

End BatchTheorems.

(** ** The retries of the agent *)

Section AgentLemmas.

Lemma engine_events_app (tr1 tr2 : list Event) :
  engine_events (tr1 ++ tr2) = engine_events tr1 ++ engine_events tr2.
Proof. apply List.filter_app. Qed.

Lemma backoff_seconds (a : nat) : backoff a = inject_Z (Z.of_nat (S a)).
Proof.
  unfold backoff, Qmult, inject_Z. cbn [Qnum Qden].
  rewrite Z.mul_1_l, Nat.add_1_r. reflexivity.
Qed.

Lemma pydantic_not_reraised model_ errs :
  is_TTSValidationError (PydanticValidationError model_ errs)
  || is_TTSAPIError (PydanticValidationError model_ errs) = false.
Proof. reflexivity. Qed.

Lemma api_error_details_none : api_error_details None None = "".
Proof. reflexivity. Qed.

Variables (cfg_ : TTSConfig) (backend : Backend) (request' : TTSRequest).

Let m := max_retries cfg_.

(** The loop of [_call_openai_api] leaves the events of the engine and the
    files alone, and calls the Backend at most once in each iteration. *)
Lemma api_retry_loop_effects (iterations : nat) :
  forall attempt w res w',
    api_retry_loop cfg_ backend request' iterations attempt w = (res, w') ->
    engine_events (trace w') = engine_events (trace w) /\
    (api_calls w <= api_calls w' <= api_calls w + iterations)%nat /\
    files w' = files w.
Proof.
  induction iterations as [| iterations IH]; intros attempt w res w'.
  - cbn. intros [= <- <-]. repeat split; lia.
  - cbn [api_retry_loop]. unfold bind at 1. unfold call_backend.
    destruct (backend (api_calls w) request') as [chunks | e].
    + unfold ret. intros [= <- <-]. cbn.
      rewrite engine_events_app. cbn. rewrite app_nil_r. repeat split; lia.
    + destruct (attempt <? max_retries cfg_)%nat.
      * unfold bind at 1. unfold emit at 1. intros Hloop.
        apply IH in Hloop as (Hev & Hcalls & Hfiles). cbn in *.
        rewrite Hev, !engine_events_app. cbn. rewrite !app_nil_r.
        repeat split; try lia. done.
      * unfold raise. intros [= <- <-]. cbn.
        rewrite engine_events_app. cbn. rewrite app_nil_r. repeat split; lia.
Qed.

(** When every call of the Backend fails, [_call_openai_api] raises after
    [max_retries + 1] calls, with the message of the last one. *)
Lemma api_retry_loop_exhausted (iterations : nat) :
  forall attempt w,
    (attempt + iterations = m + 1)%nat -> (1 <= iterations)%nat ->
    (forall n, (api_calls w <= n < api_calls w + iterations)%nat ->
               exists e, backend n request' = ApiFail e) ->
    exists e w',
      backend (api_calls w + iterations - 1)%nat request' = ApiFail e /\
      api_retry_loop cfg_ backend request' iterations attempt w
      = (Raise (TTSAPIError
                  ("API call failed after " +:+ Py.str_of_nat (m + 1)
                   +:+ " attempts: " +:+ str e) None None), w') /\
      api_calls w' = (api_calls w + iterations)%nat.
Proof.
  induction iterations as [| iterations IH]; intros attempt w Hsum Hpos Hfail;
    [lia |].
  cbn [api_retry_loop]. unfold bind at 1. unfold call_backend.
  destruct (Hfail (api_calls w)) as [e He]; [lia |]. rewrite He.
  destruct (Nat.ltb_spec attempt (max_retries cfg_)) as [Hlt | Hge].
  - unfold bind at 1. unfold emit at 1.
    edestruct (IH (S attempt)) as (e' & w' & He' & Hrun & Hcalls);
      [| | | exists e', w'; split; [| split; [exact Hrun |]]].
    + fold m in Hlt. lia.
    + fold m in Hlt. lia.
    + cbn. intros n Hn. apply Hfail. lia.
    + cbn in He'. replace (api_calls w + S iterations - 1)%nat
        with (S (api_calls w) + iterations - 1)%nat by lia. exact He'.
    + cbn in Hcalls. lia.
  - fold m in Hge. assert (iterations = 0)%nat as -> by lia.
    exists e. eexists. split; [| split; [reflexivity |]].
    + replace (api_calls w + 1 - 1)%nat with (api_calls w) by lia. exact He.
    + cbn. lia.
Qed.

(** When the Backend fails until its call [K] and answers that one,
    [_call_openai_api] returns the answer, provided the call [K] is within
    the iterations left. *)
Lemma api_retry_loop_answers (K : nat) (chunks : list Py.bytes)
    (iterations : nat) :
  forall attempt w,
    (attempt + iterations = m + 1)%nat ->
    (forall n, (api_calls w <= n < K)%nat ->
               exists e, backend n request' = ApiFail e) ->
    backend K request' = ApiOk chunks ->
    (api_calls w <= K < api_calls w + iterations)%nat ->
    exists w',
      api_retry_loop cfg_ backend request' iterations attempt w
      = (Return (Some (Py.join chunks)), w') /\
      api_calls w' = S K.
Proof.
  induction iterations as [| iterations IH];
    intros attempt w Hsum Hfail Hok Hrange; [lia |].
  cbn [api_retry_loop]. unfold bind at 1. unfold call_backend.
  destruct (decide (api_calls w = K)) as [-> | Hne].
  - rewrite Hok. eexists. split; [reflexivity | done].
  - destruct (Hfail (api_calls w)) as [e He]; [lia |]. rewrite He.
    destruct (Nat.ltb_spec attempt (max_retries cfg_)) as [Hlt | Hge].
    + unfold bind at 1. unfold emit at 1.
      edestruct (IH (S attempt)) as (w' & Hrun & Hcalls);
        [| | exact Hok | | exists w'; split; [exact Hrun | exact Hcalls]].
      * lia.
      * cbn. intros n Hn. apply Hfail. lia.
      * cbn. lia.
    + fold m in Hge. lia.
Qed.

End AgentLemmas.

(** ** One call of generate_speech *)

Section GenerateSpeechLemmas.

Variables (rt_ : Runtime) (cfg_ : TTSConfig) (backend : Backend).

Lemma mkdir_effects p w res w' :
  mkdir rt_ p w = (res, w') ->
  api_calls w' = api_calls w /\
  engine_events (trace w') = engine_events (trace w) /\
  files w' = files w.
Proof.
  unfold mkdir, bind, emit. destruct (mkdir_error rt_ p);
    intros [= <- <-]; cbn; rewrite engine_events_app; cbn;
    by rewrite app_nil_r.
Qed.

Lemma write_file_effects p data w res w' :
  write_file rt_ p data w = (res, w') ->
  api_calls w' = api_calls w /\
  engine_events (trace w') = engine_events (trace w).
Proof.
  unfold write_file. destruct (write_error rt_ p); [| destruct data];
    intros [= <- <-]; done.
Qed.

Lemma save_audio_file_effects audio p f w res w' :
  save_audio_file rt_ audio p f w = (res, w') ->
  api_calls w' = api_calls w /\
  engine_events (trace w') = engine_events (trace w).
Proof.
  unfold save_audio_file. destruct (ensure_suffix rt_ p f) as [p' | e].
  - unfold bind.
    destruct (mkdir rt_ (path_parent rt_ p') w) as [[[] | e] w1] eqn:Hmk.
    + apply mkdir_effects in Hmk as (Hc1 & He1 & _).
      destruct (write_file rt_ p' audio w1) as [[[] | e] w2] eqn:Hwr;
        apply write_file_effects in Hwr as (Hc2 & He2);
        intros [= <- <-]; split; congruence.
    + apply mkdir_effects in Hmk as (Hc1 & He1 & _).
      intros [= <- <-]. done.
  - intros [= <- <-]. done.
Qed.

Lemma save_audio_file_reliable audio p f w :
  reliable rt_ ->
  exists p' w',
    save_audio_file rt_ (Some audio) p f w = (Return p', w') /\
    api_calls w' = api_calls w /\
    engine_events (trace w') = engine_events (trace w).
Proof.
  intros (Hmk & Hwr & Hsuf).
  assert (Hext : exists p', ensure_suffix rt_ p f = Return p').
  { unfold ensure_suffix. destruct (Py.truthy_str (path_suffix rt_ p)); eauto. }
  destruct Hext as [p' Hp'].
  unfold save_audio_file. rewrite Hp'.
  unfold bind, mkdir, emit, bind, write_file. rewrite Hmk. cbn. rewrite Hwr.
  eexists _, _. split; [reflexivity |]. cbn.
  rewrite engine_events_app. cbn. by rewrite app_nil_r.
Qed.

(** A request that fails validation is answered by a failed response, in
    the same world. *)
Lemma generate_speech_invalid t v mo f s out e w :
  build_request cfg_ t v mo f s = Raise e ->
  generate_speech rt_ cfg_ backend t v mo f s out w
  = (Return (TTSResponse_failure ("Unexpected error: " +:+ str e)), w).
Proof.
  intros Hbuild. unfold generate_speech, try_except, generate_speech_body.
  unfold bind at 1. unfold lift. rewrite Hbuild.
  unfold build_request in Hbuild.
  apply TTSRequest_new_Raise in Hbuild as (errs & _ & ->). reflexivity.
Qed.

(** An error of the API is raised again. *)
Lemma generate_speech_api_error t v mo f s out request' message w w' :
  build_request cfg_ t v mo f s = Return request' ->
  call_openai_api cfg_ backend request' w
  = (Raise (TTSAPIError message None None), w') ->
  generate_speech rt_ cfg_ backend t v mo f s out w
  = (Raise (TTSAPIError message None None), w').
Proof.
  intros Hbuild Hcall. unfold generate_speech, try_except, generate_speech_body.
  unfold bind at 1. unfold lift. rewrite Hbuild.
  unfold bind at 1. rewrite Hcall. reflexivity.
Qed.

(** An answer of the API becomes a successful response when the file system
    is reliable. *)
Lemma generate_speech_success t v mo f s out request' audio w w1 :
  reliable rt_ ->
  build_request cfg_ t v mo f s = Return request' ->
  call_openai_api cfg_ backend request' w = (Return (Some audio), w1) ->
  exists response w',
    generate_speech rt_ cfg_ backend t v mo f s out w = (Return response, w') /\
    success response = true /\
    audio_data response = Some audio /\
    api_calls w' = api_calls w1 /\
    engine_events (trace w') = engine_events (trace w1).
Proof.
  intros Hrel Hbuild Hcall.
  unfold generate_speech, try_except, generate_speech_body.
  unfold bind at 1. unfold lift. rewrite Hbuild.
  unfold bind at 1. rewrite Hcall.
  destruct out as [p |]; [destruct (Py.truthy_str p) |].
  - destruct (save_audio_file_reliable audio p (format request') w1 Hrel)
      as (p' & w' & Hsave & Hc & He).
    unfold bind, ret. rewrite Hsave. eexists _, _. split; [reflexivity |]. done.
  - unfold ret. eexists _, _. split; [reflexivity |]. done.
  - unfold ret. eexists _, _. split; [reflexivity |]. done.
Qed.

(** Whatever happens, [generate_speech] leaves the events of the engine
    alone and calls the Backend at most [max_retries + 1] times. *)
Lemma generate_speech_effects t v mo f s out w res w' :
  generate_speech rt_ cfg_ backend t v mo f s out w = (res, w') ->
  engine_events (trace w') = engine_events (trace w) /\
  (api_calls w <= api_calls w' <= api_calls w + (max_retries cfg_ + 1))%nat.
Proof.
  unfold generate_speech, try_except, generate_speech_body.
  unfold bind at 1. unfold lift.
  destruct (build_request cfg_ t v mo f s) as [request' | e].
  - unfold bind at 1. unfold call_openai_api.
    destruct (api_retry_loop cfg_ backend request' (max_retries cfg_ + 1) 0 w)
      as [[audio | e] w1] eqn:Hloop;
      apply api_retry_loop_effects in Hloop as (Hev & Hcalls & _).
    + destruct out as [p |]; [destruct (Py.truthy_str p) |].
      * unfold bind, ret.
        destruct (save_audio_file rt_ audio p (format request') w1)
          as [[p' | e] w2] eqn:Hsave;
          apply save_audio_file_effects in Hsave as (Hc & He).
        -- intros [= <- <-]. split; [congruence | lia].
        -- destruct (is_TTSValidationError e || is_TTSAPIError e);
             intros [= <- <-]; (split; [congruence | lia]).
      * unfold ret. intros [= <- <-]. done.
      * unfold ret. intros [= <- <-]. done.
    + destruct (is_TTSValidationError e || is_TTSAPIError e);
        intros [= <- <-]; done.
  - destruct (is_TTSValidationError e || is_TTSAPIError e);
      intros [= <- <-]; (split; [done | lia]).
Qed.

Lemma sleeps_app (tr1 tr2 : list Event) :
  sleeps (tr1 ++ tr2) = sleeps tr1 ++ sleeps tr2.
Proof. apply List.filter_app. Qed.

Lemma mkdir_sleeps p w res w' :
  mkdir rt_ p w = (res, w') -> sleeps (trace w') = sleeps (trace w).
Proof.
  unfold mkdir, bind, emit. destruct (mkdir_error rt_ p);
    intros [= <- <-]; cbn; rewrite sleeps_app; cbn; by rewrite app_nil_r.
Qed.

Lemma write_file_trace p data w res w' :
  write_file rt_ p data w = (res, w') -> trace w' = trace w.
Proof.
  unfold write_file. destruct (write_error rt_ p); [| destruct data];
    intros [= <- <-]; done.
Qed.

Lemma save_audio_file_sleeps audio p f w res w' :
  save_audio_file rt_ audio p f w = (res, w') ->
  sleeps (trace w') = sleeps (trace w).
Proof.
  unfold save_audio_file. destruct (ensure_suffix rt_ p f) as [p' | e].
  - unfold bind.
    destruct (mkdir rt_ (path_parent rt_ p') w) as [[[] | e] w1] eqn:Hmk;
      apply mkdir_sleeps in Hmk.
    + destruct (write_file rt_ p' audio w1) as [[[] | e] w2] eqn:Hwr;
        apply write_file_trace in Hwr; intros [= <- <-]; congruence.
    + intros [= <- <-]. done.
  - intros [= <- <-]. done.
Qed.

(** An agent that does not retry does not sleep. *)
Lemma generate_speech_sleeps t v mo f s out w res w' :
  max_retries cfg_ = 0%nat ->
  generate_speech rt_ cfg_ backend t v mo f s out w = (res, w') ->
  sleeps (trace w') = sleeps (trace w).
Proof.
  intros Hm. unfold generate_speech, try_except, generate_speech_body.
  unfold bind at 1. unfold lift.
  destruct (build_request cfg_ t v mo f s) as [request' | e].
  - unfold bind at 1. unfold call_openai_api. rewrite Hm.
    cbn [Nat.add api_retry_loop]. unfold bind at 1. unfold call_backend.
    rewrite Hm.
    assert (Hcalled : forall w0 : World,
              sleeps (trace w0 ++ [EvApiCall (api_calls w0)])
              = sleeps (trace w0))
      by (intros w0; rewrite sleeps_app; cbn; by rewrite app_nil_r).
    destruct (backend (api_calls w) request') as [chunks | e].
    + unfold ret at 1.
      destruct out as [p |]; [destruct (Py.truthy_str p) |].
      * unfold bind, ret.
        match goal with
        | |- context [save_audio_file ?x1 ?x2 ?x3 ?x4 ?x5] =>
            destruct (save_audio_file x1 x2 x3 x4 x5) as [[p' | e] w2]
              eqn:Hsave
        end; apply save_audio_file_sleeps in Hsave; cbn [trace] in Hsave.
        -- intros [= <- <-]. by rewrite Hsave, Hcalled.
        -- destruct (is_TTSValidationError e || is_TTSAPIError e);
             intros [= <- <-]; by rewrite Hsave, Hcalled.
      * unfold ret. intros [= <- <-]. cbn [trace]. apply Hcalled.
      * unfold ret. intros [= <- <-]. cbn [trace]. apply Hcalled.
    + cbn [Nat.ltb Nat.leb]. unfold raise. cbn.
      intros [= <- <-]. cbn [trace]. apply Hcalled.
  - destruct (is_TTSValidationError e || is_TTSAPIError e);
      intros [= <- <-]; done.
Qed.

End GenerateSpeechLemmas.

(** ** The sleeps of the agent *)

Section AgentSchedule.

Variables (cfg_ : TTSConfig) (backend : Backend) (request' : TTSRequest).

(** One run of the loop of [_call_openai_api]: the calls it makes, the
    sleeps between them and how it ends. *)
Lemma api_retry_loop_schedule (iterations : nat) :
  forall attempt w,
    (1 <= iterations)%nat ->
    (attempt + iterations = max_retries cfg_ + 1)%nat ->
    exists res w' retries,
      api_retry_loop cfg_ backend request' iterations attempt w = (res, w') /\
      (retries < iterations)%nat /\
      trace w'
      = trace w ++ agent_schedule cfg_ (api_calls w) attempt retries /\
      api_calls w' = (api_calls w + retries + 1)%nat /\
      (forall n, (n < retries)%nat ->
         exists e, backend (api_calls w + n)%nat request' = ApiFail e) /\
      match res with
      | Return audio =>
          exists chunks,
            backend (api_calls w + retries)%nat request' = ApiOk chunks /\
            audio = Some (Py.join chunks)
      | Raise e =>
          (attempt + retries = max_retries cfg_)%nat /\
          exists last,
            backend (api_calls w + retries)%nat request' = ApiFail last /\
            e = TTSAPIError
                  ("API call failed after "
                   +:+ Py.str_of_nat (max_retries cfg_ + 1)
                   +:+ " attempts: " +:+ str last) None None
      end.
Proof.
  induction iterations as [| iterations IH]; intros attempt w Hpos Hsum;
    [lia |].
  cbn [api_retry_loop]. unfold bind at 1. unfold call_backend.
  destruct (backend (api_calls w) request') as [chunks | e0] eqn:Hanswer.
  - eexists _, _, 0%nat. split; [reflexivity |]. cbn [api_calls trace].
    rewrite Nat.add_0_r. repeat split; try lia. exists chunks. done.
  - destruct (Nat.ltb_spec attempt (max_retries cfg_)) as [Hlt | Hge].
    + unfold bind at 1. unfold emit at 1.
      edestruct (IH (S attempt)) as (res & w' & retries & Hrun & Hret & Htrace
                                     & Hcalls & Hfail & Hres); [| | ].
      3: { exists res, w', (S retries). split; [exact Hrun |].
           cbn [after api_calls trace] in Htrace, Hcalls, Hfail, Hres.
           split; [lia |]. split; [| split; [lia | split]].
           - rewrite Htrace, <- !app_assoc. reflexivity.
           - intros n Hn. destruct n as [| n].
             + rewrite Nat.add_0_r. eauto.
             + replace (api_calls w + S n)%nat
                 with (S (api_calls w) + n)%nat by lia.
               apply Hfail. lia.
           - replace (api_calls w + S retries)%nat
               with (S (api_calls w) + retries)%nat by lia.
             destruct res as [audio | e]; [exact Hres |].
             destruct Hres as [Hm Hlast]. split; [lia | exact Hlast]. }
      * lia.
      * lia.
    + eexists _, _, 0%nat. unfold raise. split; [reflexivity |].
      cbn [api_calls trace]. rewrite Nat.add_0_r.
      repeat split; try lia. eauto.
Qed.

End AgentSchedule.

Section AgentSleeps.

Variables (rt_ : Runtime) (cfg_ : TTSConfig) (backend : Backend).

Lemma sleeps_agent_schedule (k : nat) :
  forall first attempt,
    sleeps (agent_schedule cfg_ first attempt k) = agent_sleeps cfg_ attempt k.
Proof.
  induction k as [| k IH]; intros first attempt; [done |].
  cbn [agent_schedule agent_sleeps]. unfold sleeps in *.
  cbn [List.filter is_sleep]. by rewrite IH.
Qed.

Lemma agent_sleeps_length (k : nat) :
  forall attempt, length (agent_sleeps cfg_ attempt k) = k.
Proof.
  induction k as [| k IH]; intros attempt; [done |].
  cbn [agent_sleeps length]. by rewrite IH.
Qed.

(** The sleeps of one call of [generate_speech] are those of the agent
    between its calls of the Backend: at most [max_retries] of them, and
    [max_retries] when the Backend has failed every call. *)
Lemma generate_speech_agent_sleeps t v mo f s out w res w' :
  generate_speech rt_ cfg_ backend t v mo f s out w = (res, w') ->
  exists k : nat,
    sleeps (trace w') = sleeps (trace w) ++ agent_sleeps cfg_ 0 k /\
    (k <= max_retries cfg_)%nat.
Proof.
  unfold generate_speech, try_except, generate_speech_body.
  unfold bind at 1. unfold lift.
  destruct (build_request cfg_ t v mo f s) as [request' | e].
  2: { destruct (is_TTSValidationError e || is_TTSAPIError e);
         intros [= <- <-]; exists 0%nat; cbn [agent_sleeps];
         rewrite app_nil_r; (split; [done | lia]). }
  unfold bind at 1. unfold call_openai_api.
  destruct (api_retry_loop_schedule cfg_ backend request'
              (max_retries cfg_ + 1) 0 w)
    as (res1 & w1 & k & Hrun & Hk & Htrace & _); [lia | lia |].
  rewrite Hrun.
  assert (Hsl : sleeps (trace w1) = sleeps (trace w) ++ agent_sleeps cfg_ 0 k)
    by (by rewrite Htrace, sleeps_app, sleeps_agent_schedule).
  destruct res1 as [audio | e].
  - destruct out as [p |]; [destruct (Py.truthy_str p) |].
    + unfold bind, ret.
      destruct (save_audio_file rt_ audio p (format request') w1)
        as [[p' | e] w2] eqn:Hsave;
        apply save_audio_file_sleeps in Hsave.
      * intros [= <- <-]. exists k. split; [congruence | lia].
      * destruct (is_TTSValidationError e || is_TTSAPIError e);
          intros [= <- <-]; exists k; (split; [congruence | lia]).
    + unfold ret. intros [= <- <-]. exists k. split; [done | lia].
    + unfold ret. intros [= <- <-]. exists k. split; [done | lia].
  - destruct (is_TTSValidationError e || is_TTSAPIError e);
      intros [= <- <-]; exists k; (split; [done | lia]).
Qed.

(** An answer of the API becomes a successful response when the file system
    is reliable, and saving the audio does not sleep. *)
Lemma generate_speech_success_sleeps t v mo f s out request' audio w w1 :
  reliable rt_ ->
  build_request cfg_ t v mo f s = Return request' ->
  call_openai_api cfg_ backend request' w = (Return (Some audio), w1) ->
  exists response w',
    generate_speech rt_ cfg_ backend t v mo f s out w = (Return response, w') /\
    success response = true /\
    api_calls w' = api_calls w1 /\
    sleeps (trace w') = sleeps (trace w1).
Proof.
  intros Hrel Hbuild Hcall.
  unfold generate_speech, try_except, generate_speech_body.
  unfold bind at 1. unfold lift. rewrite Hbuild.
  unfold bind at 1. rewrite Hcall.
  destruct out as [p |]; [destruct (Py.truthy_str p) |].
  - destruct (save_audio_file_reliable rt_ audio p (format request') w1 Hrel)
      as (p' & w' & Hsave & Hc & He).
    pose proof (save_audio_file_sleeps _ _ _ _ _ _ _ Hsave) as Hsl.
    unfold bind, ret. rewrite Hsave. eexists _, _. split; [reflexivity |]. done.
  - unfold ret. eexists _, _. split; [reflexivity |]. done.
  - unfold ret. eexists _, _. split; [reflexivity |]. done.
Qed.

End AgentSleeps.

(** ** The retry loop of the engine *)

Section EngineLemmas.

Variables (rt_ : Runtime) (cfg_ : TTSConfig) (backend : Backend)
          (request : TTSRequest) (od : option string) (r : nat).

Let m := max_retries cfg_.

Lemma bind_emit {A} (e : Event) (k : M A) (w : World) :
  (emit e ;; k) w = k (after e w).
Proof. reflexivity. Qed.

(** One iteration of the retry loop, by the outcome of [generate_speech]. *)
Lemma retry_loop_step (iterations attempt : nat) (w : World) :
  retry_loop rt_ cfg_ backend request od r (S iterations) attempt w
  = match generate_speech rt_ cfg_ backend (text request)
            (Some (voice request)) (Some (model request))
            (Some (format request)) (Some (speed request))
            (match od with
             | Some d => Some (path_join rt_ d (filename rt_ request))
             | None => None
             end)
            (after (EvAttempt attempt) w) with
    | (Return response, w1) =>
        if success response then (Return response, w1)
        else if (attempt <? r)%nat
        then retry_loop rt_ cfg_ backend request od r iterations (S attempt)
               (after (EvSleepEngine (backoff attempt)) w1)
        else (Return response, w1)
    | (Raise e, w1) =>
        if (attempt <? r)%nat
        then retry_loop rt_ cfg_ backend request od r iterations (S attempt)
               (after (EvSleepEngine (backoff attempt)) w1)
        else (Return (TTSResponse_failure
                        ("Failed after " +:+ Py.str_of_nat (r + 1)
                         +:+ " attempts: " +:+ str e)), w1)
    end.
Proof. reflexivity. Qed.

(** Whatever the Backend, the file system and the request do, the retry
    loop returns a response, its attempts and sleeps follow the schedule,
    it calls the Backend at most [max_retries + 1] times in each attempt, it
    stops before its last attempt only on a success, and its sleeps are the
    only ones when the agent does not retry. *)
Lemma retry_loop_schedule (iterations : nat) :
  forall attempt w,
    (1 <= iterations)%nat -> (attempt + iterations = r + 1)%nat ->
    exists response w' retries,
      retry_loop rt_ cfg_ backend request od r iterations attempt w
      = (Return response, w') /\
      (retries < iterations)%nat /\
      engine_events (trace w')
      = engine_events (trace w) ++ engine_schedule attempt retries /\
      (api_calls w' <= api_calls w + (retries + 1) * (m + 1))%nat /\
      (success response = false -> retries = (iterations - 1)%nat) /\
      (m = 0%nat ->
       sleeps (trace w')
       = sleeps (trace w) ++ sleeps (engine_schedule attempt retries)).
Proof.
  induction iterations as [| iterations IH]; intros attempt w Hpos Hsum;
    [lia |].
  rewrite retry_loop_step.
  match goal with
  | |- context [generate_speech ?x1 ?x2 ?x3 ?x4 ?x5 ?x6 ?x7 ?x8 ?x9 ?x10] =>
      destruct (generate_speech x1 x2 x3 x4 x5 x6 x7 x8 x9 x10) as [res w1]
        eqn:Hgs
  end.
  assert (Hsl : max_retries cfg_ = 0%nat ->
            sleeps (trace w1) = sleeps (trace (after (EvAttempt attempt) w)))
    by (intros Hm; eapply generate_speech_sleeps; [exact Hm | exact Hgs]).
  apply generate_speech_effects in Hgs as (Hev & Hcalls).
  cbn [after trace api_calls] in Hev, Hcalls, Hsl.
  rewrite engine_events_app in Hev. cbn in Hev.
  rewrite sleeps_app in Hsl. cbn in Hsl. rewrite app_nil_r in Hsl.
  fold m in Hcalls, Hsl.
  assert (Hstop : (0 < S iterations)%nat /\
            engine_events (trace w1)
            = engine_events (trace w) ++ engine_schedule attempt 0 /\
            (api_calls w1 <= api_calls w + (0 + 1) * (m + 1))%nat /\
            (m = 0%nat ->
             sleeps (trace w1)
             = sleeps (trace w) ++ sleeps (engine_schedule attempt 0))).
  { cbn [engine_schedule]. repeat split; [lia | done | lia |].
    intros Hm. rewrite (Hsl Hm). cbn. by rewrite app_nil_r. }
  assert (Hgo : (attempt < r)%nat ->
            exists response w' retries,
              retry_loop rt_ cfg_ backend request od r iterations (S attempt)
                (after (EvSleepEngine (backoff attempt)) w1)
              = (Return response, w') /\
              (retries < S iterations)%nat /\
              engine_events (trace w')
              = engine_events (trace w) ++ engine_schedule attempt retries /\
              (api_calls w' <= api_calls w + (retries + 1) * (m + 1))%nat /\
              (success response = false -> retries = (S iterations - 1)%nat) /\
              (m = 0%nat ->
               sleeps (trace w')
               = sleeps (trace w) ++ sleeps (engine_schedule attempt retries))).
  { intros Hlt.
    destruct (IH (S attempt) (after (EvSleepEngine (backoff attempt)) w1))
      as (response & w' & retries & Hrun & Hret & Hev' & Hcalls' & Hlast
          & Hsl');
      [lia | lia |].
    exists response, w', (S retries). split; [exact Hrun |].
    split; [lia |]. split; [| split; [| split]].
    - rewrite Hev'. cbn [after trace]. rewrite engine_events_app, Hev.
      cbn. rewrite backoff_seconds, <- !app_assoc. reflexivity.
    - cbn [after api_calls] in Hcalls'. lia.
    - intros Hfailed. specialize (Hlast Hfailed). lia.
    - intros Hm. rewrite (Hsl' Hm). cbn [after trace].
      rewrite sleeps_app, (Hsl Hm). cbn.
      rewrite backoff_seconds, <- !app_assoc. reflexivity. }
  destruct Hstop as (Hs1 & Hs2 & Hs3 & Hs4).
  destruct res as [response | e].
  - destruct (success response) eqn:Hsuccess.
    + exists response, w1, 0%nat. rewrite Hsuccess. repeat split; done.
    + destruct (Nat.ltb_spec attempt r) as [Hlt | Hge]; [by apply Hgo |].
      exists response, w1, 0%nat. repeat split; try done. lia.
  - destruct (Nat.ltb_spec attempt r) as [Hlt | Hge]; [by apply Hgo |].
    eexists _, w1, 0%nat. repeat split; try done. lia.
Qed.

Variable request' : TTSRequest.
Hypothesis Hvalid : item_request cfg_ request = Return request'.

(** When the Backend fails every call of every attempt, the retry loop ends
    in a failed response that carries the message of the last call. *)
Lemma retry_loop_exhausts (iterations : nat) :
  forall attempt w,
    (1 <= iterations)%nat -> (attempt + iterations = r + 1)%nat ->
    api_calls w = (attempt * (m + 1))%nat ->
    (forall n, (n < (r + 1) * (m + 1))%nat ->
               exists e, backend n request' = ApiFail e) ->
    exists e w',
      backend ((r + 1) * (m + 1) - 1)%nat request' = ApiFail e /\
      retry_loop rt_ cfg_ backend request od r iterations attempt w
      = (Return (TTSResponse_failure
                   ("Failed after " +:+ Py.str_of_nat (r + 1)
                    +:+ " attempts: "
                    +:+ str (TTSAPIError
                               ("API call failed after "
                                +:+ Py.str_of_nat (m + 1)
                                +:+ " attempts: " +:+ str e) None None))),
         w') /\
      api_calls w' = ((r + 1) * (m + 1))%nat.
Proof.
  induction iterations as [| iterations IH];
    intros attempt w Hpos Hsum Hcalls Hfail; [lia |].
  rewrite retry_loop_step.
  destruct (api_retry_loop_exhausted cfg_ backend request' (m + 1) 0
              (after (EvAttempt attempt) w))
    as (e & w1 & He & Hloop & Hcalls1); [done | lia | |].
  { cbn. intros n Hn. apply Hfail. rewrite Hcalls in Hn. nia. }
  cbn [after api_calls] in He, Hcalls1.
  erewrite generate_speech_api_error; [| exact Hvalid | exact Hloop].
  destruct (Nat.ltb_spec attempt r) as [Hlt | Hge].
  - apply IH; [lia | lia | | done]. cbn. rewrite Hcalls1, Hcalls. nia.
  - assert (attempt = r) as -> by lia.
    exists e, w1. split; [| split].
    + replace ((r + 1) * (m + 1) - 1)%nat
        with (api_calls w + (m + 1) - 1)%nat by (rewrite Hcalls; nia).
      exact He.
    + reflexivity.
    + rewrite Hcalls1, Hcalls. nia.
Qed.

Hypothesis Hreliable : reliable rt_.

(** When the Backend fails until its call [K] and answers that one, and
    the call [K] is within the calls the attempts left can make, the retry
    loop ends in a successful response after [K + 1] calls. *)
Lemma retry_loop_succeeds (K : nat) (chunks : list Py.bytes)
    (iterations : nat) :
  forall attempt w,
    (attempt + iterations = r + 1)%nat ->
    api_calls w = (attempt * (m + 1))%nat ->
    (forall n, (n < K)%nat -> exists e, backend n request' = ApiFail e) ->
    backend K request' = ApiOk chunks ->
    (attempt * (m + 1) <= K < (r + 1) * (m + 1))%nat ->
    exists response w',
      retry_loop rt_ cfg_ backend request od r iterations attempt w
      = (Return response, w') /\
      success response = true /\
      audio_data response = Some (Py.join chunks) /\
      api_calls w' = S K.
Proof.
  induction iterations as [| iterations IH];
    intros attempt w Hsum Hcalls Hfail Hok Hrange; [nia |].
  rewrite retry_loop_step.
  destruct (decide (K < (attempt + 1) * (m + 1))%nat) as [Hnow | Hlater].
  - destruct (api_retry_loop_answers cfg_ backend request' K chunks (m + 1) 0
                (after (EvAttempt attempt) w))
      as (w1 & Hloop & Hcalls1); [done | | done | |].
    { intros n Hn. apply Hfail. lia. }
    { cbn. rewrite Hcalls. nia. }
    edestruct (generate_speech_success rt_ cfg_ backend)
      as (response & w' & Hgs & Hsucc & Haudio & Hc & _);
      [exact Hreliable | exact Hvalid | exact Hloop |].
    rewrite Hgs, Hsucc. exists response, w'. repeat split; congruence.
  - destruct (api_retry_loop_exhausted cfg_ backend request' (m + 1) 0
                (after (EvAttempt attempt) w))
      as (e & w1 & He & Hloop & Hcalls1); [done | lia | |].
    { cbn. intros n Hn. apply Hfail. rewrite Hcalls in Hn. nia. }
    cbn [after api_calls] in Hcalls1.
    erewrite generate_speech_api_error; [| exact Hvalid | exact Hloop].
    assert (Hlt : (attempt < r)%nat) by nia.
    destruct (Nat.ltb_spec attempt r) as [_ | Hge]; [| lia].
    apply IH; [lia | | done | done | nia]. cbn. rewrite Hcalls1, Hcalls. nia.
Qed.

End EngineLemmas.

(** ** The sleeps of one item *)

Section ItemSleeps.

Variables (rt_ : Runtime) (cfg_ : TTSConfig) (backend : Backend)
          (request : TTSRequest) (od : option string) (r : nat).

Lemma item_sleeps_one (attempt k : nat) :
  item_sleeps cfg_ attempt [k] = agent_sleeps cfg_ 0 k.
Proof. cbn [item_sleeps]. by rewrite app_nil_r. Qed.

Lemma item_sleeps_more (attempt k : nat) (ks : list nat) :
  (1 <= length ks)%nat ->
  item_sleeps cfg_ attempt (k :: ks)
  = agent_sleeps cfg_ 0 k
    ++ EvSleepEngine (inject_Z (Z.of_nat (S attempt)))
    :: item_sleeps cfg_ (S attempt) ks.
Proof. destruct ks as [| k' ks]; [cbn; lia | reflexivity]. Qed.

(** Whatever the Backend, the file system and the request do, the retry
    loop returns a response after some attempts; [ks] holds for each of
    them the number of calls that the agent retried, at most [max_retries].
    The events of the engine follow its schedule, the sleeps of the item
    are those of the agent within each attempt and those of the engine
    between the attempts, and the loop stops before its last attempt only
    on a success. *)
Lemma retry_loop_item_sleeps (iterations : nat) :
  forall attempt w,
    (1 <= iterations)%nat -> (attempt + iterations = r + 1)%nat ->
    exists response w' ks,
      retry_loop rt_ cfg_ backend request od r iterations attempt w
      = (Return response, w') /\
      (1 <= length ks <= iterations)%nat /\
      Forall (fun k => (k <= max_retries cfg_)%nat) ks /\
      engine_events (trace w')
      = engine_events (trace w) ++ engine_schedule attempt (length ks - 1) /\
      sleeps (trace w') = sleeps (trace w) ++ item_sleeps cfg_ attempt ks /\
      (success response = false -> length ks = iterations).
Proof.
  induction iterations as [| iterations IH]; intros attempt w Hpos Hsum;
    [lia |].
  rewrite retry_loop_step.
  match goal with
  | |- context [generate_speech ?x1 ?x2 ?x3 ?x4 ?x5 ?x6 ?x7 ?x8 ?x9 ?x10] =>
      destruct (generate_speech x1 x2 x3 x4 x5 x6 x7 x8 x9 x10) as [res w1]
        eqn:Hgs
  end.
  destruct (generate_speech_agent_sleeps _ _ _ _ _ _ _ _ _ _ _ _ Hgs)
    as (k & Hsl & Hk).
  apply generate_speech_effects in Hgs as (Hev & _).
  cbn [after trace] in Hev, Hsl.
  rewrite engine_events_app in Hev. cbn in Hev.
  rewrite sleeps_app in Hsl. cbn in Hsl. rewrite app_nil_r in Hsl.
  assert (Hstop : (1 <= length [k] <= S iterations)%nat /\
            Forall (fun k => (k <= max_retries cfg_)%nat) [k] /\
            engine_events (trace w1)
            = engine_events (trace w)
              ++ engine_schedule attempt (length [k] - 1) /\
            sleeps (trace w1)
            = sleeps (trace w) ++ item_sleeps cfg_ attempt [k]).
  { rewrite item_sleeps_one. cbn [length Nat.sub engine_schedule].
    repeat split; try lia; try done. by apply Forall_singleton. }
  assert (Hgo : (attempt < r)%nat ->
            exists response w' ks,
              retry_loop rt_ cfg_ backend request od r iterations (S attempt)
                (after (EvSleepEngine (backoff attempt)) w1)
              = (Return response, w') /\
              (1 <= length ks <= S iterations)%nat /\
              Forall (fun k => (k <= max_retries cfg_)%nat) ks /\
              engine_events (trace w')
              = engine_events (trace w)
                ++ engine_schedule attempt (length ks - 1) /\
              sleeps (trace w')
              = sleeps (trace w) ++ item_sleeps cfg_ attempt ks /\
              (success response = false -> length ks = S iterations)).
  { intros Hlt.
    destruct (IH (S attempt) (after (EvSleepEngine (backoff attempt)) w1))
      as (response & w' & ks & Hrun & Hlen & Hall & Hev' & Hsl' & Hlast);
      [lia | lia |].
    exists response, w', (k :: ks). split; [exact Hrun |].
    cbn [length]. split; [lia |]. split; [by apply Forall_cons |].
    split; [| split].
    - rewrite Hev'. cbn [after trace]. rewrite engine_events_app, Hev.
      replace (S (length ks) - 1)%nat with (S (length ks - 1)) by lia.
      cbn. rewrite backoff_seconds, <- !app_assoc. reflexivity.
    - rewrite Hsl'. cbn [after trace]. rewrite sleeps_app, Hsl.
      rewrite item_sleeps_more by lia.
      cbn. rewrite backoff_seconds, <- !app_assoc. reflexivity.
    - intros Hfailed. specialize (Hlast Hfailed). lia. }
  destruct Hstop as (Hs1 & Hs2 & Hs3 & Hs4).
  destruct res as [response | e].
  - destruct (success response) eqn:Hsuccess.
    + exists response, w1, [k]. rewrite Hsuccess. repeat split; done.
    + destruct (Nat.ltb_spec attempt r) as [Hlt | Hge]; [by apply Hgo |].
      exists response, w1, [k]. repeat split; try done. cbn. lia.
  - destruct (Nat.ltb_spec attempt r) as [Hlt | Hge]; [by apply Hgo |].
    eexists _, w1, [k]. repeat split; try done. cbn. lia.
Qed.

(** When the agent never retries, the sleeps of an item are those of the
    schedule of the engine. *)
Lemma item_sleeps_engine_only (ks : list nat) :
  Forall (fun k => (k <= 0)%nat) ks -> (1 <= length ks)%nat ->
  forall attempt,
    item_sleeps cfg_ attempt ks
    = sleeps (engine_schedule attempt (length ks - 1)).
Proof.
  induction ks as [| k ks IH]; intros Hall Hlen attempt; [cbn in Hlen; lia |].
  apply Forall_cons in Hall as [Hk Hall].
  assert (k = 0)%nat as -> by lia.
  destruct ks as [| k' ks]; [reflexivity |].
  rewrite item_sleeps_more by (cbn; lia).
  rewrite IH by (done || cbn; lia). cbn [length Nat.sub agent_sleeps app].
  rewrite Nat.sub_0_r. reflexivity.
Qed.

Variable request' : TTSRequest.
Hypothesis Hvalid : item_request cfg_ request = Return request'.

(** An attempt in which the Backend fails every call: the agent sleeps
    [max_retries] times and raises. *)
Lemma generate_speech_down_sleeps (out : option string) (w : World) :
  (forall n, (api_calls w <= n <= api_calls w + max_retries cfg_)%nat ->
             exists e, backend n request' = ApiFail e) ->
  exists e w',
    generate_speech rt_ cfg_ backend (text request) (Some (voice request))
      (Some (model request)) (Some (format request)) (Some (speed request))
      out w
    = (Raise e, w') /\
    api_calls w' = (api_calls w + max_retries cfg_ + 1)%nat /\
    sleeps (trace w')
    = sleeps (trace w) ++ agent_sleeps cfg_ 0 (max_retries cfg_).
Proof.
  intros Hfail.
  destruct (api_retry_loop_schedule cfg_ backend request'
              (max_retries cfg_ + 1) 0 w)
    as (res & w' & k & Hrun & Hk & Htrace & Hcalls & _ & Hres);
    [lia | lia |].
  destruct res as [audio | e].
  { destruct Hres as (chunks & Hok & _).
    destruct (Hfail (api_calls w + k)%nat) as [e He]; [lia | congruence]. }
  destruct Hres as (Hm & last & _ & ->). cbn [Nat.add] in Hm. subst k.
  eexists _, w'. split; [| split].
  - eapply generate_speech_api_error; [exact Hvalid | exact Hrun].
  - lia.
  - by rewrite Htrace, sleeps_app, sleeps_agent_schedule.
Qed.

(** The retry loop against a Backend that fails every call the item can
    make: every attempt uses up the retries of the agent. *)
Lemma retry_loop_down (iterations : nat) :
  forall attempt w,
    (1 <= iterations)%nat -> (attempt + iterations = r + 1)%nat ->
    api_calls w = (attempt * (max_retries cfg_ + 1))%nat ->
    (forall n, (n < (r + 1) * (max_retries cfg_ + 1))%nat ->
               exists e, backend n request' = ApiFail e) ->
    exists response w',
      retry_loop rt_ cfg_ backend request od r iterations attempt w
      = (Return response, w') /\
      success response = false /\
      api_calls w' = ((r + 1) * (max_retries cfg_ + 1))%nat /\
      sleeps (trace w')
      = sleeps (trace w)
        ++ item_sleeps cfg_ attempt (repeat (max_retries cfg_) iterations).
Proof.
  induction iterations as [| iterations IH];
    intros attempt w Hpos Hsum Hc Hdown; [lia |].
  rewrite retry_loop_step.
  match goal with
  | |- context [generate_speech _ _ _ _ _ _ _ _ ?out ?w0] =>
      destruct (generate_speech_down_sleeps out w0)
        as (e & w1 & Hgs & Hcalls & Hsl);
        [cbn [after api_calls]; intros n Hn; apply Hdown; nia |]
  end.
  rewrite Hgs. cbn [after api_calls trace] in Hcalls, Hsl.
  rewrite sleeps_app in Hsl. cbn in Hsl. rewrite app_nil_r in Hsl.
  destruct (Nat.ltb_spec attempt r) as [Hlt | Hge].
  - destruct (IH (S attempt) (after (EvSleepEngine (backoff attempt)) w1))
      as (response & w' & Hrun & Hfailed & Hcalls' & Hsl');
      [lia | lia | cbn; lia | exact Hdown |].
    exists response, w'. split; [exact Hrun |]. split; [exact Hfailed |].
    split; [exact Hcalls' |]. cbn [after trace] in Hsl'.
    rewrite Hsl', sleeps_app, Hsl. cbn [repeat].
    rewrite item_sleeps_more by (rewrite repeat_length; lia).
    cbn. rewrite backoff_seconds, <- !app_assoc. reflexivity.
  - assert (iterations = 0)%nat as -> by lia.
    eexists _, w1. split; [reflexivity |]. split; [done |]. split; [nia |].
    cbn [repeat]. by rewrite item_sleeps_one.
Qed.

Hypothesis Hreliable : reliable rt_.

(** The retry loop when the Backend fails until the call [j] of the attempt
    [q] and answers that one: the agent uses up its retries in the attempts
    before, the engine sleeps after each of them, and the loop ends with
    the attempt [q]. *)
Lemma retry_loop_answering (q j : nat) (chunks : list Py.bytes)
    (iterations : nat) :
  forall attempt w,
    (attempt + iterations = r + 1)%nat ->
    (attempt <= q <= r)%nat -> (j <= max_retries cfg_)%nat ->
    api_calls w = (attempt * (max_retries cfg_ + 1))%nat ->
    (forall n, (n < q * (max_retries cfg_ + 1) + j)%nat ->
               exists e, backend n request' = ApiFail e) ->
    backend (q * (max_retries cfg_ + 1) + j)%nat request' = ApiOk chunks ->
    exists response w',
      retry_loop rt_ cfg_ backend request od r iterations attempt w
      = (Return response, w') /\
      success response = true /\
      api_calls w' = (q * (max_retries cfg_ + 1) + j + 1)%nat /\
      sleeps (trace w')
      = sleeps (trace w)
        ++ item_sleeps cfg_ attempt
             (repeat (max_retries cfg_) (q - attempt) ++ [j]).
Proof.
  induction iterations as [| iterations IH];
    intros attempt w Hsum Hq Hj Hcalls Hfail Hok; [lia |].
  rewrite retry_loop_step.
  destruct (api_retry_loop_schedule cfg_ backend request'
              (max_retries cfg_ + 1) 0 (after (EvAttempt attempt) w))
    as (res & w1 & k & Hrun & Hk & Htrace & Hcalls1 & Hfailk & Hres);
    [lia | lia |].
  cbn [after api_calls trace] in Htrace, Hcalls1, Hfailk, Hres.
  assert (Hsl : sleeps (trace w1) = sleeps (trace w) ++ agent_sleeps cfg_ 0 k).
  { rewrite Htrace, !sleeps_app, sleeps_agent_schedule. cbn.
    by rewrite app_nil_r. }
  destruct (decide (attempt = q)) as [-> | Hne].
  - assert (k = j /\ res = Return (Some (Py.join chunks))) as [-> ->].
    { destruct res as [audio | e].
      - destruct Hres as (chunks' & Hok' & ->).
        destruct (Nat.lt_trichotomy k j) as [Hlt | [-> | Hgt]].
        + destruct (Hfail (api_calls w + k)%nat) as [e He]; [nia |].
          congruence.
        + rewrite Hcalls in Hok'. split; [done | congruence].
        + destruct (Hfailk j Hgt) as [e He]. rewrite Hcalls in He.
          congruence.
      - destruct Hres as (Hm & last & Hlast & _). cbn [Nat.add] in Hm.
        subst k. destruct (decide (j = max_retries cfg_)) as [-> | Hjm].
        + rewrite Hcalls in Hlast. congruence.
        + destruct (Hfailk j) as [e' He']; [lia |]. rewrite Hcalls in He'.
          congruence. }
    edestruct (generate_speech_success_sleeps rt_ cfg_ backend)
      as (response & w' & Hgs & Hsucc & Hc & Hsl');
      [exact Hreliable | exact Hvalid | exact Hrun |].
    rewrite Hgs, Hsucc. exists response, w'. split; [done |].
    split; [done |]. split; [lia |].
    rewrite Hsl', Hsl, Nat.sub_diag. cbn [repeat app].
    by rewrite item_sleeps_one.
  - assert (k = max_retries cfg_ /\
            exists message, res = Raise (TTSAPIError message None None))
      as [-> [message ->]].
    { destruct res as [audio | e].
      - destruct Hres as (chunks' & Hok' & _).
        destruct (Hfail (api_calls w + k)%nat) as [e He]; [nia |].
        congruence.
      - destruct Hres as (Hm & last & _ & ->). cbn [Nat.add] in Hm.
        split; [done | eauto]. }
    erewrite generate_speech_api_error; [| exact Hvalid | exact Hrun].
    destruct (Nat.ltb_spec attempt r) as [_ | Hge]; [| lia].
    destruct (IH (S attempt) (after (EvSleepEngine (backoff attempt)) w1))
      as (response & w' & Hloop & Hsucc & Hc & Hsl');
      [lia | lia | done | cbn; lia | done | done |].
    exists response, w'. split; [exact Hloop |]. split; [exact Hsucc |].
    split; [exact Hc |].
    rewrite Hsl'. cbn [after trace]. rewrite sleeps_app, Hsl.
    replace (q - attempt)%nat with (S (q - S attempt)) by lia.
    cbn [repeat app].
    rewrite item_sleeps_more by (rewrite length_app; cbn; lia).
    cbn. rewrite backoff_seconds, <- !app_assoc. reflexivity.
Qed.

End ItemSleeps.

(** ** The outcome of one item *)

Section EngineTheorems.

Import Examples.

Lemma attempts_engine_events (tr : list Event) :
  attempts tr = attempts (engine_events tr).
Proof.
  unfold attempts, engine_events.
  induction tr as [| e tr IH]; [done |].
  destruct e; cbn; rewrite ?IH; done.
Qed.

Lemma attempts_engine_schedule (retries : nat) :
  forall first, attempts (engine_schedule first retries) = S retries.
Proof.
  induction retries as [| retries IH]; intros first; [done |].
  cbn [engine_schedule]. unfold attempts in *. cbn. by rewrite IH.
Qed.

(** An item whose request fails validation: every attempt fails in the
    same way, without a call of the Backend, and the loop sleeps and tries
    again until its attempts are used up. *)
Lemma retry_loop_invalid rt_ cfg_ backend request od r e (iterations : nat) :
  item_request cfg_ request = Raise e ->
  forall attempt w,
    (1 <= iterations)%nat -> (attempt + iterations = r + 1)%nat ->
    retry_loop rt_ cfg_ backend request od r iterations attempt w
    = (Return (TTSResponse_failure ("Unexpected error: " +:+ str e)),
       {| api_calls := api_calls w;
          trace := trace w ++ engine_schedule attempt (iterations - 1);
          files := files w |}).
Proof.
  intros Hinvalid.
  induction iterations as [| iterations IH]; intros attempt w Hpos Hsum;
    [lia |].
  rewrite retry_loop_step.
  erewrite generate_speech_invalid by exact Hinvalid.
  cbn [success TTSResponse_failure].
  destruct (Nat.ltb_spec attempt r) as [Hlt | Hge].
  - rewrite IH by lia. cbn [after api_calls trace files].
    replace (S iterations - 1)%nat with (S (iterations - 1)) by lia.
    cbn [engine_schedule]. rewrite backoff_seconds, <- !app_assoc. reflexivity.
  - assert (iterations = 0)%nat as -> by lia. reflexivity.
Qed.

(** C4, counterexample.  With the configuration [TTSConfig()], whose
    [max_retries] is 3, no retry of the engine, and a Backend that fails its
    first call only, the outcome of the item is a success although
    retryAttempts = 0 < 1 = k, and the Backend is called twice although
    retryAttempts + 1 = 1: the agent repeats the call on its own. *)
Lemma retry_hidden_in_agent :
  exists response w',
    process_single_request rt_ok TTSConfig_default (item_failing 1) hello
                           None 0 World_initial
    = (Return response, w') /\
    success response = true /\
    api_calls w' = 2%nat /\
    trace w' = [EvAttempt 0; EvApiCall 0; EvSleepAgent 1; EvApiCall 1].
Proof.
  eexists _, _. split; [vm_compute; reflexivity |].
  split; [reflexivity |]. split; reflexivity.
Qed.

(** C4, as amended.  An item with a valid request, on a reliable file
    system, whose Backend fails its first K calls and answers from then on,
    handled by an agent whose [max_retries] is m, with r retry attempts of
    the engine.  If K < (r + 1)(m + 1), and so whenever K <= r, the outcome
    is a success, after K + 1 calls of the Backend.  Otherwise the outcome
    is a failure after (r + 1)(m + 1) calls, and its message is built from
    the message of the last call.  The engine makes at most r + 1 attempts
    and the Backend is called at most (r + 1)(m + 1) times.  When m = 0 the
    outcome is a failure exactly when r < K. *)
Theorem retry_outcome (rt_ : Runtime) (cfg_ : TTSConfig) (item : ItemEnv)
    (request request' : TTSRequest) (od : option string) (r K : nat)
    (Hgate : item_gate item = None)
    (Hreliable : reliable rt_)
    (Hvalid : item_request cfg_ request = Return request')
    (Hfail : forall n, (n < K)%nat ->
                       exists e, item_backend item n request' = ApiFail e)
    (Hok : forall n, (K <= n)%nat ->
                     exists chunks, item_backend item n request' = ApiOk chunks) :
  let m := max_retries cfg_ in
  exists response w',
    process_single_request rt_ cfg_ item request od r World_initial
    = (Return response, w') /\
    ((K < (r + 1) * (m + 1))%nat ->
       success response = true /\ api_calls w' = (K + 1)%nat) /\
    (((r + 1) * (m + 1) <= K)%nat ->
       success response = false /\
       api_calls w' = ((r + 1) * (m + 1))%nat /\
       exists e,
         item_backend item ((r + 1) * (m + 1) - 1)%nat request' = ApiFail e /\
         error response
         = Some ("Failed after " +:+ Py.str_of_nat (r + 1) +:+ " attempts: "
                 +:+ str (TTSAPIError
                            ("API call failed after " +:+ Py.str_of_nat (m + 1)
                             +:+ " attempts: " +:+ str e) None None))) /\
    ((K <= r)%nat -> success response = true) /\
    (m = 0%nat -> (r < K)%nat -> success response = false) /\
    (attempts (trace w') <= r + 1)%nat /\
    (api_calls w' <= (r + 1) * (m + 1))%nat.
Proof.
  intros m. unfold process_single_request. rewrite Hgate.
  destruct (retry_loop_schedule rt_ cfg_ (item_backend item) request od r
              (r + 1) 0 World_initial)
    as (response0 & w0 & retries & Hrun0 & Hret & Hev & Hcalls & _ & _);
    [lia | lia |].
  assert (Hbounds : (attempts (trace w0) <= r + 1)%nat /\
                    (api_calls w0 <= (r + 1) * (m + 1))%nat).
  { split.
    - rewrite attempts_engine_events, Hev.
      cbn [World_initial trace engine_events List.filter app].
      rewrite attempts_engine_schedule. lia.
    - cbn [World_initial api_calls] in Hcalls. fold m in Hcalls. nia. }
  destruct (decide (K < (r + 1) * (m + 1))%nat) as [Hin | Hout].
  - destruct (Hok K) as [chunks Hchunks]; [lia |].
    destruct (retry_loop_succeeds rt_ cfg_ (item_backend item) request od r
                request' Hvalid Hreliable K chunks (r + 1) 0 World_initial)
      as (response & w' & Hrun & Hsucc & _ & Hc);
      [lia | done | done | done | fold m; lia |].
    rewrite Hrun in Hrun0. injection Hrun0 as <- <-.
    exists response, w'. split; [exact Hrun |].
    split; [intros _; split; [done | lia] |].
    split; [intros; lia |].
    split; [done |].
    split; [intros Hm Hlt; rewrite Hm in Hin; lia |].
    exact Hbounds.
  - destruct (retry_loop_exhausts rt_ cfg_ (item_backend item) request od r
                request' Hvalid (r + 1) 0 World_initial)
      as (e & w' & He & Hrun & Hc); [lia | lia | done | |].
    { intros n Hn. apply Hfail. fold m in Hn. lia. }
    rewrite Hrun in Hrun0. injection Hrun0 as <- <-.
    eexists _, w'. split; [exact Hrun |]. fold m in Hc, He.
    split; [intros; lia |].
    split; [intros _; split; [done | split; [done | exists e; done]] |].
    split; [intros; nia |].
    split; [done |]. exact Hbounds.
Qed.

Lemma fails_first_stub_fails k n request :
  (n < k)%nat -> exists e, fails_first_stub k n request = ApiFail e.
Proof.
  intros Hlt. unfold fails_first_stub.
  destruct (Nat.ltb_spec n k); [eauto | lia].
Qed.

Lemma fails_first_stub_answers k n request :
  (k <= n)%nat -> exists chunks, fails_first_stub k n request = ApiOk chunks.
Proof.
  intros Hge. unfold fails_first_stub.
  destruct (Nat.ltb_spec n k); [lia | eauto].
Qed.

Lemma rt_ok_reliable : reliable rt_ok.
Proof. repeat split; cbn; eauto. Qed.

(** A Backend that fails twice, an agent that does not retry, and two retry
    attempts of the engine. *)
Lemma retry_outcome_witness :
  exists response w',
    process_single_request rt_ok (cfg_retries 0) (item_failing 2) hello None 2
                           World_initial
    = (Return response, w') /\
    success response = true /\ api_calls w' = 3%nat.
Proof.
  destruct (retry_outcome rt_ok (cfg_retries 0) (item_failing 2) hello hello
              None 2 2)
    as (response & w' & Hrun & Hin & _).
  - reflexivity.
  - exact rt_ok_reliable.
  - reflexivity.
  - intros n Hn. by apply fails_first_stub_fails.
  - intros n Hn. by apply fails_first_stub_answers.
  - exists response, w'. split; [exact Hrun |]. apply Hin. cbn. lia.
Defined.

(** C6, counterexample.  An item whose text is blank fails validation in
    every attempt; with two retry attempts the engine attempts it three
    times and sleeps twice, although the Backend is never called.  And
    retries are not kept for failures of the Backend: when the file cannot
    be written, every attempt calls the Backend, which answers, fails
    afterwards and is repeated. *)
Lemma failures_other_than_backend_are_retried :
  (exists w',
     process_single_request rt_ok TTSConfig_default item_ok blank None 2
                            World_initial
     = (Return (TTSResponse_failure
                  ("Unexpected error: "
                   +:+ str (PydanticValidationError "TTSRequest"
                         [{| loc := "text";
                             msg := "Text cannot be empty or only whitespace"
                          |}]))),
        w') /\
     api_calls w' = 0%nat /\
     trace w'
     = [EvAttempt 0; EvSleepEngine 1; EvAttempt 1; EvSleepEngine 2;
        EvAttempt 2]) /\
  (exists response w',
     process_single_request rt_read_only (cfg_retries 0) item_ok hello
                            (Some "out") 1 World_initial
     = (Return response, w') /\
     success response = false /\
     api_calls w' = 2%nat /\
     engine_events (trace w') = [EvAttempt 0; EvSleepEngine 1; EvAttempt 1]).
Proof.
  split.
  - eexists. split; [vm_compute; reflexivity |]. split; reflexivity.
  - eexists _, _. split; [vm_compute; reflexivity |].
    split; [reflexivity |]. split; reflexivity.
Qed.

(** C6, as amended.  An item whose request fails validation never reaches
    the Backend and ends as a failed outcome that carries the validation
    error; the engine does not tell this failure from any other: it makes
    all its r + 1 attempts, which fail in the same way, and sleeps between
    them.  Whatever the cause of the failure, an item whose outcome is a
    failure has been attempted r + 1 times. *)
Theorem failed_attempts_are_retried (rt_ : Runtime) (cfg_ : TTSConfig)
    (item : ItemEnv) (request : TTSRequest) (od : option string) (r : nat)
    (Hgate : item_gate item = None) :
  (forall e,
     item_request cfg_ request = Raise e ->
     process_single_request rt_ cfg_ item request od r World_initial
     = (Return (TTSResponse_failure ("Unexpected error: " +:+ str e)),
        {| api_calls := 0; trace := engine_schedule 0 r; files := ∅ |})) /\
  (forall response w',
     process_single_request rt_ cfg_ item request od r World_initial
     = (Return response, w') ->
     success response = false ->
     engine_events (trace w') = engine_schedule 0 r) /\
  attempts (engine_schedule 0 r) = (r + 1)%nat.
Proof.
  unfold process_single_request. rewrite Hgate. split; [| split].
  - intros e Hinvalid.
    erewrite retry_loop_invalid; [| exact Hinvalid | lia | lia].
    cbn [World_initial api_calls trace files app].
    replace (r + 1 - 1)%nat with r by lia. reflexivity.
  - intros response w' Hrun Hfailed.
    destruct (retry_loop_schedule rt_ cfg_ (item_backend item) request od r
                (r + 1) 0 World_initial)
      as (response0 & w0 & retries & Hrun0 & _ & Hev & _ & Hlast & _);
      [lia | lia |].
    rewrite Hrun in Hrun0. injection Hrun0 as <- <-.
    rewrite Hev, (Hlast Hfailed).
    replace (r + 1 - 1)%nat with r by lia. reflexivity.
  - rewrite attempts_engine_schedule. lia.
Qed.

(** The blank item with two retry attempts. *)
Lemma failed_attempts_are_retried_witness :
  process_single_request rt_ok TTSConfig_default item_ok blank None 2
                         World_initial
  = (Return (TTSResponse_failure
               ("Unexpected error: "
                +:+ str (PydanticValidationError "TTSRequest"
                      [{| loc := "text";
                          msg := "Text cannot be empty or only whitespace" |}]))),
     {| api_calls := 0; trace := engine_schedule 0 2; files := ∅ |}).
Proof.
  apply (proj1 (failed_attempts_are_retried rt_ok TTSConfig_default item_ok
                  blank None 2 eq_refl)).
  reflexivity.
Defined.

(** C8, counterexample.  With the configuration [TTSConfig()], one retry
    of the engine and a Backend that is down, the Backend is attempted
    eight times, and the sleeps between its attempts are 1, 2, 3, 1, 1, 2
    and 3 seconds: before the fourth retry of the Backend the item sleeps
    one second, not four, and it sleeps six times more than the one retry
    of the engine accounts for.  The agent retries on its own within each
    attempt of the engine. *)
Lemma backoff_hidden_in_agent :
  exists response w',
    process_single_request rt_ok TTSConfig_default item_down hello None 1
                           World_initial
    = (Return response, w') /\
    success response = false /\
    api_calls w' = 8%nat /\
    sleeps (trace w')
    = [EvSleepAgent 1; EvSleepAgent 2; EvSleepAgent 3; EvSleepEngine 1;
       EvSleepAgent 1; EvSleepAgent 2; EvSleepAgent 3].
Proof.
  eexists _, _. split; [vm_compute; reflexivity |].
  split; [reflexivity |]. split; reflexivity.
Qed.

(** C8, as amended.  For every item that is let through by the semaphore
    and the throttler, whatever its request, the Backend and the file
    system do.  The item makes between 1 and r + 1 attempts, all r + 1 of
    them when its outcome is a failure; [ks] holds for each attempt the
    number of calls of the Backend that the agent retried in it, at most
    [max_retries].  The events of the engine are the attempt 0, then, for
    each retry n = 1, 2, ..., a sleep of n seconds and the attempt n, so
    that no sleep of the engine follows the final attempt.  The sleeps of
    the item are, attempt by attempt, those of the agent, of
    [rate_limit_delay * j] seconds before its j-th retry of the call, and
    between two attempts the sleep of the engine; when the agent does not
    retry on its own (max_retries = 0) the sleeps of the engine are all the
    sleeps of the item.

    With a valid request and a reliable file system the numbers are
    determined by the Backend.  When it fails until the call j of the
    attempt q and answers that one, the agent uses up its retries in the
    q attempts before, retries j calls in the attempt q, and the item stops
    there with a success.  When it fails (r + 1)(max_retries + 1) calls,
    the agent uses up its retries in every one of the r + 1 attempts.

    The duration that the source computes for the n-th retry of the
    engine, 1.0 * n, is n seconds, which is max(1, 1 * n). *)
Theorem engine_backoff_schedule (rt_ : Runtime) (cfg_ : TTSConfig)
    (item : ItemEnv) (request : TTSRequest) (od : option string) (r : nat)
    (Hgate : item_gate item = None) :
  (exists response w' ks,
     process_single_request rt_ cfg_ item request od r World_initial
     = (Return response, w') /\
     (1 <= length ks <= r + 1)%nat /\
     (success response = false -> length ks = (r + 1)%nat) /\
     Forall (fun k => (k <= max_retries cfg_)%nat) ks /\
     engine_events (trace w') = engine_schedule 0 (length ks - 1) /\
     sleeps (trace w') = item_sleeps cfg_ 0 ks /\
     (max_retries cfg_ = 0%nat ->
      sleeps (trace w') = sleeps (engine_schedule 0 (length ks - 1)))) /\
  (forall request' q j chunks,
     item_request cfg_ request = Return request' ->
     reliable rt_ ->
     (q <= r)%nat -> (j <= max_retries cfg_)%nat ->
     (forall n, (n < q * (max_retries cfg_ + 1) + j)%nat ->
                exists e, item_backend item n request' = ApiFail e) ->
     item_backend item (q * (max_retries cfg_ + 1) + j)%nat request'
     = ApiOk chunks ->
     exists response w',
       process_single_request rt_ cfg_ item request od r World_initial
       = (Return response, w') /\
       success response = true /\
       sleeps (trace w')
       = item_sleeps cfg_ 0 (repeat (max_retries cfg_) q ++ [j])) /\
  (forall request',
     item_request cfg_ request = Return request' ->
     (forall n, (n < (r + 1) * (max_retries cfg_ + 1))%nat ->
                exists e, item_backend item n request' = ApiFail e) ->
     exists response w',
       process_single_request rt_ cfg_ item request od r World_initial
       = (Return response, w') /\
       success response = false /\
       sleeps (trace w')
       = item_sleeps cfg_ 0 (repeat (max_retries cfg_) (r + 1))) /\
  (forall attempt,
     backoff attempt = inject_Z (Z.of_nat (attempt + 1)) /\
     (backoff attempt
      == Qmax 1 (1 * inject_Z (Z.of_nat (attempt + 1))))%Q).
Proof.
  unfold process_single_request. rewrite Hgate.
  split; [| split; [| split]].
  - destruct (retry_loop_item_sleeps rt_ cfg_ (item_backend item) request od
                r (r + 1) 0 World_initial)
      as (response & w' & ks & Hrun & Hlen & Hall & Hev & Hsl & Hlast);
      [lia | lia |].
    exists response, w', ks. split; [exact Hrun |]. split; [exact Hlen |].
    split; [exact Hlast |]. split; [exact Hall |]. split; [exact Hev |].
    split; [exact Hsl |]. intros Hm. rewrite Hsl.
    apply item_sleeps_engine_only; [| lia]. by rewrite <- Hm.
  - intros request' q j chunks Hvalid Hreliable Hq Hj Hfail Hok.
    destruct (retry_loop_answering rt_ cfg_ (item_backend item) request od r
                request' Hvalid Hreliable q j chunks (r + 1) 0 World_initial)
      as (response & w' & Hrun & Hsucc & _ & Hsl);
      [lia | lia | done | done | done | done |].
    exists response, w'. split; [exact Hrun |]. split; [exact Hsucc |].
    rewrite Hsl, Nat.sub_0_r. reflexivity.
  - intros request' Hvalid Hfail.
    destruct (retry_loop_down rt_ cfg_ (item_backend item) request od r
                request' Hvalid (r + 1) 0 World_initial)
      as (response & w' & Hrun & Hfailed & _ & Hsl);
      [lia | lia | done | done |].
    exists response, w'. split; [exact Hrun |]. split; [exact Hfailed |].
    exact Hsl.
  - intros attempt. split.
    + rewrite backoff_seconds. f_equal. f_equal. lia.
    + unfold backoff. symmetry. apply Q.max_r.
      rewrite Qmult_1_l. unfold Qle, inject_Z. cbn. lia.
Qed.

(** The defaults with a Backend that fails its first five calls and three
    retry attempts: the first attempt sleeps 1, 2 and 3 seconds in the
    agent, the engine sleeps one second, and the second attempt succeeds
    after one more second. *)
Lemma engine_backoff_schedule_witness :
  exists response w',
    process_single_request rt_ok TTSConfig_default (item_failing 5) hello None
                           3 World_initial
    = (Return response, w') /\
    success response = true /\
    sleeps (trace w')
    = [EvSleepAgent 1; EvSleepAgent 2; EvSleepAgent 3; EvSleepEngine 1;
       EvSleepAgent 1].
Proof.
  destruct (proj1 (proj2 (engine_backoff_schedule rt_ok TTSConfig_default
                            (item_failing 5) hello None 3 eq_refl))
              hello 1%nat 1%nat [audio] eq_refl rt_ok_reliable)
    as (response & w' & Hrun & Hsucc & Hsl); [lia | cbn; lia | | |].
  - intros n Hn. apply fails_first_stub_fails. cbn in Hn. lia.
  - reflexivity.
  - exists response, w'. split; [exact Hrun |]. split; [exact Hsucc |].
    rewrite Hsl. vm_compute. reflexivity.
Defined.

Example engine_backoff_schedule_example :
  engine_events
    (trace (process_single_request rt_ok (cfg_retries 0) (item_failing 4) hello
              None 3 World_initial).2)
  = [EvAttempt 0; EvSleepEngine 1; EvAttempt 1; EvSleepEngine 2; EvAttempt 2;
     EvSleepEngine 3; EvAttempt 3].
Proof. vm_compute. reflexivity. Qed.

End EngineTheorems.

(** ** The failure of one item stays with the item *)

Section Containment.

Import Examples.

(** C5.  Two runs of a batch of 1 to 100 requests that differ only in what
    happens to the item i, whatever happens to it and in whatever orders the
    tasks finish: both calls return a response, and the results of every
    other item are the same in both.  When the task of the item i raises an
    exception, the result of the item i is a failed response that carries the
    message of the exception.  An exception raised inside the retry loop of
    an item does not leave it: an item that was let through by the semaphore
    and the throttler returns a response. *)
Theorem item_failure_is_contained (env env' : BatchEnv)
    (requests : list TTSRequest) (out : option string) (r i : nat)
    (completion completion' : list nat)
    (Hsize : (1 <= length requests <= 100)%nat)
    (Hdone : completion ≡ₚ seq 0 (length requests))
    (Hdone' : completion' ≡ₚ seq 0 (length requests))
    (Hrt : rt env = rt env') (Hcfg : cfg env = cfg env')
    (Hothers : forall j, j <> i -> items env j = items env' j) :
  (exists response response',
     batch_result (process_batch env requests out r completion)
       = Some (Return response) /\
     batch_result (process_batch env' requests out r completion')
       = Some (Return response') /\
     length (results response) = length requests /\
     (forall j, j <> i -> results response !! j = results response' !! j) /\
     (forall request od w e,
        requests !! i = Some request ->
        prepare_output_directory (rt env) out World_initial = (Return od, w) ->
        (run_task (rt env) (cfg env) (items env i) request od r).1
          = TaskRaised e ->
        results response !! i
        = Some (TTSResponse_failure (request_error i (str e))))) /\
  (forall request od,
     item_gate (items env i) = None ->
     exists response w',
       process_single_request (rt env) (cfg env) (items env i) request od r
                              World_initial
       = (Return response, w')).
Proof.
  split.
  - destruct (prepare_output_directory_cases (rt env) out)
      as [(od & w & Hp) | (e & w & Hp)].
    + assert (Hp' : prepare_output_directory (rt env') out World_initial
                    = (Return od, w)) by (by rewrite <- Hrt).
      eexists _, _.
      split; [by eapply process_batch_dispatched |].
      split; [by eapply process_batch_dispatched |].
      cbn [results].
      split; [| split].
      * rewrite length_imap, length_fmap. unfold dispatch.
        by rewrite length_imap.
      * intros j Hj.
        rewrite !list_lookup_imap, !dispatch_results, !list_lookup_imap.
        rewrite <- Hrt, <- Hcfg, <- (Hothers j Hj). reflexivity.
      * intros request od0 w0 e Hi Hp0 Hraised.
        rewrite Hp in Hp0. injection Hp0 as <- <-.
        rewrite list_lookup_imap, dispatch_results, list_lookup_imap, Hi.
        cbn. rewrite Hraised. reflexivity.
    + assert (Hp' : prepare_output_directory (rt env') out World_initial
                    = (Raise e, w)) by (by rewrite <- Hrt).
      destruct (process_batch_not_dispatched env requests out r completion e)
        as [Hres _].
      { right. split; [by apply check_batch_Return | eauto]. }
      destruct (process_batch_not_dispatched env' requests out r completion' e)
        as [Hres' _].
      { right. split; [by apply check_batch_Return | eauto]. }
      rewrite Hres, Hres', !batch_failure_Return.
      eexists _, _. split; [reflexivity |]. split; [reflexivity |].
      cbn [results]. split; [by rewrite length_map |]. split; [done |].
      intros request od0 w0 e0 _ Hp0. rewrite Hp in Hp0. discriminate.
  - intros request od Hgate. unfold process_single_request. rewrite Hgate.
    destruct (retry_loop_schedule (rt env) (cfg env)
                (item_backend (items env i)) request od r (r + 1) 0
                World_initial)
      as (response & w' & _ & Hrun & _); [lia | lia |].
    eauto.
Qed.

(** Three requests: in one run the task of the item 1 raises, in the other
    it succeeds; the orders of completion differ. *)
Lemma item_failure_is_contained_witness :
  exists response response',
    batch_result (process_batch env_one_raises [hello; hello; hello] None 1
                    [2; 0; 1]%nat)
      = Some (Return response) /\
    batch_result (process_batch env_ok [hello; hello; hello] None 1
                    [0; 1; 2]%nat)
      = Some (Return response') /\
    length (results response) = 3%nat /\
    (forall j, j <> 1%nat -> results response !! j = results response' !! j) /\
    (forall request od w e,
       [hello; hello; hello] !! 1%nat = Some request ->
       prepare_output_directory rt_ok None World_initial = (Return od, w) ->
       (run_task rt_ok TTSConfig_default (items env_one_raises 1) request od
                 1).1
         = TaskRaised e ->
       results response !! 1%nat
       = Some (TTSResponse_failure (request_error 1 (str e)))).
Proof.
  apply (proj1 (item_failure_is_contained env_one_raises env_ok
                  [hello; hello; hello] None 1 1 [2; 0; 1]%nat [0; 1; 2]%nat
                  ltac:(cbn; lia) seq3_completion (Permutation_refl _)
                  eq_refl eq_refl
                  ltac:(intros j Hj; cbn;
                        destruct (Nat.eqb_spec j 1); [lia | reflexivity]))).
Defined.

(** The batch in which the task of the item 1 raises: the other two items
    succeed, and the response counts one failure. *)
Example one_item_raises :
  exists response,
    batch_result (process_batch env_one_raises [hello; hello; hello] None 1
                    [2; 0; 1]%nat)
      = Some (Return response) /\
    map success (results response) = [true; false; true] /\
    successful response = 2 /\ failed response = 1 /\
    errors response = ["Request 1: injected"].
Proof.
  eexists. split; [vm_compute; reflexivity |].
  split; [reflexivity |]. split; [reflexivity |]. split; reflexivity.
Qed.

End Containment.

(** ** The stream of chunks *)

Section StreamingTheorems.

Import Examples.

Variables (rt_ : Runtime) (cfg_ : TTSConfig) (backend : StreamBackend)
          (call : StreamCall) (request : TTSRequest).

(** One step of [_stream_audio_chunks] on a Backend that does not fail:
    it yields the first chunk that is not empty, or stops when there is
    none. *)
Lemma stream_audio_chunks_next_spec (source : list Py.bytes) :
  match stream_audio_chunks_next source None with
  | (Yield chunk, source') =>
      nonempty_chunks source = chunk :: nonempty_chunks source' /\
      (length source' < length source)%nat
  | (Stop, _) => nonempty_chunks source = []
  | (Throw _, _) => False
  end.
Proof.
  induction source as [| chunk source IH]; [done |].
  cbn [stream_audio_chunks_next nonempty_chunks List.filter].
  destruct (truthy_bytes chunk) eqn:Htruthy.
  - split; [done | cbn; lia].
  - destruct (stream_audio_chunks_next source None) as [[c | | e] source'];
      [| done | done].
    destruct IH as [Heq Hlen]. split; [exact Heq | cbn; lia].
Qed.

Lemma join_nonempty_chunks (chunks : list Py.bytes) :
  Py.join (nonempty_chunks chunks) = Py.join chunks.
Proof.
  unfold Py.join, nonempty_chunks.
  induction chunks as [| chunk chunks IH]; [done |].
  cbn. destruct chunk as [| b chunk]; cbn; [exact IH | by rewrite IH].
Qed.

Lemma nonempty_chunks_all (chunks : list Py.bytes) :
  Forall (fun chunk => chunk <> []) chunks -> nonempty_chunks chunks = chunks.
Proof.
  intros Hall. unfold nonempty_chunks.
  induction Hall as [| chunk rest Hne _ IH]; [done |].
  destruct chunk; [by destruct Hne |].
  cbn [List.filter truthy_bytes]. f_equal. exact IH.
Qed.

Lemma call_chunk_callback_effects (chunk : Py.bytes) (w : World) :
  exists w',
    call_chunk_callback (s_chunk_callback call) chunk w = (Return tt, w') /\
    api_calls w' = api_calls w /\ files w' = files w /\
    trace w' = trace w ++ callback_events (s_chunk_callback call) chunk.
Proof.
  unfold call_chunk_callback, callback_events.
  destruct (s_chunk_callback call) as [cb |].
  - unfold bind, emit. destruct (cb chunk) as [e |].
    + eexists. split; [reflexivity |]. cbn. by rewrite <- app_assoc.
    + eexists. split; [reflexivity |]. done.
  - eexists. split; [reflexivity |]. cbn. by rewrite app_nil_r.
Qed.

Lemma callback_events_filter (chunk : Py.bytes) :
  List.filter is_callback_event (callback_events (s_chunk_callback call) chunk)
  = callback_events (s_chunk_callback call) chunk.
Proof.
  unfold callback_events. destruct (s_chunk_callback call) as [cb |]; [| done].
  cbn. destruct (cb chunk); done.
Qed.

(** At the end of the chunks the stream stops or raises; it yields nothing
    more. *)
Lemma stream_end (source source' audio_chunks : list Py.bytes) (w : World) :
  stream_audio_chunks_next source None = (Stop, source') ->
  exists w',
    stream_speech_running rt_ call request source None audio_chunks w
    = (Stop, Closed, w') \/
    exists e,
      stream_speech_running rt_ call request source None audio_chunks w
      = (Throw e, Closed, w').
Proof.
  intros Hstop. unfold stream_speech_running. rewrite Hstop.
  destruct (s_output_path call) as [p |]; [| eauto].
  destruct (Py.truthy_str p && bool_decide (audio_chunks <> [])); [| eauto].
  destruct (save_streaming_audio rt_ (Py.join audio_chunks) p (format request)
              w) as [[p' | e] w']; eauto.
Qed.

(** Whether or not the file can be written, the consumer of a stream whose
    Backend does not fail has seen the chunks that are not empty when the
    stream ends, and the stream ends. *)
Lemma consume_running_yielded (source : list Py.bytes) :
  forall steps audio_chunks w,
    (length source < steps)%nat ->
    yielded (consume rt_ cfg_ backend call steps
               (Running request source None audio_chunks) w).1
    = nonempty_chunks source /\
    ending (consume rt_ cfg_ backend call steps
              (Running request source None audio_chunks) w).1
    <> None.
Proof.
  induction source as [source IH] using (induction_ltof1 _ (@length _)).
  unfold ltof in IH.
  intros steps audio_chunks w Hsteps.
  destruct steps as [| steps]; [lia |].
  cbn [consume stream_speech_next].
  pose proof (stream_audio_chunks_next_spec source) as Hnext.
  destruct (stream_audio_chunks_next source None) as [[chunk | | e] source']
    eqn:Hstep; [| | done].
  - destruct Hnext as [Hne Hlen].
    unfold stream_speech_running. rewrite Hstep.
    destruct (call_chunk_callback_effects chunk w) as (w1 & Hcb & _).
    rewrite Hcb.
    destruct (IH source' Hlen steps (audio_chunks ++ [chunk]) w1)
      as [Hy He]; [lia |].
    destruct (consume rt_ cfg_ backend call steps
                (Running request source' None (audio_chunks ++ [chunk])) w1)
      as [c w'].
    cbn in *. rewrite Hne, Hy. done.
  - destruct (stream_end source source' audio_chunks w Hstep)
      as (w' & [Hend | [e Hend]]); rewrite Hend, Hnext; done.
Qed.

Hypothesis Hreliable : reliable rt_.

(** What the end of the stream writes. *)
Lemma stream_close (source source' audio_chunks : list Py.bytes) (w : World) :
  stream_audio_chunks_next source None = (Stop, source') ->
  exists w',
    stream_speech_running rt_ call request source None audio_chunks w
    = (Stop, Closed, w') /\
    List.filter is_callback_event (trace w')
    = List.filter is_callback_event (trace w) /\
    files w'
    = match stream_target rt_ call request with
      | Some p' =>
          if bool_decide (audio_chunks <> [])
          then <[p' := Py.join audio_chunks]> (files w)
          else files w
      | None => files w
      end.
Proof.
  intros Hstop. destruct Hreliable as (Hmk & Hwr & Hsuf).
  unfold stream_speech_running, stream_target. rewrite Hstop.
  destruct (s_output_path call) as [p |]; [| eauto].
  destruct (Py.truthy_str p); cbn [andb]; [| eauto].
  assert (Hext : exists p', ensure_suffix rt_ p (format request) = Return p').
  { unfold ensure_suffix. destruct (Py.truthy_str (path_suffix rt_ p)); eauto. }
  destruct Hext as [p' Hp']. rewrite Hp'.
  destruct (bool_decide (audio_chunks <> [])); [| eauto].
  unfold save_streaming_audio. rewrite Hp'.
  unfold bind, mkdir, emit, bind, write_file. rewrite Hmk. cbn. rewrite Hwr.
  eexists. split; [reflexivity |]. cbn.
  rewrite List.filter_app. cbn. by rewrite app_nil_r.
Qed.

(** The consumer of a stream whose Backend does not fail sees the chunks
    that are not empty, and the stream ends normally. *)
Lemma consume_running (source : list Py.bytes) :
  forall steps audio_chunks w,
    (length source < steps)%nat ->
    exists w',
      consume rt_ cfg_ backend call steps
              (Running request source None audio_chunks) w
      = ({| yielded := nonempty_chunks source; ending := Some None |}, w') /\
      List.filter is_callback_event (trace w')
      = List.filter is_callback_event (trace w)
        ++ flat_map (callback_events (s_chunk_callback call))
                    (nonempty_chunks source) /\
      files w'
      = match stream_target rt_ call request with
        | Some p' =>
            if bool_decide (audio_chunks ++ nonempty_chunks source <> [])
            then <[p' := Py.join (audio_chunks ++ nonempty_chunks source)]>
                   (files w)
            else files w
        | None => files w
        end.
Proof.
  induction source as [source IH] using (induction_ltof1 _ (@length _)).
  unfold ltof in IH.
  intros steps audio_chunks w Hsteps.
  destruct steps as [| steps]; [lia |].
  cbn [consume stream_speech_next].
  pose proof (stream_audio_chunks_next_spec source) as Hnext.
  destruct (stream_audio_chunks_next source None) as [[chunk | | e] source']
    eqn:Hstep; [| | done].
  - destruct Hnext as [Hne Hlen].
    unfold stream_speech_running. rewrite Hstep.
    destruct (call_chunk_callback_effects chunk w)
      as (w1 & Hcb & Hc1 & Hf1 & Ht1).
    rewrite Hcb.
    destruct (IH source' Hlen steps (audio_chunks ++ [chunk]) w1)
      as (w' & Hrun & Htrace & Hfiles); [lia |].
    rewrite Hrun. cbn [yielded ending].
    exists w'. rewrite Hne. split; [reflexivity |]. split.
    + rewrite Htrace, Ht1, List.filter_app, callback_events_filter.
      cbn [flat_map]. by rewrite <- app_assoc.
    + rewrite Hfiles, Hf1, <- app_assoc. reflexivity.
  - destruct (stream_close source source' audio_chunks w Hstep)
      as (w' & Hclose & Htrace & Hfiles).
    rewrite Hclose, Hnext. exists w'. split; [reflexivity |].
    cbn [flat_map]. rewrite !app_nil_r. done.
Qed.

End StreamingTheorems.

(** ** What a consumer of the stream sees *)

Section StreamConsumer.

Import Examples.

(** C9, counterexample.  The Backend sends three chunks, the second of
    which is empty; the stream yields two. *)
Lemma stream_drops_empty_chunk :
  (stream_with_empty_chunk hello).1 = [chunk_ab; []; chunk_cd] /\
  consume rt_ok TTSConfig_default stream_with_empty_chunk
          (stream_call None None) 4 Fresh World_initial
  = ({| yielded := [chunk_ab; chunk_cd]; ending := Some None |}, World_initial).
Proof. split; reflexivity. Qed.

(** C9, as amended.  For a valid request whose Backend sends a finite
    sequence of chunks without failing, a consumer that takes more steps than
    there are chunks sees the stream end after it has yielded exactly the
    chunks that are not empty, in their order; their concatenation is the
    concatenation of all the chunks, and they are all the chunks when no
    chunk of the Backend is empty.  On a reliable file system the stream ends
    normally; when an output path is given and at least one chunk was
    yielded, the file holds the concatenation of the yielded chunks, and
    otherwise no file is written; the callback is called once for each
    yielded chunk, and each exception it raises is logged as a warning and
    changes nothing else. *)
Theorem stream_speech_yields (rt_ : Runtime) (cfg_ : TTSConfig)
    (backend : StreamBackend) (call : StreamCall) (request : TTSRequest)
    (chunks : list Py.bytes) (steps : nat)
    (Hvalid : build_request cfg_ (s_text call) (s_voice call) (s_model call)
                (s_format call) (s_speed call) = Return request)
    (Hbackend : backend request = (chunks, None))
    (Hsteps : (length chunks < steps)%nat) :
  yielded (consume rt_ cfg_ backend call steps Fresh World_initial).1
  = nonempty_chunks chunks /\
  ending (consume rt_ cfg_ backend call steps Fresh World_initial).1 <> None /\
  Py.join (nonempty_chunks chunks) = Py.join chunks /\
  (Forall (fun chunk => chunk <> []) chunks ->
   nonempty_chunks chunks = chunks) /\
  (reliable rt_ ->
   exists w',
     consume rt_ cfg_ backend call steps Fresh World_initial
     = ({| yielded := nonempty_chunks chunks; ending := Some None |}, w') /\
     files w'
     = match stream_target rt_ call request with
       | Some p' =>
           if bool_decide (nonempty_chunks chunks <> [])
           then <[p' := Py.join (nonempty_chunks chunks)]> ∅
           else ∅
       | None => ∅
       end /\
     List.filter is_callback_event (trace w')
     = flat_map (callback_events (s_chunk_callback call))
                (nonempty_chunks chunks)).
Proof.
  assert (Hfresh : consume rt_ cfg_ backend call steps Fresh World_initial
                   = consume rt_ cfg_ backend call steps
                       (Running request chunks None []) World_initial).
  { destruct steps as [| steps]; [lia |].
    cbn [consume stream_speech_next]. rewrite Hvalid, Hbackend. reflexivity. }
  rewrite Hfresh.
  destruct (consume_running_yielded rt_ cfg_ backend call request chunks steps
              [] World_initial Hsteps) as [Hy He].
  split; [exact Hy |]. split; [exact He |].
  split; [apply join_nonempty_chunks |].
  split; [apply nonempty_chunks_all |].
  intros Hreliable.
  destruct (consume_running rt_ cfg_ backend call request Hreliable chunks
              steps [] World_initial Hsteps)
    as (w' & Hrun & Htrace & Hfiles).
  exists w'. split; [exact Hrun |]. split; [exact Hfiles | exact Htrace].
Qed.

(** Three chunks, one of them empty, an output path without extension and
    a callback that raises on every chunk. *)
Lemma stream_speech_yields_witness :
  exists w',
    consume rt_ok TTSConfig_default stream_with_empty_chunk
            (stream_call (Some "out/speech") (Some callback_raising)) 4
            Fresh World_initial
    = ({| yielded := [chunk_ab; chunk_cd]; ending := Some None |}, w') /\
    files w' = <["out/speech.mp3" := (chunk_ab ++ chunk_cd)]> ∅ /\
    List.filter is_callback_event (trace w')
    = [EvCallback chunk_ab;
       EvLogWarning "Chunk callback error: callback failed";
       EvCallback chunk_cd;
       EvLogWarning "Chunk callback error: callback failed"].
Proof.
  destruct (stream_speech_yields rt_ok TTSConfig_default
              stream_with_empty_chunk
              (stream_call (Some "out/speech") (Some callback_raising))
              hello [chunk_ab; []; chunk_cd] 4)
    as (_ & _ & _ & _ & Hreliable).
  - reflexivity.
  - reflexivity.
  - cbn. lia.
  - destruct (Hreliable rt_ok_reliable) as (w' & Hrun & Hfiles & Htrace).
    exists w'. split; [exact Hrun |]. split; [exact Hfiles | exact Htrace].
Defined.

(** On a file system that cannot be written the same stream yields the same
    chunks and raises at its end. *)
Example stream_on_read_only_file_system :
  consume rt_read_only TTSConfig_default stream_with_empty_chunk
          (stream_call (Some "out/speech") None) 4 Fresh World_initial
  = ({| yielded := [chunk_ab; chunk_cd];
        ending :=
          Some (Some (TTSAgentError
            "Streaming speech failed: Failed to save streaming audio: Read-only file system"
            None)) |},
     {| api_calls := 0; trace := [EvMkdir "out"]; files := ∅ |}).
Proof. reflexivity. Qed.

End StreamConsumer.

(** ** Validation as a fixed point *)

Section Trimming.

Lemma string_app_cons (c : ascii) (s t : string) :
  String c s +:+ t = String c (s +:+ t).
Proof. reflexivity. Qed.

Lemma string_app_nil_l (s : string) : "" +:+ s = s.
Proof. reflexivity. Qed.

Lemma string_app_nil_r (s : string) : s +:+ "" = s.
Proof.
  induction s as [| c s IH]; [done |]. by rewrite string_app_cons, IH.
Qed.

Lemma string_app_assoc (s t u : string) : (s +:+ t) +:+ u = s +:+ (t +:+ u).
Proof.
  induction s as [| c s IH]; [done |]. by rewrite !string_app_cons, IH.
Qed.

Lemma rev_append_app (s : string) : forall acc,
  Py.rev_append s acc = Py.rev s +:+ acc.
Proof.
  unfold Py.rev. induction s as [| c s IH]; intros acc; [done |].
  cbn [Py.rev_append]. rewrite IH, (IH (String c "")), string_app_assoc.
  reflexivity.
Qed.

Lemma rev_cons (c : ascii) (s : string) :
  Py.rev (String c s) = Py.rev s +:+ String c "".
Proof. unfold Py.rev at 1. cbn [Py.rev_append]. apply rev_append_app. Qed.

Lemma rev_app (s t : string) : Py.rev (s +:+ t) = Py.rev t +:+ Py.rev s.
Proof.
  induction s as [| c s IH].
  - by rewrite string_app_nil_l, string_app_nil_r.
  - by rewrite string_app_cons, !rev_cons, IH, string_app_assoc.
Qed.

Lemma rev_involutive (s : string) : Py.rev (Py.rev s) = s.
Proof.
  induction s as [| c s IH]; [done |].
  rewrite rev_cons, rev_app, IH. reflexivity.
Qed.

Lemma lstrip_idempotent (s : string) : Py.lstrip (Py.lstrip s) = Py.lstrip s.
Proof.
  induction s as [| c s IH]; [done |].
  cbn [Py.lstrip]. destruct (Py.isspace c) eqn:Hc; [done |].
  cbn [Py.lstrip]. by rewrite Hc.
Qed.

(** What is left of a text after its leading whitespace: nothing, or a
    text that starts with a character that is no whitespace. *)
Lemma lstrip_head (s : string) :
  Py.lstrip s = "" \/
  exists c s', Py.lstrip s = String c s' /\ Py.isspace c = false.
Proof.
  induction s as [| c s IH]; [by left |].
  cbn [Py.lstrip]. destruct (Py.isspace c) eqn:Hc; [done |].
  right. by exists c, s.
Qed.

Lemma lstrip_app_nonspace (c : ascii) (s : string) :
  Py.isspace c = false ->
  Py.lstrip (s +:+ String c "") = Py.lstrip s +:+ String c "".
Proof.
  intros Hc. induction s as [| d s IH].
  - rewrite string_app_nil_l. cbn [Py.lstrip]. by rewrite Hc.
  - rewrite string_app_cons. cbn [Py.lstrip]. destruct (Py.isspace d); done.
Qed.

Lemma rstrip_cons (c : ascii) (s : string) :
  Py.isspace c = false -> Py.rstrip (String c s) = String c (Py.rstrip s).
Proof.
  intros Hc. unfold Py.rstrip.
  by rewrite rev_cons, lstrip_app_nonspace, rev_app.
Qed.

Lemma rstrip_idempotent (s : string) : Py.rstrip (Py.rstrip s) = Py.rstrip s.
Proof. unfold Py.rstrip. by rewrite rev_involutive, lstrip_idempotent. Qed.

(** Trimming a trimmed text changes nothing. *)
Lemma strip_idempotent (s : string) : Py.strip (Py.strip s) = Py.strip s.
Proof.
  unfold Py.strip.
  destruct (lstrip_head s) as [-> | (c & s' & -> & Hc)]; [done |].
  rewrite rstrip_cons by done. cbn [Py.lstrip]. rewrite Hc.
  by rewrite rstrip_cons, rstrip_idempotent.
Qed.

Lemma is_member_truthy (values : list string) (v : string) :
  is_member values v = true -> ~ In "" values -> Py.truthy_str v = true.
Proof.
  unfold is_member. rewrite existsb_exists. intros (s & Hin & Heq) Hno.
  apply String.eqb_eq in Heq. subst s. destruct v; [done | reflexivity].
Qed.

Lemma speed_truthy (s : float) :
  PrimFloat.leb 0.25 s = true -> PrimFloat.eqb s 0 = false.
Proof.
  intros Hle. destruct (PrimFloat.eqb s 0) eqn:Heq; [| done].
  rewrite FloatAxioms.eqb_spec in Heq. rewrite FloatAxioms.leb_spec in Hle.
  revert Heq Hle. change (Prim2SF 0) with (SpecFloat.S754_zero false).
  change (Prim2SF 0.25) with (SpecFloat.S754_finite false 4503599627370496 (-54)).
  destruct (Prim2SF s) as [[] | [] | | [] mant e]; cbn; try discriminate.
Qed.

End Trimming.

Section ValidationFixedPoint.

Lemma check_text_strip (t : string) :
  (String.length t <= 4096)%nat -> Py.strip t <> "" ->
  check_text (Py.strip t) = inr (Py.strip t).
Proof.
  intros Hlen Hne. apply check_text_inr. rewrite strip_idempotent.
  pose proof (strip_length t). repeat split; [lia | done].
Qed.

Lemma or_str_member (values : list string) (v d : string) :
  is_member values v = true -> ~ In "" values ->
  Py.or_str (Some v) d = v.
Proof.
  intros Hin Hno. unfold Py.or_str.
  by rewrite (is_member_truthy values v Hin Hno).
Qed.

Lemma or_float_speed (s d : float) :
  PrimFloat.leb 0.25 s = true -> Py.or_float (Some s) d = s.
Proof. intros Hle. unfold Py.or_float. by rewrite speed_truthy. Qed.

(** The fields of an accepted request are accepted as they are. *)
Lemma TTSRequest_new_again (t v m f : string) (s : float) (r : TTSRequest) :
  TTSRequest_new t v m f s = Return r ->
  TTSRequest_new (text r) (voice r) (model r) (format r) (speed r) = Return r.
Proof.
  rewrite !TTSRequest_new_Return, !check_text_inr, !check_enum_inr,
    !check_speed_inr.
  intros ((Hlen & Hne & Ht) & (Hv & Hv') & (Hm & Hm') & (Hf & Hf')
          & (Hlo & Hhi & Hs)).
  destruct r as [rt_ rv rm rf rs].
  cbn [text voice model format speed] in *. subst.
  rewrite strip_idempotent.
  pose proof (strip_length t). repeat split; try done. lia.
Qed.

(** The request that [generate_speech] builds from the fields of an
    accepted request is that request, whatever the defaults of the
    configuration are. *)
Lemma item_request_accepted (cfg_ : TTSConfig) (t v m f : string)
    (s : float) (r : TTSRequest) :
  TTSRequest_new t v m f s = Return r -> item_request cfg_ r = Return r.
Proof.
  intros Hnew. pose proof (TTSRequest_new_again _ _ _ _ _ _ Hnew) as Hagain.
  apply TTSRequest_new_Return in Hnew
    as (_ & Hv & Hm & Hf & Hs).
  apply check_enum_inr in Hv as (Hv & <-), Hm as (Hm & <-), Hf as (Hf & <-).
  apply check_speed_inr in Hs as (Hlo & _ & <-).
  unfold item_request, build_request.
  rewrite (or_str_member Voice_values), (or_str_member TTSModel_values),
    (or_str_member AudioFormat_values), or_float_speed; try done.
  all: vm_compute; intuition discriminate.
Qed.

End ValidationFixedPoint.

(** X1.  Validation is a fixed point on what it accepts: when the
    constructor of [TTSRequest] accepts its arguments and returns a
    request, validating the fields of that request again returns the same
    request, and so does the request that [generate_speech] builds from the
    fields of a batch item, whatever the defaults of the configuration. *)
Theorem TTSRequest_new_fixed_point (cfg_ : TTSConfig) (t v m f : string)
    (s : float) (r : TTSRequest)
    (Hvalid : TTSRequest_new t v m f s = Return r) :
  TTSRequest_new (text r) (voice r) (model r) (format r) (speed r) = Return r /\
  item_request cfg_ r = Return r.
Proof.
  split; [by eapply TTSRequest_new_again | by eapply item_request_accepted].
Qed.

(** A padded greeting: the request that holds the trimmed text is accepted
    again, unchanged. *)
Lemma TTSRequest_new_fixed_point_witness :
  TTSRequest_new "Hello, world!" "alloy" "tts-1" "mp3" 1
  = Return Examples.hello /\
  item_request TTSConfig_default Examples.hello = Return Examples.hello.
Proof.
  apply (TTSRequest_new_fixed_point TTSConfig_default "  Hello, world!  "
           "alloy" "tts-1" "mp3" 1 Examples.hello).
  reflexivity.
Defined.

(** ** The configuration *)

Section ConfigValidation.

Import ConfigModel.

Lemma startswith_spec (p s : string) :
  Py.startswith s p = true <-> exists rest, s = p +:+ rest.
Proof.
  unfold Py.startswith. revert s.
  induction p as [| a p IH]; intros s.
  - destruct s; cbn; split; eauto.
  - destruct s as [| b s]; cbn [String.prefix].
    + split; [discriminate | intros [rest [=]]].
    + destruct (ascii_dec a b) as [<- | Hne].
      * rewrite IH. split; intros [rest Hrest]; exists rest.
        -- by rewrite Hrest.
        -- by injection Hrest.
      * split; [discriminate |]. intros [rest [= Hab _]]. congruence.
Qed.

Lemma validate_api_key_inr (k k' : option string) :
  validate_api_key k = inr k' <->
  (forall key, k = Some key -> exists rest, key = "sk-" +:+ rest) /\ k' = k.
Proof.
  unfold validate_api_key. destruct k as [key |].
  - destruct (Py.startswith key "sk-") eqn:Hs; cbn [negb].
    + apply startswith_spec in Hs. split.
      * intros [= <-]. split; [| done]. by intros ? [= <-].
      * by intros [_ ->].
    + split; [discriminate |]. intros [Hk _].
      apply (proj2 (startswith_spec "sk-" key)) in Hk; [congruence | done].
  - split; [intros [= <-] | intros [_ ->]]; done.
Qed.

Lemma validate_base_url_inr (u u' : option string) :
  validate_base_url u = inr u' <->
  (forall url, u = Some url ->
     exists rest, url = "http://" +:+ rest \/ url = "https://" +:+ rest)
  /\ u' = u.
Proof.
  unfold validate_base_url. destruct u as [url |].
  - destruct (Py.startswith url "http://") eqn:H1;
      [| destruct (Py.startswith url "https://") eqn:H2]; cbn [negb orb].
    + apply startswith_spec in H1 as [rest Hrest]. split.
      * intros [= <-]. split; [| done]. intros ? [= <-]. eauto.
      * by intros [_ ->].
    + apply startswith_spec in H2 as [rest Hrest]. split.
      * intros [= <-]. split; [| done]. intros ? [= <-]. eauto.
      * by intros [_ ->].
    + split; [discriminate |]. intros [Hu _].
      destruct (Hu url eq_refl) as [rest [Hr | Hr]].
      * assert (Py.startswith url "http://" = true)
          by (apply startswith_spec; eauto). congruence.
      * assert (Py.startswith url "https://" = true)
          by (apply startswith_spec; eauto). congruence.
  - split; [intros [= <-] | intros [_ ->]]; done.
Qed.

Lemma check_int_inr (field : string) (lo hi v v' : Z) :
  check_int field lo hi v = inr v' <-> lo <= v <= hi /\ v' = v.
Proof.
  unfold check_int.
  destruct (Z.leb_spec lo v), (Z.leb_spec v hi); cbn [negb]; split;
    try discriminate; try (intros [? _]; lia).
  - intros [= <-]. done.
  - by intros [_ ->].
Qed.

Lemma check_float_inr (field lo_repr hi_repr : string) (lo hi v v' : float) :
  check_float field lo_repr hi_repr lo hi v = inr v' <->
  PrimFloat.leb lo v = true /\ PrimFloat.leb v hi = true /\ v' = v.
Proof.
  unfold check_float.
  destruct (PrimFloat.leb lo v), (PrimFloat.leb v hi); cbn [negb]; split;
    try discriminate; try (intros (? & ? & ?); discriminate).
  - intros [= <-]. done.
  - by intros (_ & _ & ->).
Qed.

Lemma TTSConfig_new_Return k u t r d v m f s c :
  TTSConfig_new k u t r d v m f s = Return c <->
  validate_api_key k = inr (api_key c) /\
  validate_base_url u = inr (base_url c) /\
  check_int "timeout" 5 300 t = inr (timeout c) /\
  check_int "max_retries" 0 10 r = inr (max_retries c) /\
  check_float "rate_limit_delay" "0.1" "10.0" one_tenth 10 d
  = inr (rate_limit_delay c) /\
  check_enum "default_voice" Voice_values v = inr (default_voice c) /\
  check_enum "default_model" TTSModel_values m = inr (default_model c) /\
  check_enum "default_format" AudioFormat_values f = inr (default_format c) /\
  check_float "default_speed" "0.25" "4.0" 0.25 4 s = inr (default_speed c).
Proof.
  unfold TTSConfig_new.
  destruct (validate_api_key k) as [e1 | x1];
    [split; [discriminate | by intros ([=] & _)] |].
  destruct (validate_base_url u) as [e2 | x2];
    [split; [discriminate | by intros (_ & [=] & _)] |].
  destruct (check_int "timeout" 5 300 t) as [e3 | x3];
    [split; [discriminate | by intros (_ & _ & [=] & _)] |].
  destruct (check_int "max_retries" 0 10 r) as [e4 | x4];
    [split; [discriminate | by intros (_ & _ & _ & [=] & _)] |].
  destruct (check_float "rate_limit_delay" "0.1" "10.0" one_tenth 10 d)
    as [e5 | x5];
    [split; [discriminate | by intros (_ & _ & _ & _ & [=] & _)] |].
  destruct (check_enum "default_voice" Voice_values v) as [e6 | x6];
    [split; [discriminate | by intros (_ & _ & _ & _ & _ & [=] & _)] |].
  destruct (check_enum "default_model" TTSModel_values m) as [e7 | x7];
    [split; [discriminate | by intros (_ & _ & _ & _ & _ & _ & [=] & _)] |].
  destruct (check_enum "default_format" AudioFormat_values f) as [e8 | x8];
    [split; [discriminate | by intros (_ & _ & _ & _ & _ & _ & _ & [=] & _)] |].
  destruct (check_float "default_speed" "0.25" "4.0" 0.25 4 s) as [e9 | x9];
    [split; [discriminate | by intros (_ & _ & _ & _ & _ & _ & _ & _ & [=])] |].
  split.
  - intros [= <-]. cbn. repeat split.
  - destruct c; cbn. intros (? & ? & ? & ? & ? & ? & ? & ? & ?). congruence.
Qed.

Lemma TTSConfig_new_Raise k u t r d v m f s e :
  TTSConfig_new k u t r d v m f s = Raise e ->
  exists errs, errs <> [] /\ e = PydanticValidationError "TTSConfig" errs.
Proof.
  unfold TTSConfig_new.
  destruct (validate_api_key k) as [e1 | x1];
    [intros [= <-]; eexists; split; [| reflexivity]; discriminate |].
  destruct (validate_base_url u) as [e2 | x2];
    [intros [= <-]; eexists; split; [| reflexivity]; discriminate |].
  destruct (check_int "timeout" 5 300 t) as [e3 | x3];
    [intros [= <-]; eexists; split; [| reflexivity]; discriminate |].
  destruct (check_int "max_retries" 0 10 r) as [e4 | x4];
    [intros [= <-]; eexists; split; [| reflexivity]; discriminate |].
  destruct (check_float "rate_limit_delay" "0.1" "10.0" one_tenth 10 d)
    as [e5 | x5];
    [intros [= <-]; eexists; split; [| reflexivity]; discriminate |].
  destruct (check_enum "default_voice" Voice_values v) as [e6 | x6];
    [intros [= <-]; eexists; split; [| reflexivity]; discriminate |].
  destruct (check_enum "default_model" TTSModel_values m) as [e7 | x7];
    [intros [= <-]; eexists; split; [| reflexivity]; discriminate |].
  destruct (check_enum "default_format" AudioFormat_values f) as [e8 | x8];
    [intros [= <-]; eexists; split; [| reflexivity]; discriminate |].
  destruct (check_float "default_speed" "0.25" "4.0" 0.25 4 s) as [e9 | x9];
    [intros [= <-]; eexists; split; [| reflexivity]; discriminate |].
  discriminate.
Qed.

End ConfigValidation.

(** X2.  The constructor of [TTSConfig] accepts its arguments if and only
    if the API key, when there is one, starts with [sk-], the base URL,
    when there is one, starts with [http://] or [https://], the timeout
    lies in 5..300, max_retries in 0..10, rate_limit_delay in [0.1, 10.0],
    the default speed in [0.25, 4.0], and the default voice, model and
    format are members of their enumerations; the configuration it returns
    holds the arguments as given.  Every rejection is a validation error of
    pydantic with at least one error line. *)
Theorem TTSConfig_new_accepts_iff (k u : option string) (t r : Z)
    (d : float) (v m f : string) (s : float) :
  (forall c,
     ConfigModel.TTSConfig_new k u t r d v m f s = Return c <->
     ((forall key, k = Some key -> exists rest, key = "sk-" +:+ rest) /\
      (forall url, u = Some url ->
         exists rest, url = "http://" +:+ rest \/ url = "https://" +:+ rest) /\
      5 <= t <= 300 /\ 0 <= r <= 10 /\
      PrimFloat.leb ConfigModel.one_tenth d = true /\
      PrimFloat.leb d 10 = true /\
      (exists x, v = Voice_value x) /\
      (exists x, m = TTSModel_value x) /\
      (exists x, f = AudioFormat_value x) /\
      PrimFloat.leb 0.25 s = true /\ PrimFloat.leb s 4 = true) /\
     c = {| ConfigModel.api_key := k; ConfigModel.base_url := u;
            ConfigModel.timeout := t; ConfigModel.max_retries := r;
            ConfigModel.rate_limit_delay := d;
            ConfigModel.default_voice := v; ConfigModel.default_model := m;
            ConfigModel.default_format := f;
            ConfigModel.default_speed := s |}) /\
  (forall e,
     ConfigModel.TTSConfig_new k u t r d v m f s = Raise e ->
     exists errs, errs <> [] /\ e = PydanticValidationError "TTSConfig" errs).
Proof.
  split; [| apply TTSConfig_new_Raise].
  intros c. rewrite TTSConfig_new_Return, validate_api_key_inr,
    validate_base_url_inr, !check_int_inr, !check_float_inr, !check_enum_inr,
    is_member_Voice, is_member_TTSModel, is_member_AudioFormat.
  destruct c as [ck cu ct cr cd cv cm cf cs]; cbn. split.
  - intros ((? & ->) & (? & ->) & (? & ->) & (? & ->) & (? & ? & ->)
            & (? & ->) & (? & ->) & (? & ->) & (? & ? & ->)).
    repeat split; try done; lia.
  - intros ((? & ? & ? & ? & ? & ? & ? & ? & ? & ? & ?)
            & [= -> -> -> -> -> -> -> -> ->]).
    repeat split; try done; lia.
Qed.

(** ** A batch given as a BatchTTSRequest *)

Section BatchRequestLemmas.

Import BatchRequest.

Lemma check_requests_inr (v v' : list TTSRequest) :
  check_requests v = inr v' <-> (1 <= length v <= 100)%nat /\ v' = v.
Proof.
  unfold check_requests.
  destruct (Nat.ltb_spec (length v) 1) as [Hlt | Hge].
  - split; [discriminate | intros [? _]; lia].
  - destruct (Nat.ltb_spec 100 (length v)) as [Hbig | Hok].
    + split; [discriminate | intros [? _]; lia].
    + destruct v as [| request v]; [cbn in Hge; lia |]. split.
      * intros [= <-]. split; [cbn in *; lia | done].
      * by intros [_ ->].
Qed.

Lemma path_str_truthy (s : string) : Py.truthy_str (Py.path_str s) = true.
Proof. by destruct s. Qed.

(** What an accepted [BatchTTSRequest] holds, and what its constructor
    did. *)
Lemma BatchTTSRequest_new_Return rt_ requests_ out limit retry w br w' :
  BatchTTSRequest_new rt_ requests_ out limit retry w = (Return br, w') ->
  (1 <= length requests_ <= 100)%nat /\ 1 <= limit <= 20 /\
  0 <= retry <= 10 /\
  br = {| requests := requests_; output_directory := Py.path_str <$> out;
          concurrent_limit := limit; retry_attempts := retry |} /\
  trace w' = trace w ++ match out with
                        | Some d => [EvMkdir (Py.path_str d)]
                        | None => []
                        end.
Proof.
  unfold BatchTTSRequest_new, bind.
  assert (Hdir : exists res w1,
            match Py.path_str <$> out with
            | Some d => mkdir rt_ d
            | None => ret ()
            end w = (res, w1) /\
            trace w1 = trace w ++ match out with
                                  | Some d => [EvMkdir (Py.path_str d)]
                                  | None => []
                                  end).
  { destruct out as [d |]; cbn.
    - unfold mkdir, bind, emit. destruct (mkdir_error rt_ (Py.path_str d));
        eexists _, _; (split; [reflexivity | done]).
    - eexists _, _. split; [reflexivity |]. by rewrite app_nil_r. }
  destruct Hdir as (res & w1 & -> & Htrace).
  destruct res as [[] | e]; [| discriminate].
  destruct (check_requests requests_) as [e1 | rs] eqn:H1; [discriminate |].
  destruct (ConfigModel.check_int "concurrent_limit" 1 20 limit)
    as [e2 | l] eqn:H2; [discriminate |].
  destruct (ConfigModel.check_int "retry_attempts" 0 10 retry)
    as [e3 | r] eqn:H3; [discriminate |].
  apply check_requests_inr in H1 as (? & ->).
  apply check_int_inr in H2 as (? & ->), H3 as (? & ->).
  unfold ret. intros [= <- <-]. done.
Qed.

End BatchRequestLemmas.

(** X3.  A [BatchTTSRequest] that its constructor accepted holds 1 to 100
    requests, a concurrency limit in 1..20 and 0 to 10 retries, so
    [process_batch_from_config] never rejects it as empty or too large:
    whenever the output directory can be created, the batch is dispatched
    with the directory of the request, and when its tasks have finished the
    i-th result is what the loop keeps for the task of the i-th request,
    run with the retries of the request. *)
Theorem process_batch_from_config_dispatches (env : BatchEnv)
    (rt_ : Runtime) (requests_ : list TTSRequest) (out : option string)
    (limit retry : Z) (w w' : World)
    (batch_request : BatchRequest.BatchTTSRequest) (completion : list nat)
    (Hnew : BatchRequest.BatchTTSRequest_new rt_ requests_ out limit retry w
            = (Return batch_request, w'))
    (Hdone : completion ≡ₚ seq 0 (length requests_)) :
  ((1 <= length requests_ <= 100)%nat /\ 1 <= limit <= 20 /\
   0 <= retry <= 10) /\
  check_batch (BatchRequest.requests batch_request) = Return tt /\
  (forall od w1,
     prepare_output_directory (rt env)
       (BatchRequest.output_directory batch_request) World_initial
     = (Return od, w1) ->
     od = Py.path_str <$> out /\
     exists response,
       batch_result (process_batch_from_config env batch_request completion)
       = Some (Return response) /\
       length (results response) = length requests_ /\
       forall i request,
         requests_ !! i = Some request ->
         results response !! i
         = Some (item_outcome i
                   (run_task (rt env) (cfg env) (items env i) request od
                             (Z.to_nat retry)).1)).
Proof.
  apply BatchTTSRequest_new_Return in Hnew as (Hn & Hl & Hr & -> & _).
  cbn [BatchRequest.requests BatchRequest.output_directory].
  split; [done |]. split; [by apply check_batch_Return |].
  intros od w1 Hprep. split.
  - destruct out as [d |]; cbn in Hprep |- *.
    + rewrite path_str_truthy in Hprep. unfold bind, mkdir, bind, emit in Hprep.
      destruct (mkdir_error (rt env) (Py.path_str d)); [discriminate |].
      by injection Hprep as <- _.
    + by injection Hprep as <- _.
  - unfold process_batch_from_config.
    cbn [BatchRequest.requests BatchRequest.output_directory
         BatchRequest.retry_attempts].
    eexists. split; [by eapply process_batch_dispatched |]. cbn. split.
    + rewrite length_imap, length_fmap. unfold dispatch.
      by rewrite length_imap.
    + intros i request Hi.
      rewrite list_lookup_imap, dispatch_results, list_lookup_imap, Hi. done.
Qed.

(** One request, three retries and no output directory. *)
Lemma process_batch_from_config_dispatches_witness :
  check_batch [Examples.hello] = Return tt.
Proof.
  refine (proj1 (proj2 (process_batch_from_config_dispatches Examples.env_ok
            Examples.rt_ok [Examples.hello] None 5 3 World_initial
            World_initial
            {| BatchRequest.requests := [Examples.hello];
               BatchRequest.output_directory := None;
               BatchRequest.concurrent_limit := 5;
               BatchRequest.retry_attempts := 3 |} [0%nat] _ _)));
    reflexivity.
Defined.

(** ** What a call of the agent returns, raises and writes *)

Section AgentInversion.

Variables (rt_ : Runtime) (cfg_ : TTSConfig) (backend : Backend).

(** [str] of a [TTSAPIError] without status code and type. *)
Lemma str_TTSAPIError_plain (message : string) :
  str (TTSAPIError message None None) = "[API_ERROR] " +:+ message.
Proof.
  change (str (TTSAPIError message None None))
    with ("[API_ERROR] " +:+ (message +:+ "")).
  by rewrite string_app_nil_r.
Qed.

(** When the loop of [_call_openai_api] raises, every call it made
    failed, it made one call in each iteration, and it raises a
    [TTSAPIError] with the message of the last failure. *)
Lemma api_retry_loop_Raise_inv (request' : TTSRequest) (iterations : nat) :
  forall attempt w e w',
    (attempt + iterations = max_retries cfg_ + 1)%nat ->
    api_retry_loop cfg_ backend request' iterations attempt w = (Raise e, w') ->
    (forall n, (api_calls w <= n < api_calls w + iterations)%nat ->
               exists e', backend n request' = ApiFail e') /\
    (exists last,
       backend (api_calls w + iterations - 1)%nat request' = ApiFail last /\
       e = TTSAPIError
             ("API call failed after "
              +:+ Py.str_of_nat (max_retries cfg_ + 1)
              +:+ " attempts: " +:+ str last) None None) /\
    api_calls w' = (api_calls w + iterations)%nat /\
    files w' = files w.
Proof.
  induction iterations as [| iterations IH]; intros attempt w e w' Hsum;
    [discriminate |].
  cbn [api_retry_loop]. unfold bind at 1. unfold call_backend.
  destruct (backend (api_calls w) request') as [chunks | e0] eqn:Hanswer;
    [discriminate |].
  destruct (Nat.ltb_spec attempt (max_retries cfg_)) as [Hlt | Hge].
  - unfold bind at 1. unfold emit at 1. intros Hloop.
    apply IH in Hloop as (Hfail & (last & Hlast & ->) & Hcalls & Hfiles);
      [| lia].
    cbn [api_calls files after] in *. split; [| split; [| split]].
    + intros n Hn. destruct (decide (n = api_calls w)) as [-> | Hne];
        [eauto |]. apply Hfail. lia.
    + exists last. split; [| done].
      replace (api_calls w + S iterations - 1)%nat
        with (S (api_calls w) + iterations - 1)%nat by lia.
      exact Hlast.
    + lia.
    + done.
  - unfold raise. intros [= <- <-]. assert (iterations = 0)%nat as -> by lia.
    cbn [api_calls files]. split; [| split; [| split]].
    + intros n Hn. assert (n = api_calls w) as -> by lia. eauto.
    + exists e0. split; [| done].
      replace (api_calls w + 1 - 1)%nat with (api_calls w) by lia. done.
    + lia.
    + done.
Qed.

(** When the loop returns, it returns the answer of the first call that
    did not fail. *)
Lemma api_retry_loop_Return_inv (request' : TTSRequest) (iterations : nat) :
  forall attempt w audio w',
    (attempt + iterations = max_retries cfg_ + 1)%nat ->
    (1 <= iterations)%nat ->
    api_retry_loop cfg_ backend request' iterations attempt w
    = (Return audio, w') ->
    exists K chunks,
      (api_calls w <= K < api_calls w + iterations)%nat /\
      (forall n, (api_calls w <= n < K)%nat ->
                 exists e', backend n request' = ApiFail e') /\
      backend K request' = ApiOk chunks /\
      audio = Some (Py.join chunks) /\
      api_calls w' = S K /\
      files w' = files w.
Proof.
  induction iterations as [| iterations IH];
    intros attempt w audio w' Hsum Hpos; [lia |].
  cbn [api_retry_loop]. unfold bind at 1. unfold call_backend.
  destruct (backend (api_calls w) request') as [chunks | e0] eqn:Hanswer.
  - unfold ret. intros [= <- <-]. exists (api_calls w), chunks.
    cbn [api_calls files]. repeat split; try done; try lia.
  - destruct (Nat.ltb_spec attempt (max_retries cfg_)) as [Hlt | Hge];
      [| unfold raise; intros [=]].
    unfold bind at 1. unfold emit at 1. intros Hloop.
    apply IH in Hloop
      as (K & chunks & HK & Hfail & Hok & -> & Hcalls & Hfiles); [| lia ..].
    cbn [api_calls files after] in *. exists K, chunks.
    repeat split; try done; try lia.
    intros n Hn. destruct (decide (n = api_calls w)) as [-> | Hne];
      [eauto |]. apply Hfail. lia.
Qed.

(** A file that [_save_audio_file] saved holds the audio, at the path
    with its extension. *)
Lemma save_audio_file_Return_inv (audio : Py.bytes) (p f saved : string)
    (w w' : World) :
  save_audio_file rt_ (Some audio) p f w = (Return saved, w') ->
  ensure_suffix rt_ p f = Return saved /\
  files w' = <[saved := audio]> (files w) /\
  api_calls w' = api_calls w.
Proof.
  unfold save_audio_file. destruct (ensure_suffix rt_ p f) as [p' | e];
    [| discriminate].
  unfold bind, mkdir, bind, emit, write_file.
  destruct (mkdir_error rt_ (path_parent rt_ p')); [discriminate |].
  cbn. destruct (write_error rt_ p'); [discriminate |].
  intros [= <- <-]. done.
Qed.

(** Whatever [_save_audio_file] raises is a [TTSFileError]. *)
Lemma save_audio_file_Raise_inv (audio : option Py.bytes) (p f : string)
    (w w' : World) (e : exn) :
  save_audio_file rt_ audio p f w = (Raise e, w') ->
  exists message path, e = TTSFileError message path.
Proof.
  unfold save_audio_file. destruct (ensure_suffix rt_ p f) as [p' | e0].
  - destruct ((mkdir rt_ (path_parent rt_ p');; write_file rt_ p' audio) w)
      as [[[] | e1] w1]; [discriminate |].
    intros [= <- <-]. eauto.
  - intros [= <- <-]. eauto.
Qed.

(** The two ways in which [generate_speech] returns: a failed response
    that carries the message of an exception, or a successful response
    built from the answer of the Backend. *)
Lemma generate_speech_Return_inv t v mo f s out w response w' :
  generate_speech rt_ cfg_ backend t v mo f s out w = (Return response, w') ->
  (exists e, response = TTSResponse_failure ("Unexpected error: " +:+ str e)) \/
  (exists request' audio w1,
     build_request cfg_ t v mo f s = Return request' /\
     call_openai_api cfg_ backend request' w = (Return (Some audio), w1) /\
     success response = true /\
     error response = None /\
     audio_data response = Some audio /\
     file_size response = match audio with
                          | [] => None
                          | _ => Some (len_bytes audio)
                          end /\
     metadata response = response_metadata request' t /\
     match out with
     | Some p =>
         if Py.truthy_str p
         then exists saved,
                save_audio_file rt_ (Some audio) p (format request') w1
                = (Return saved, w') /\
                file_path response = Some saved
         else w' = w1 /\ file_path response = None
     | None => w' = w1 /\ file_path response = None
     end).
Proof.
  unfold generate_speech, try_except, generate_speech_body.
  unfold bind at 1. unfold lift.
  destruct (build_request cfg_ t v mo f s) as [request' | e] eqn:Hbuild.
  - unfold bind at 1.
    destruct (call_openai_api cfg_ backend request' w) as [[audio | e] w1]
      eqn:Hcall.
    + assert (Haudio : exists a, audio = Some a).
      { unfold call_openai_api in Hcall.
        apply api_retry_loop_Return_inv in Hcall
          as (K & chunks & _ & _ & _ & -> & _); [eauto | lia ..]. }
      destruct Haudio as [a ->].
      destruct out as [p |]; [destruct (Py.truthy_str p) eqn:Hp |].
      * unfold bind, ret.
        destruct (save_audio_file rt_ (Some a) p (format request') w1)
          as [[saved | e] w2] eqn:Hsave.
        -- intros [= <- <-]. right. exists request', a, w1.
           cbn. repeat split; try done. eauto.
        -- apply save_audio_file_Raise_inv in Hsave as (message & path & ->).
           cbn [is_TTSValidationError is_TTSAPIError orb]. unfold ret.
           intros [= <- <-]. left.
           by exists (TTSFileError message path).
      * unfold ret. intros [= <- <-]. right. exists request', a, w1.
        cbn. repeat split; done.
      * unfold ret. intros [= <- <-]. right. exists request', a, w1.
        cbn. repeat split; done.
    + destruct (is_TTSValidationError e || is_TTSAPIError e);
        [discriminate |].
      unfold ret. intros [= <- <-]. eauto.
  - destruct (is_TTSValidationError e || is_TTSAPIError e) eqn:He.
    + discriminate.
    + unfold ret. intros [= <- <-]. eauto.
Qed.

(** The only way in which [generate_speech] raises. *)
Lemma generate_speech_Raise_inv t v mo f s out w e w' :
  generate_speech rt_ cfg_ backend t v mo f s out w = (Raise e, w') ->
  exists request',
    build_request cfg_ t v mo f s = Return request' /\
    call_openai_api cfg_ backend request' w = (Raise e, w').
Proof.
  unfold generate_speech, try_except, generate_speech_body.
  unfold bind at 1. unfold lift.
  destruct (build_request cfg_ t v mo f s) as [request' | e0] eqn:Hbuild.
  - unfold bind at 1.
    destruct (call_openai_api cfg_ backend request' w) as [[audio | e1] w1]
      eqn:Hcall.
    + destruct out as [p |]; [destruct (Py.truthy_str p) |].
      * unfold bind, ret.
        destruct (save_audio_file rt_ audio p (format request') w1)
          as [[saved | e2] w2] eqn:Hsave; [discriminate |].
        apply save_audio_file_Raise_inv in Hsave as (message & path & ->).
        discriminate.
      * discriminate.
      * discriminate.
    + destruct (is_TTSValidationError e1 || is_TTSAPIError e1);
        [| discriminate].
      unfold raise. intros [= <- <-]. eauto.
  - apply TTSRequest_new_Raise in Hbuild as (errs & _ & ->). discriminate.
Qed.

End AgentInversion.

(** X4.  [generate_speech] raises in one case only: the request is valid,
    the Backend has failed [max_retries + 1] calls in a row, and the
    exception is the [TTSAPIError] that carries the message of the last
    failure.  An invalid request and a file that cannot be saved never make
    it raise (they make it return a failed response), and no file has been
    touched when it raises. *)
Theorem generate_speech_raises_only_api_error (rt_ : Runtime)
    (cfg_ : TTSConfig) (backend : Backend) (t : string)
    (v mo f : option string) (s : option float) (out : option string)
    (w w' : World) (e : exn)
    (Hraise : generate_speech rt_ cfg_ backend t v mo f s out w
              = (Raise e, w')) :
  exists request' last,
    build_request cfg_ t v mo f s = Return request' /\
    (forall n, (n <= max_retries cfg_)%nat ->
       exists e', backend (api_calls w + n)%nat request' = ApiFail e') /\
    backend (api_calls w + max_retries cfg_)%nat request' = ApiFail last /\
    e = TTSAPIError
          ("API call failed after " +:+ Py.str_of_nat (max_retries cfg_ + 1)
           +:+ " attempts: " +:+ str last) None None /\
    api_calls w' = (api_calls w + max_retries cfg_ + 1)%nat /\
    files w' = files w.
Proof.
  apply generate_speech_Raise_inv in Hraise as (request' & Hbuild & Hcall).
  unfold call_openai_api in Hcall.
  apply api_retry_loop_Raise_inv in Hcall
    as (Hfail & (last & Hlast & ->) & Hcalls & Hfiles); [| lia].
  exists request', last. split; [done |]. split; [| split; [| split]].
  - intros n Hn. apply Hfail. lia.
  - replace (api_calls w + max_retries cfg_)%nat
      with (api_calls w + (max_retries cfg_ + 1) - 1)%nat by lia. done.
  - done.
  - split; [lia | done].
Qed.

(** A Backend that is down, and an agent that tries twice. *)
Lemma generate_speech_raises_only_api_error_witness :
  exists request' last,
    build_request (Examples.cfg_retries 1) "Hello" None None None None
    = Return request' /\
    (forall n, (n <= 1)%nat ->
       exists e', Examples.fails_first_stub 9 (0 + n)%nat request'
                  = ApiFail e') /\
    Examples.fails_first_stub 9 (0 + 1)%nat request' = ApiFail last /\
    TTSAPIError
      ("API call failed after 2 attempts: Network Error 1") None None
    = TTSAPIError
        ("API call failed after " +:+ Py.str_of_nat (1 + 1)
         +:+ " attempts: " +:+ str last) None None /\
    2%nat = (0 + 1 + 1)%nat /\
    (∅ : gmap string Py.bytes) = ∅.
Proof.
  apply (generate_speech_raises_only_api_error Examples.rt_ok
           (Examples.cfg_retries 1) (Examples.fails_first_stub 9) "Hello"
           None None None None (Some "out.mp3") World_initial
           {| api_calls := 2;
              trace := [EvApiCall 0; EvSleepAgent 1;
                        EvApiCall 1];
              files := ∅ |}).
  reflexivity.
Defined.

(** X5.  When [generate_speech] is given an output path and returns a
    successful response, the file it reports is the path with its
    extension, that file holds exactly the audio of the response and no
    other file has changed; the size it reports is the length of the audio
    ([None] for no audio), and the text length it reports is the length of
    the text as given, before trimming. *)
Theorem generate_speech_saves_audio (rt_ : Runtime) (cfg_ : TTSConfig)
    (backend : Backend) (t : string) (v mo f : option string)
    (s : option float) (p : string) (w w' : World) (response : TTSResponse)
    (Hrun : generate_speech rt_ cfg_ backend t v mo f s (Some p) w
            = (Return response, w'))
    (Hok : success response = true)
    (Hpath : p <> "") :
  exists request' saved audio,
    build_request cfg_ t v mo f s = Return request' /\
    ensure_suffix rt_ p (format request') = Return saved /\
    file_path response = Some saved /\
    audio_data response = Some audio /\
    files w' = <[saved := audio]> (files w) /\
    file_size response = match audio with
                         | [] => None
                         | _ => Some (len_bytes audio)
                         end /\
    metadata response !! "text_length"
    = Some (MInt (Z.of_nat (String.length t))).
Proof.
  apply generate_speech_Return_inv in Hrun
    as [[e ->] | (request' & audio & w1 & Hbuild & Hcall & _ & _ & Haudio
                  & Hsize & Hmeta & Hsaved)]; [discriminate |].
  apply truthy_str_true in Hpath. rewrite Hpath in Hsaved.
  destruct Hsaved as (saved & Hsave & Hfile).
  apply save_audio_file_Return_inv in Hsave as (Hsuffix & Hfiles & _).
  unfold call_openai_api in Hcall.
  apply api_retry_loop_Return_inv in Hcall
    as (_ & _ & _ & _ & _ & _ & _ & Hfiles1); [| lia ..].
  exists request', saved, audio. rewrite Hmeta, Hfiles, Hfiles1.
  repeat split; done.
Qed.

(** A greeting saved under a name without extension. *)
Lemma generate_speech_saves_audio_witness :
  exists request',
    build_request TTSConfig_default "  Hello  " None None None None
    = Return request' /\
    ensure_suffix Examples.rt_ok "out/hello" (format request')
    = Return "out/hello.mp3".
Proof.
  destruct (generate_speech_saves_audio Examples.rt_ok TTSConfig_default
              (Examples.fails_first_stub 0) "  Hello  " None None None None
              "out/hello" World_initial
              {| api_calls := 1; trace := [EvApiCall 0; EvMkdir "out"];
                 files := <["out/hello.mp3" := Examples.audio]> ∅ |}
              {| success := true; audio_data := Some Examples.audio;
                 file_path := Some "out/hello.mp3"; duration := None;
                 file_size := Some 15;
                 metadata :=
                   response_metadata
                     {| text := "Hello"; voice := "alloy"; model := "tts-1";
                        format := "mp3"; speed := 1 |} "  Hello  ";
                 error := None |})
    as (request' & saved & audio & Hbuild & Hsuffix & [= <-] & _);
    [reflexivity | reflexivity | discriminate |].
  exists request'. split; [exact Hbuild | exact Hsuffix].
Defined.

(** X6.  [generate_speech_streaming] never raises: it always returns a
    response.  It calls the Backend at most once and never sleeps, so one
    failure of the Backend fails the call, with the message of the failure
    wrapped twice; every other failure is a failed response as well, and a
    successful response carries the joined chunks of the one answer and
    the mark [streaming] in its metadata. *)
Theorem generate_speech_streaming_never_raises (rt_ : Runtime)
    (cfg_ : TTSConfig) (backend : Backend) (t : string)
    (v mo f : option string) (s : option float) (out : option string)
    (w : World) :
  exists response w',
    generate_speech_streaming rt_ cfg_ backend t v mo f s out w
    = (Return response, w') /\
    (api_calls w <= api_calls w' <= api_calls w + 1)%nat /\
    sleeps (trace w') = sleeps (trace w) /\
    ((success response = true /\ error response = None /\
      metadata response !! "streaming" = Some (MBool true) /\
      exists request' chunks,
        build_request cfg_ t v mo f s = Return request' /\
        backend (api_calls w) request' = ApiOk chunks /\
        audio_data response = Some (Py.join chunks)) \/
     (exists e,
        response = TTSResponse_failure ("Unexpected error: " +:+ str e))) /\
    (forall request' e,
       build_request cfg_ t v mo f s = Return request' ->
       backend (api_calls w) request' = ApiFail e ->
       response
       = TTSResponse_failure
           ("Unexpected error: [API_ERROR] Streaming API call failed: "
            +:+ str e) /\
       api_calls w' = S (api_calls w)).
Proof.
  unfold generate_speech_streaming, try_except, generate_speech_streaming_body.
  unfold bind at 1. unfold lift.
  destruct (build_request cfg_ t v mo f s) as [request' | e] eqn:Hbuild.
  - unfold bind at 1. unfold call_openai_api_streaming, bind, call_backend.
    assert (Hcalled : forall tr n, sleeps (tr ++ [EvApiCall n]) = sleeps tr)
      by (intros tr n; rewrite sleeps_app; cbn; by rewrite app_nil_r).
    destruct (backend (api_calls w) request') as [chunks | e] eqn:Hanswer.
    + unfold ret at 1.
      destruct out as [p |]; [destruct (Py.truthy_str p) |].
      * match goal with
        | |- context [save_audio_file ?x1 ?x2 ?x3 ?x4 ?x5] =>
            destruct (save_audio_file x1 x2 x3 x4 x5) as [[saved | e] w2]
              eqn:Hsave
        end;
          pose proof (save_audio_file_sleeps _ _ _ _ _ _ _ Hsave) as Hsl;
          apply save_audio_file_effects in Hsave as (Hc & _);
          cbn [api_calls trace] in Hc, Hsl.
        -- eexists _, _. split; [reflexivity |]. cbn [api_calls trace].
           rewrite Hc, Hsl, Hcalled.
           split; [lia |]. split; [done |]. split; [left; cbn; repeat split; eauto |].
           intros ? ? [= <-] Hfail. congruence.
        -- eexists _, _. split; [reflexivity |]. cbn [api_calls trace].
           rewrite Hc, Hsl, Hcalled.
           split; [lia |]. split; [done |]. split; [eauto |].
           intros ? ? [= <-] Hfail. congruence.
      * eexists _, _. split; [reflexivity |]. cbn [api_calls trace].
        rewrite Hcalled.
        split; [lia |]. split; [done |]. split; [left; cbn; repeat split; eauto |].
        intros ? ? [= <-] Hfail. congruence.
      * eexists _, _. split; [reflexivity |]. cbn [api_calls trace].
        rewrite Hcalled.
        split; [lia |]. split; [done |]. split; [left; cbn; repeat split; eauto |].
        intros ? ? [= <-] Hfail. congruence.
    + eexists _, _. split; [reflexivity |]. cbn [api_calls trace].
      rewrite Hcalled.
      split; [lia |]. split; [done |]. split; [eauto |].
      intros ? e' [= <-] Hfail. rewrite Hanswer in Hfail.
      injection Hfail as <-. by rewrite str_TTSAPIError_plain.
  - eexists _, _. split; [reflexivity |].
    split; [lia |]. split; [done |]. split; [eauto |].
    intros ? ? [=].
Qed.

(** ** What one item of a batch returns *)

Section EngineInversion.

Variables (rt_ : Runtime) (cfg_ : TTSConfig) (backend : Backend)
          (request : TTSRequest) (od : option string) (r : nat).

(** The output path of the attempts of an item. *)
Let output_path : option string :=
  match od with
  | Some d => Some (path_join rt_ d (filename rt_ request))
  | None => None
  end.

(** The three ways in which the retry loop returns: the successful
    response of a call of [generate_speech], the failed response of the
    last call, or the failure built from the exception of the last call. *)
Lemma retry_loop_Return_inv (iterations : nat) :
  forall attempt w response w',
    (1 <= iterations)%nat -> (attempt + iterations = r + 1)%nat ->
    retry_loop rt_ cfg_ backend request od r iterations attempt w
    = (Return response, w') ->
    (success response = true /\
     exists w0,
       generate_speech rt_ cfg_ backend (text request)
         (Some (voice request)) (Some (model request))
         (Some (format request)) (Some (speed request)) output_path w0
       = (Return response, w')) \/
    (exists e,
       response = TTSResponse_failure ("Unexpected error: " +:+ str e)) \/
    (exists e,
       response = TTSResponse_failure
                    ("Failed after " +:+ Py.str_of_nat (r + 1)
                     +:+ " attempts: " +:+ str e)).
Proof.
  induction iterations as [| iterations IH];
    intros attempt w response w' Hpos Hsum; [lia |].
  rewrite retry_loop_step. fold output_path.
  destruct (generate_speech rt_ cfg_ backend (text request)
              (Some (voice request)) (Some (model request))
              (Some (format request)) (Some (speed request)) output_path
              (after (EvAttempt attempt) w)) as [[response0 | e] w1] eqn:Hgs.
  - destruct (success response0) eqn:Hok.
    + intros [= <- <-]. left. eauto.
    + destruct (Nat.ltb_spec attempt r) as [Hlt | Hge].
      * apply IH; lia.
      * intros [= <- <-]. right. left.
        apply generate_speech_Return_inv in Hgs
          as [Hfailed | (? & ? & ? & _ & _ & Hs & _)]; [done | congruence].
  - destruct (Nat.ltb_spec attempt r) as [Hlt | Hge].
    + apply IH; lia.
    + intros [= <- <-]. right. right. eauto.
Qed.

(** The retry loop raises nothing. *)
Lemma retry_loop_returns (w : World) :
  exists response w',
    retry_loop rt_ cfg_ backend request od r (r + 1) 0 w
    = (Return response, w').
Proof.
  destruct (retry_loop_schedule rt_ cfg_ backend request od r (r + 1) 0 w)
    as (response & w' & _ & Hrun & _); [lia | lia |]. eauto.
Qed.

End EngineInversion.

Section ItemShape.

Lemma truthy_unexpected (s : string) :
  Py.truthy_str ("Unexpected error: " +:+ s) = true.
Proof. reflexivity. Qed.

Lemma truthy_failed_after (s : string) :
  Py.truthy_str ("Failed after " +:+ s) = true.
Proof. reflexivity. Qed.

(** A response that a task returned is a success without error message,
    or a failure with a message that is not empty. *)
Lemma process_single_request_shape rt_ cfg_ item request od r w response w' :
  process_single_request rt_ cfg_ item request od r w = (Return response, w') ->
  (success response = true /\ error response = None) \/
  (success response = false /\
   exists message, error response = Some message /\
                   Py.truthy_str message = true).
Proof.
  unfold process_single_request. destruct (item_gate item); [discriminate |].
  intros Hloop. apply retry_loop_Return_inv in Hloop
    as [(Hok & w0 & Hgs) | [[e ->] | [e ->]]]; [| | | lia | lia].
  - apply generate_speech_Return_inv in Hgs
      as [[e ->] | (? & ? & ? & _ & _ & _ & Herr & _)];
      [discriminate | by left].
  - right. split; [done |]. eexists. split; [reflexivity |].
    apply truthy_unexpected.
  - right. split; [done |]. eexists. split; [reflexivity |].
    apply truthy_failed_after.
Qed.

End ItemShape.

(** X7.  The fallback after the retry loop is never reached: whatever the
    Backend and the file system do, [_process_single_request] does not
    return the response [Unexpected error in retry logic], and once the
    semaphore and the throttler are entered it returns a response and
    raises nothing. *)
Theorem retry_fallback_unreachable (rt_ : Runtime) (cfg_ : TTSConfig)
    (item : ItemEnv) (request : TTSRequest) (od : option string) (r : nat)
    (w : World) :
  (forall res w',
     process_single_request rt_ cfg_ item request od r w = (res, w') ->
     res <> Return (TTSResponse_failure "Unexpected error in retry logic")) /\
  (item_gate item = None ->
   exists response w',
     process_single_request rt_ cfg_ item request od r w
     = (Return response, w')).
Proof.
  split.
  - intros res w' Hrun ->. unfold process_single_request in Hrun.
    destruct (item_gate item); [discriminate |].
    apply retry_loop_Return_inv in Hrun
      as [(Hok & _) | [[e [=]] | [e [=]]]]; [| lia | lia]. discriminate.
  - intros Hgate. unfold process_single_request. rewrite Hgate.
    apply retry_loop_returns.
Qed.

(** The gate is open and the Backend answers: the task returns. *)
Lemma retry_fallback_unreachable_witness :
  exists response w',
    process_single_request Examples.rt_ok TTSConfig_default Examples.item_ok
      Examples.hello None 3 World_initial
    = (Return response, w').
Proof.
  apply (proj2 (retry_fallback_unreachable Examples.rt_ok TTSConfig_default
                  Examples.item_ok Examples.hello None 3 World_initial)).
  reflexivity.
Defined.

(** ** The counts and the errors of a batch response *)

Section Counting.

(** The number of responses that are successes, and that are failures. *)
Let successes (rs : list TTSResponse) : Z :=
  Z.of_nat (length (List.filter success rs)).
Let failures (rs : list TTSResponse) : Z :=
  Z.of_nat (length (List.filter (fun x => negb (success x)) rs)).

Lemma successes_app rs1 rs2 : successes (rs1 ++ rs2) = successes rs1 + successes rs2.
Proof. unfold successes. rewrite List.filter_app, length_app. lia. Qed.

Lemma failures_app rs1 rs2 : failures (rs1 ++ rs2) = failures rs1 + failures rs2.
Proof. unfold failures. rewrite List.filter_app, length_app. lia. Qed.

(** The two counters of the loop count the responses kept so far. *)
Lemma tally_step_counts (t : Tally) (entry : nat * TaskResult) :
  n_successful t = successes (processed_results t) /\
  n_failed t = failures (processed_results t) ->
  n_successful (tally_step t entry)
  = successes (processed_results (tally_step t entry)) /\
  n_failed (tally_step t entry)
  = failures (processed_results (tally_step t entry)).
Proof.
  intros [Hs Hf]. destruct entry as [i [resp | e |]]; unfold tally_step;
    [destruct (success resp) eqn:Hok |..];
    cbn [n_successful n_failed processed_results];
    rewrite successes_app, failures_app, <- Hs, <- Hf;
    unfold successes, failures; cbn; rewrite ?Hok; cbn; lia.
Qed.

Lemma tally_loop_counts (l : list TaskResult) : forall (i : nat) (t : Tally),
  n_successful t = successes (processed_results t) /\
  n_failed t = failures (processed_results t) ->
  n_successful (tally_loop i t l)
  = successes (processed_results (tally_loop i t l)) /\
  n_failed (tally_loop i t l)
  = failures (processed_results (tally_loop i t l)).
Proof.
  induction l as [| result l IH]; intros i t Ht; [done |].
  cbn [tally_loop]. apply IH. by apply tally_step_counts.
Qed.

Lemma tally_counts_match (l : list TaskResult) :
  n_successful (tally l)
  = Z.of_nat (length (List.filter success (processed_results (tally l)))) /\
  n_failed (tally l)
  = Z.of_nat (length (List.filter (fun x => negb (success x))
                                  (processed_results (tally l)))).
Proof. apply (tally_loop_counts l 0 Tally_initial). done. Qed.

Lemma all_failures_counts {A} (f : A -> TTSResponse) (l : list A) :
  (forall a, success (f a) = false) ->
  length (List.filter success (map f l)) = 0%nat /\
  length (List.filter (fun x => negb (success x)) (map f l)) = length l.
Proof.
  intros Hf. induction l as [| a l [IH1 IH2]]; [done |].
  cbn. rewrite Hf. cbn. split; [done | by rewrite IH2].
Qed.

Lemma BatchTTSResponse_new_fields total s f rs pt es response :
  BatchTTSResponse_new total s f rs pt es = Return response ->
  response = {| total_requests := total; successful := s; failed := f;
                results := rs; processing_time := pt; errors := es |}.
Proof.
  unfold BatchTTSResponse_new.
  destruct (s + f =? total); cbn; [| discriminate].
  destruct (Z.of_nat (length rs) =? total); cbn; [| discriminate].
  by intros [= <-].
Qed.

End Counting.

(** X8.  In every response that [process_batch] returns, whatever the
    requests, the Backend and the order of completion, [successful] is the
    number of results that are successes and [failed] is the number of
    results that are failures: the counts describe the results, which the
    validator of the response does not check. *)
Theorem process_batch_counts_match_results (env : BatchEnv)
    (requests : list TTSRequest) (out : option string) (r : nat)
    (completion : list nat) (response : BatchTTSResponse)
    (Hret : batch_result (process_batch env requests out r completion)
            = Some (Return response)) :
  successful response
  = Z.of_nat (length (List.filter success (results response))) /\
  failed response
  = Z.of_nat (length (List.filter (fun x => negb (success x))
                                  (results response))).
Proof.
  unfold process_batch in Hret.
  destruct (batch_result (process_batch_try env requests out r completion))
    as [[response0 | e] |] eqn:Htry; cbn [batch_result] in Hret.
  - rewrite Htry in Hret. injection Hret as ->.
    unfold process_batch_try in Htry.
    destruct (check_batch requests); [| discriminate].
    destruct (prepare_output_directory (rt env) out World_initial)
      as [[od | e] w]; [| discriminate].
    destruct (gather completion (dispatch env requests od r).*1)
      as [task_results |]; [| discriminate].
    cbn [batch_result] in Htry. injection Htry as Htry.
    apply BatchTTSResponse_new_fields in Htry as ->. cbn.
    apply tally_counts_match.
  - rewrite batch_failure_Return in Hret. injection Hret as <-. cbn.
    destruct (all_failures_counts (fun _ : TTSRequest =>
                TTSResponse_failure (str e)) requests) as [-> ->]; done.
  - rewrite Htry in Hret. discriminate.
Qed.

(** Three requests, the second of which cannot pass the semaphore. *)
Lemma process_batch_counts_match_results_witness :
  exists response,
    batch_result (process_batch Examples.env_one_raises
                    [Examples.hello; Examples.hello; Examples.hello] None 0
                    [2; 0; 1]%nat)
    = Some (Return response) /\
    successful response = 2 /\ failed response = 1 /\
    successful response
    = Z.of_nat (length (List.filter success (results response))) /\
    failed response
    = Z.of_nat (length (List.filter (fun x => negb (success x))
                                    (results response))).
Proof.
  eexists. split; [reflexivity |]. split; [reflexivity |].
  split; [reflexivity |].
  apply (process_batch_counts_match_results Examples.env_one_raises
           [Examples.hello; Examples.hello; Examples.hello] None 0
           [2; 0; 1]%nat).
  reflexivity.
Defined.

Section ErrorList.

(** What a task leaves in the results of [gather]: a response that is a
    failure carries a message that is not empty. *)
Let shaped (result : TaskResult) : Prop :=
  match result with
  | TaskReturned response =>
      success response = false ->
      exists message, error response = Some message /\
                      Py.truthy_str message = true
  | _ => True
  end.

Lemma tally_loop_errors (l : list TaskResult) : forall (i : nat) (t : Tally),
  Forall shaped l ->
  Z.of_nat (length (error_list t)) = n_failed t ->
  Z.of_nat (length (error_list (tally_loop i t l)))
  = n_failed (tally_loop i t l).
Proof.
  induction l as [| result l IH]; intros i t Hl Ht; [done |].
  apply Forall_cons in Hl as [Hr Hl]. cbn [tally_loop]. apply IH; [done |].
  destruct result as [response | e |]; unfold tally_step;
    [destruct (success response) eqn:Hok |..];
    cbn [n_failed error_list]; rewrite ?length_app; cbn [length]; try lia.
  destruct (Hr Hok) as (message & -> & ->).
  rewrite length_app. cbn [length]. lia.
Qed.

Lemma tally_loop_error_indices (l : list TaskResult) :
  forall (i : nat) (t : Tally) (message : string),
    message ∈ error_list (tally_loop i t l) ->
    message ∈ error_list t \/
    exists k rest, (i <= k < i + length l)%nat /\
                   message = request_error k rest.
Proof.
  induction l as [| result l IH]; intros i t message Hin; [by left |].
  cbn [tally_loop] in Hin. apply IH in Hin as [Hin | (k & rest & Hk & ->)].
  - assert (Hstep : message ∈ error_list t \/
                    exists rest, message = request_error i rest).
    { destruct result as [response | e |]; unfold tally_step in Hin;
        [destruct (success response);
         [| destruct (error response) as [m |];
            [destruct (Py.truthy_str m) |]] |..];
        cbn [error_list] in Hin; try (by left);
        apply elem_of_app in Hin as [Hin | Hin]; try (by left);
        apply list_elem_of_singleton in Hin; right; eauto. }
    destruct Hstep as [? | [rest ->]]; [by left |].
    right. exists i, rest. split; [cbn [length]; lia | done].
  - right. exists k, rest. split; [cbn [length]; lia | done].
Qed.

Lemma dispatch_shaped env requests od r :
  Forall shaped (dispatch env requests od r).*1.
Proof.
  rewrite dispatch_results. apply Forall_lookup_2. intros i result.
  rewrite list_lookup_imap. destruct (requests !! i) as [request |];
    [| discriminate].
  cbn. intros [= <-]. unfold run_task.
  destruct (item_cancelled (items env i)); [done |].
  destruct (process_single_request (rt env) (cfg env) (items env i) request
              od r World_initial) as [[response | e] w] eqn:Hrun; [| done].
  cbn. intros Hfailed.
  apply process_single_request_shape in Hrun as [[Hok _] | [_ Hmsg]];
    [congruence | done].
Qed.

End ErrorList.

(** X9.  In the response of a batch that is dispatched and whose tasks all
    finish, the list of errors has exactly one entry for each failed
    request, and every entry starts with [Request i: ] for an index [i] of
    the batch. *)
Theorem process_batch_errors_match_failures (env : BatchEnv)
    (requests : list TTSRequest) (out od : option string) (w : World)
    (r : nat) (completion : list nat)
    (Hsize : (1 <= length requests <= 100)%nat)
    (Hdir : prepare_output_directory (rt env) out World_initial = (Return od, w))
    (Hdone : completion ≡ₚ seq 0 (length requests)) :
  exists response,
    batch_result (process_batch env requests out r completion)
    = Some (Return response) /\
    Z.of_nat (length (errors response)) = failed response /\
    (forall message,
       message ∈ errors response ->
       exists i rest, (i < length requests)%nat /\
                      message = request_error i rest).
Proof.
  eexists. split; [by eapply process_batch_dispatched |]. cbn. split.
  - apply tally_loop_errors; [apply dispatch_shaped | done].
  - intros message Hin. unfold tally in Hin.
    apply tally_loop_error_indices in Hin as [Hin | (k & rest & Hk & ->)].
    + cbn in Hin. by apply elem_of_nil in Hin.
    + exists k, rest. split; [| done].
      rewrite length_fmap in Hk. unfold dispatch in Hk.
      rewrite length_imap in Hk. lia.
Qed.

(** Three requests, the second of which cannot pass the semaphore: one
    failure and one error. *)
Lemma process_batch_errors_match_failures_witness :
  exists response,
    batch_result (process_batch Examples.env_one_raises
                    [Examples.hello; Examples.hello; Examples.hello] None 0
                    [2; 0; 1]%nat)
    = Some (Return response) /\
    Z.of_nat (length (errors response)) = failed response /\
    (forall message,
       message ∈ errors response ->
       exists i rest, (i < 3)%nat /\ message = request_error i rest).
Proof.
  apply (process_batch_errors_match_failures Examples.env_one_raises
           [Examples.hello; Examples.hello; Examples.hello] None None
           World_initial 0 [2; 0; 1]%nat).
  - cbn. lia.
  - reflexivity.
  - apply seq3_completion.
Defined.

(** ** The files of a batch *)

Section BatchFiles.

(** Without an output path, [generate_speech] leaves the files alone and
    names no file. *)
Lemma generate_speech_no_output rt_ cfg_ backend t v mo f s w res w' :
  generate_speech rt_ cfg_ backend t v mo f s None w = (res, w') ->
  files w' = files w /\
  forall response, res = Return response -> file_path response = None.
Proof.
  unfold generate_speech, try_except, generate_speech_body.
  unfold bind at 1. unfold lift.
  destruct (build_request cfg_ t v mo f s) as [request' | e].
  - unfold bind at 1. unfold call_openai_api.
    destruct (api_retry_loop cfg_ backend request' (max_retries cfg_ + 1) 0 w)
      as [[audio | e] w1] eqn:Hloop;
      apply api_retry_loop_effects in Hloop as (_ & _ & Hfiles).
    + unfold ret. intros [= <- <-]. split; [done |]. by intros ? [= <-].
    + destruct (is_TTSValidationError e || is_TTSAPIError e);
        intros [= <- <-]; (split; [done |]); by intros ? [= <-].
  - destruct (is_TTSValidationError e || is_TTSAPIError e);
      intros [= <- <-]; (split; [done |]); by intros ? [= <-].
Qed.

Lemma retry_loop_no_output rt_ cfg_ backend request r (iterations : nat) :
  forall attempt w res w',
    retry_loop rt_ cfg_ backend request None r iterations attempt w
    = (res, w') ->
    files w' = files w /\
    forall response, res = Return response -> file_path response = None.
Proof.
  induction iterations as [| iterations IH]; intros attempt w res w'.
  - cbn. intros [= <- <-]. split; [done |]. by intros ? [= <-].
  - rewrite retry_loop_step.
    destruct (generate_speech rt_ cfg_ backend (text request)
                (Some (voice request)) (Some (model request))
                (Some (format request)) (Some (speed request)) None
                (after (EvAttempt attempt) w)) as [[response0 | e] w1] eqn:Hgs;
      apply generate_speech_no_output in Hgs as [Hfiles Hpath];
      cbn [after files] in Hfiles.
    + destruct (success response0).
      * intros [= <- <-]. split; [done |]. intros ? [= <-]. by apply Hpath.
      * destruct (attempt <? r)%nat.
        -- intros Hloop. apply IH in Hloop as [Hfiles' Hpath'].
           cbn [after files] in Hfiles'. split; [congruence | done].
        -- intros [= <- <-]. split; [done |]. intros ? [= <-]. by apply Hpath.
    + destruct (attempt <? r)%nat.
      * intros Hloop. apply IH in Hloop as [Hfiles' Hpath'].
        cbn [after files] in Hfiles'. split; [congruence | done].
      * intros [= <- <-]. split; [done |]. by intros ? [= <-].
Qed.

(** A task that is given no directory writes no file, and the response
    kept for it names no file. *)
Lemma run_task_no_output rt_ cfg_ item request r i :
  files (run_task rt_ cfg_ item request None r).2 = ∅ /\
  file_path (item_outcome i (run_task rt_ cfg_ item request None r).1) = None.
Proof.
  unfold run_task. destruct (item_cancelled item); [done |].
  unfold process_single_request. destruct (item_gate item) as [e |]; [done |].
  destruct (retry_loop rt_ cfg_ (item_backend item) request None r (r + 1) 0
              World_initial) as [[response | e] w] eqn:Hloop;
    apply retry_loop_no_output in Hloop as [Hfiles Hpath]; cbn.
  - split; [done | by apply Hpath].
  - done.
Qed.


(** What [gather] hands over was returned by one of the tasks, whatever
    the order of completion. *)
Lemma gather_elements {A} (completion : list nat) (task_results gathered : list A) :
  gather completion task_results = Some gathered ->
  forall x, x ∈ gathered -> x ∈ task_results.
Proof.
  unfold gather.
  set (inv := fun g : Gathering A =>
         (forall j x, children g !! j = Some (Some x) -> x ∈ task_results) /\
         (forall l, outer g = Some l -> forall x, x ∈ l -> x ∈ task_results)).
  assert (Hstart : inv (gather_start (length task_results))).
  { split.
    - intros j x Hj. cbn in Hj. apply lookup_replicate in Hj as [[=] _].
    - intros l. cbn. destruct (length task_results =? 0)%nat; [| discriminate].
      intros [= <-] x Hx. by apply elem_of_nil in Hx. }
  assert (Hstep : forall g i, inv g -> inv (child_done task_results g i)).
  { intros g i [Hc Ho]. unfold child_done.
    destruct (task_results !! i) as [r |] eqn:Hi; [| done].
    assert (Hc' : forall j x,
              <[i := Some r]> (children g) !! j = Some (Some x) ->
              x ∈ task_results).
    { intros j x Hj. destruct (decide (i = j)) as [<- | Hne].
      - apply list_lookup_insert_Some in Hj as [(_ & [= <-] & _) | [? _]];
          [| done]. by eapply list_elem_of_lookup_2.
      - rewrite list_lookup_insert_ne in Hj by done. by eapply Hc. }
    split; [exact Hc' |]. cbn [outer children nfinished].
    destruct (S (nfinished g) =? length (<[i := Some r]> (children g)))%nat;
      [| exact Ho].
    intros l Hl x Hx. apply mapM_Some in Hl.
    apply list_elem_of_lookup in Hx as [j Hj].
    destruct (Forall2_lookup_r _ _ _ _ _ Hl Hj) as (y & Hy & Hid).
    cbn in Hid. subst y. by eapply Hc'. }
  assert (Hfold : forall g, inv g ->
            inv (foldl (child_done task_results) g completion)).
  { induction completion as [| i completion IH]; intros g Hg; [done |].
    cbn. apply IH, Hstep, Hg. }
  intros Hout. by eapply (proj2 (Hfold _ Hstart)).
Qed.

End BatchFiles.

(** X10.  Without an output directory ([None] or the empty string),
    [process_batch] creates no directory, no task writes a file, and no
    result of the response names a file. *)
Theorem process_batch_without_directory (env : BatchEnv)
    (requests : list TTSRequest) (out : option string) (r : nat)
    (completion : list nat)
    (Hout : out = None \/ out = Some "") :
  batch_world (process_batch env requests out r completion) = World_initial /\
  Forall (fun w => files w = ∅)
         (item_worlds (process_batch env requests out r completion)) /\
  (forall response,
     batch_result (process_batch env requests out r completion)
     = Some (Return response) ->
     Forall (fun x => file_path x = None) (results response)).
Proof.
  assert (Hprep : prepare_output_directory (rt env) out World_initial
                  = (Return None, World_initial))
    by (destruct Hout as [-> | ->]; reflexivity).
  assert (Hworlds : Forall (fun w => files w = ∅)
                           (dispatch env requests None r).*2).
  { unfold dispatch. rewrite fmap_imap. apply Forall_lookup_2. intros i w.
    rewrite list_lookup_imap. destruct (requests !! i) as [request |];
      [| discriminate].
    cbn. intros [= <-]. apply (run_task_no_output _ _ _ _ _ 0%nat). }
  assert (Hfailure : forall e response,
            batch_failure env requests e = Return response ->
            Forall (fun x => file_path x = None) (results response)).
  { intros e response. rewrite batch_failure_Return. intros [= <-].
    cbn [results]. apply Forall_forall. intros x Hx.
    apply list_elem_of_In in Hx.
    by apply in_map_iff in Hx as (? & <- & _). }
  unfold process_batch, process_batch_try.
  destruct (check_batch requests) as [[] | e] eqn:Hcheck.
  - rewrite Hprep.
    destruct (gather completion (dispatch env requests None r).*1)
      as [task_results |] eqn:Hgather; cbn [batch_result].
    + destruct (BatchTTSResponse_new _ _ _ _ _ _) as [response0 | e]
        eqn:Hnew; cbn [batch_world item_worlds batch_result].
      * split; [done |]. split; [done |]. intros response [= <-].
        apply BatchTTSResponse_new_fields in Hnew as ->. cbn [results].
        rewrite tally_processed. apply Forall_lookup_2. intros i x.
        rewrite list_lookup_imap.
        destruct (task_results !! i) as [result |] eqn:Hi; [| discriminate].
        cbn. intros [= <-].
        assert (Hin : result ∈ (dispatch env requests None r).*1)
          by (eapply gather_elements;
              [exact Hgather | by eapply list_elem_of_lookup_2]).
        unfold dispatch in Hin. rewrite fmap_imap in Hin.
        apply elem_of_lookup_imap in Hin as (j & request & -> & _).
        apply run_task_no_output.
      * split; [done |]. split; [done |]. intros response Hres.
        injection Hres as Hres. by eapply Hfailure.
    + split; [done |]. split; [done |]. discriminate.
  - cbn [batch_result batch_world item_worlds]. split; [done |].
    split; [done |]. intros response Hres. injection Hres as Hres.
    by eapply Hfailure.
Qed.

(** One request and no directory: the task has written nothing. *)
Lemma process_batch_without_directory_witness :
  Forall (fun w => files w = ∅)
         (item_worlds (process_batch Examples.env_ok [Examples.hello]
                         (Some "") 0 [0%nat])).
Proof.
  apply (proj1 (proj2 (process_batch_without_directory Examples.env_ok
                         [Examples.hello] (Some "") 0 [0%nat]
                         (or_intror eq_refl)))).
Defined.

(** X12.  When the output directory of a batch cannot be created, no task
    is started and the Backend is not called: the batch returns at once,
    with every request reported as failed, each with the message of the
    file system, which is also the only entry of the errors. *)
Theorem process_batch_directory_failure (env : BatchEnv)
    (requests : list TTSRequest) (d : string) (e : exn) (r : nat)
    (completion : list nat)
    (Hsize : (1 <= length requests <= 100)%nat)
    (Hdir : d <> "")
    (Hfail : mkdir_error (rt env) d = Some e) :
  item_worlds (process_batch env requests (Some d) r completion) = [] /\
  trace (batch_world (process_batch env requests (Some d) r completion))
  = [EvMkdir d] /\
  batch_result (process_batch env requests (Some d) r completion)
  = Some (Return
      {| total_requests := Z.of_nat (length requests);
         successful := 0;
         failed := Z.of_nat (length requests);
         results := map (fun _ => TTSResponse_failure (str e)) requests;
         processing_time := elapsed env;
         errors := [str e] |}).
Proof.
  assert (Hprep : prepare_output_directory (rt env) (Some d) World_initial
                  = (Raise e, after (EvMkdir d) World_initial)).
  { unfold prepare_output_directory.
    rewrite (proj2 (truthy_str_true d) Hdir).
    unfold bind, mkdir, bind, emit. by rewrite Hfail. }
  unfold process_batch, process_batch_try.
  rewrite (proj2 (check_batch_Return requests) Hsize), Hprep.
  cbn [batch_result batch_world item_worlds]. rewrite batch_failure_Return.
  done.
Qed.

(** A directory that cannot be created. *)
Lemma process_batch_directory_failure_witness :
  item_worlds
    (process_batch
       {| rt := {| py_hash := py_hash Examples.rt_ok;
                   path_join := path_join Examples.rt_ok;
                   path_parent := path_parent Examples.rt_ok;
                   path_suffix := path_suffix Examples.rt_ok;
                   path_with_suffix := path_with_suffix Examples.rt_ok;
                   mkdir_error := fun _ => Some (OtherError "Permission denied");
                   write_error := fun _ => None |};
          cfg := TTSConfig_default; items := fun _ => Examples.item_ok;
          time_start := 10; time_end := 12 |}
       [Examples.hello] (Some "out") 3 [0%nat]) = [].
Proof.
  refine (proj1 (process_batch_directory_failure _ [Examples.hello] "out"
                   (OtherError "Permission denied") 3 [0%nat] _ _ _)).
  - cbn. lia.
  - discriminate.
  - reflexivity.
Defined.

(** ** Streaming to a file and streaming with progress *)

Section StreamDrivers.

Variables (rt_ : Runtime) (cfg_ : TTSConfig) (backend : StreamBackend)
          (call : StreamCall) (request : TTSRequest).

Hypothesis Hno_path : s_output_path call = None.
Hypothesis Hno_callback : s_chunk_callback call = None.

(** One step of [_stream_audio_chunks], whether or not the Backend fails
    at the end. *)
Lemma stream_audio_chunks_next_cases (source : list Py.bytes)
    (failure : option exn) :
  match stream_audio_chunks_next source failure with
  | (Yield chunk, source') =>
      nonempty_chunks source = chunk :: nonempty_chunks source' /\
      (length source' < length source)%nat
  | (Stop, _) => nonempty_chunks source = [] /\ failure = None
  | (Throw e, _) =>
      nonempty_chunks source = [] /\
      exists e0, failure = Some e0 /\
                 e = TTSAPIError ("Streaming API call failed: " +:+ str e0)
                                 None None
  end.
Proof.
  induction source as [| chunk source IH].
  - cbn. destruct failure; eauto.
  - cbn [stream_audio_chunks_next nonempty_chunks List.filter].
    destruct (truthy_bytes chunk) eqn:Htruthy.
    + split; [done | cbn; lia].
    + destruct (stream_audio_chunks_next source failure)
        as [[c | | e] source']; [| done | done].
      destruct IH as [Heq Hlen]. split; [exact Heq | cbn; lia].
Qed.

(** One step of a stream that saves nothing and calls nothing back. *)
Lemma stream_speech_running_plain (source : list Py.bytes)
    (failure : option exn) (audio_chunks : list Py.bytes) (w : World) :
  stream_speech_running rt_ call request source failure audio_chunks w
  = match stream_audio_chunks_next source failure with
    | (Yield chunk, source') =>
        (Yield chunk,
         Running request source' failure (audio_chunks ++ [chunk]), w)
    | (Stop, _) => (Stop, Closed, w)
    | (Throw e, _) => (Throw (streaming_failed e), Closed, w)
    end.
Proof.
  unfold stream_speech_running. rewrite Hno_path, Hno_callback.
  destruct (stream_audio_chunks_next source failure) as [[chunk | | e] source'];
    done.
Qed.

(** The loop of [stream_speech_to_file] appends every chunk that arrives
    to the file, and ends as the stream ends. *)
Lemma write_chunks_running (p : string) (failure : option exn)
    (source : list Py.bytes) :
  forall steps audio_chunks w content,
    (length source < steps)%nat ->
    files w !! p = Some content ->
    exists w',
      write_chunks rt_ cfg_ backend call p steps
        (Running request source failure audio_chunks) w
      = (Some (stream_ending failure), w') /\
      api_calls w' = api_calls w /\ trace w' = trace w /\
      files w' = <[p := content ++ Py.join (nonempty_chunks source)]> (files w).
Proof.
  induction source as [source IH] using (induction_ltof1 _ (@length _)).
  unfold ltof in IH.
  intros steps audio_chunks w content Hsteps Hfile.
  destruct steps as [| steps]; [lia |].
  cbn [write_chunks stream_speech_next]. rewrite stream_speech_running_plain.
  pose proof (stream_audio_chunks_next_cases source failure) as Hnext.
  destruct (stream_audio_chunks_next source failure)
    as [[chunk | | e] source'] eqn:Hstep.
  - destruct Hnext as [Hne Hlen].
    destruct (IH source' Hlen steps (audio_chunks ++ [chunk])
                (write_chunk p chunk w) (content ++ chunk))
      as (w' & Hrun & Hcalls & Htrace & Hfiles); [lia | |].
    { cbn. by rewrite lookup_insert_eq, Hfile. }
    exists w'. split; [exact Hrun |]. split; [done |]. split; [done |].
    rewrite Hfiles, Hne. cbn [write_chunk files Py.join concat].
    by rewrite insert_insert_eq, <- app_assoc.
  - destruct Hnext as [Hne ->]. exists w. split; [done |].
    rewrite Hne. cbn. rewrite app_nil_r. by rewrite insert_id.
  - destruct Hnext as (Hne & e0 & -> & ->). exists w. split; [done |].
    rewrite Hne. cbn. rewrite app_nil_r. by rewrite insert_id.
Qed.

(** The loop of [stream_speech_with_progress] keeps every chunk that
    arrives and reports the bytes received after each of them. *)
Lemma progress_loop_running (callback : option ProgressCallback)
    (failure : option exn) (source : list Py.bytes) :
  forall steps audio_chunks w p,
    (length source < steps)%nat ->
    exists p' w',
      progress_loop rt_ cfg_ backend call callback steps
        (Running request source failure audio_chunks) p w
      = (Some match failure with
              | None => None
              | Some e => Some (stream_failure e)
              end, p', w') /\
      progress_chunks p' = progress_chunks p ++ nonempty_chunks source /\
      progress_calls p'
      = progress_calls p ++
        match callback with
        | Some _ =>
            map (fun n => (n, Z.of_nat (String.length (s_text call)) * 100))
                (running_totals (total_bytes p) (nonempty_chunks source))
        | None => []
        end /\
      api_calls w' = api_calls w /\ files w' = files w.
Proof.
  induction source as [source IH] using (induction_ltof1 _ (@length _)).
  unfold ltof in IH.
  intros steps audio_chunks w p Hsteps.
  destruct steps as [| steps]; [lia |].
  cbn [progress_loop stream_speech_next]. rewrite stream_speech_running_plain.
  pose proof (stream_audio_chunks_next_cases source failure) as Hnext.
  destruct (stream_audio_chunks_next source failure)
    as [[chunk | | e] source'] eqn:Hstep.
  - destruct Hnext as [Hne Hlen].
    destruct (progress_step callback (s_text call) chunk p w) as [p1 w1]
      eqn:Hp1.
    destruct (IH source' Hlen steps (audio_chunks ++ [chunk]) w1 p1)
      as (p' & w' & Hrun & Hchunks & Hcalls & Hapi & Hfiles); [lia |].
    exists p', w'. split; [exact Hrun |].
    unfold progress_step in Hp1. rewrite Hne.
    destruct callback as [cb |].
    + injection Hp1 as <- <-. cbn in *.
      rewrite Hchunks, Hcalls, <- !app_assoc. split; [done |].
      split; [done |].
      destruct (cb (total_bytes p + len_bytes chunk)
                   (Z.of_nat (String.length (s_text call)) * 100));
        cbn in *; split; congruence.
    + injection Hp1 as <- <-. cbn in *.
      rewrite Hchunks, Hcalls, <- !app_assoc. done.
  - destruct Hnext as [Hne ->]. exists p, w. split; [done |].
    rewrite Hne. destruct callback; cbn; by rewrite !app_nil_r.
  - destruct Hnext as (Hne & e0 & -> & ->). exists p, w. split; [done |].
    rewrite Hne. destruct callback; cbn; by rewrite !app_nil_r.
Qed.

End StreamDrivers.

Section StreamMessages.

(** The messages of a failed stream, as they are nested. *)
Lemma str_stream_failure (e : exn) :
  str (stream_failure e)
  = "Streaming speech failed: [API_ERROR] Streaming API call failed: "
    +:+ str e.
Proof.
  unfold stream_failure, streaming_failed.
  change (str (TTSAgentError ?m None)) with m.
  by rewrite str_TTSAPIError_plain.
Qed.

Lemma str_streaming_to_file_failed (e : exn) :
  str (streaming_to_file_failed e) = "Streaming to file failed: " +:+ str e.
Proof. reflexivity. Qed.

End StreamMessages.

Section StreamToFile.

Variables (py : Python) (rt_ : Runtime) (cfg_ : TTSConfig) (given : bool)
          (backend : StreamBackend).

(** [stream_speech_to_file] on a file that can be opened: what is left is
    the loop over the stream, in a world where the directory is there and
    the file is open and empty. *)
Lemma stream_speech_to_file_opened (t out : string) (v mo : option string)
    (f : option FormatObject) (s : option float) (steps : nat) (w : World)
    (target : string) (format' : option FormatObject) :
  mkdir_error rt_ (path_parent rt_ out) = None ->
  to_file_target py rt_ cfg_ given out f = (Return target, format') ->
  write_error rt_ target = None ->
  stream_speech_to_file py rt_ cfg_ given backend t out v mo f s steps w
  = match write_chunks rt_ cfg_ backend
            {| s_text := t; s_voice := v; s_model := mo;
               s_format := FormatObject_value <$> format'; s_speed := s;
               s_output_path := None; s_chunk_callback := None |}
            target steps Fresh
            {| api_calls := api_calls w;
               trace := trace w ++ [EvMkdir (path_parent rt_ out)];
               files := <[target := []]> (files w) |} with
    | (None, w3) => (None, w3)
    | (Some (Return _), w3) => (Some (Return target), w3)
    | (Some (Raise e), w3) => (Some (Raise (streaming_to_file_failed e)), w3)
    end.
Proof.
  intros Hmkdir Htarget Hopen.
  unfold stream_speech_to_file, mkdir, bind, emit, ret.
  rewrite Hmkdir, Htarget. unfold open_wb. rewrite Hopen. reflexivity.
Qed.

(** The file for a format that is a member of [AudioFormat]: the given
    path when it has a suffix, or else the path with the suffix that the
    f-string renders; the member goes on to [stream_speech]. *)
Lemma to_file_target_member (out : string) (a : AudioFormat) :
  to_file_target py rt_ cfg_ given out (Some (FormatMember a))
  = (if Py.truthy_str (path_suffix rt_ out) then Return out
     else path_with_suffix rt_ out
            ("." +:+ format_spec py (FormatMember a)),
     Some (FormatMember a)).
Proof.
  unfold to_file_target.
  destruct (Py.truthy_str (path_suffix rt_ out)); [done |].
  by destruct a.
Qed.

(** The loop over the stream of a valid request, from its first step. *)
Lemma write_chunks_fresh (call : StreamCall) (request : TTSRequest)
    (chunks : list Py.bytes) (failure : option exn) (p : string)
    (steps : nat) (w : World) (content : Py.bytes) :
  s_output_path call = None -> s_chunk_callback call = None ->
  build_request cfg_ (s_text call) (s_voice call) (s_model call)
    (s_format call) (s_speed call) = Return request ->
  backend request = (chunks, failure) ->
  (length chunks < steps)%nat ->
  files w !! p = Some content ->
  exists w',
    write_chunks rt_ cfg_ backend call p steps Fresh w
    = (Some (stream_ending failure), w') /\
    files w' = <[p := content ++ Py.join chunks]> (files w).
Proof.
  intros Hpath Hcallback Hvalid Hbackend Hsteps Hfile.
  assert (Hfresh : write_chunks rt_ cfg_ backend call p steps Fresh w
                   = write_chunks rt_ cfg_ backend call p steps
                       (Running request chunks failure []) w).
  { destruct steps as [| steps']; [lia |].
    cbn [write_chunks stream_speech_next]. rewrite Hvalid, Hbackend.
    reflexivity. }
  rewrite Hfresh.
  destruct (write_chunks_running rt_ cfg_ backend call request Hpath
              Hcallback p failure chunks steps [] w content Hsteps Hfile)
    as (w' & Hrun & _ & _ & Hfiles).
  exists w'. split; [exact Hrun |].
  by rewrite Hfiles, join_nonempty_chunks.
Qed.

End StreamToFile.

(** X13.  [stream_speech_to_file] writes what arrives.  When the
    directory can be created, the file can be opened and the request is
    valid, the file holds, once the stream has ended, the concatenation of
    all the chunks that the Backend has sent, and no other file has
    changed: the whole audio when the stream ends normally, in which case
    the path of the file is returned, and the part that was received when
    the Backend fails, in which case a [TTSAgentError] is raised whose
    message nests the messages of the three layers.  The file is the given
    path, and for a path without suffix the path with the suffix
    [f".{format}"], which for a member of [AudioFormat] depends on the
    interpreter: [.mp3] up to Python 3.10, [.AudioFormat.MP3] from
    Python 3.11 on. *)
Theorem stream_speech_to_file_keeps_what_arrives (py : Python)
    (rt_ : Runtime) (cfg_ : TTSConfig) (given : bool)
    (backend : StreamBackend) (t out : string) (v mo : option string)
    (f : option FormatObject) (s : option float) (steps : nat) (w : World)
    (target : string) (format' : option FormatObject) (request : TTSRequest)
    (chunks : list Py.bytes) (failure : option exn)
    (Hmkdir : mkdir_error rt_ (path_parent rt_ out) = None)
    (Htarget : to_file_target py rt_ cfg_ given out f
               = (Return target, format'))
    (Hopen : write_error rt_ target = None)
    (Hvalid : build_request cfg_ t v mo (FormatObject_value <$> format') s
              = Return request)
    (Hbackend : backend request = (chunks, failure))
    (Hsteps : (length chunks < steps)%nat) :
  exists w',
    stream_speech_to_file py rt_ cfg_ given backend t out v mo f s steps w
    = (Some match failure with
            | None => Return target
            | Some e => Raise (streaming_to_file_failed (stream_failure e))
            end, w') /\
    files w' = <[target := Py.join chunks]> (files w) /\
    (forall e,
       str (streaming_to_file_failed (stream_failure e))
       = "Streaming to file failed: Streaming speech failed: "
         +:+ "[API_ERROR] Streaming API call failed: " +:+ str e) /\
    (Py.truthy_str (path_suffix rt_ out) = true -> target = out) /\
    (Py.truthy_str (path_suffix rt_ out) = false ->
     forall a, f = Some (FormatMember a) ->
       path_with_suffix rt_ out
         ("." +:+ match py with
                  | UpTo_3_10 => AudioFormat_value a
                  | From_3_11 => "AudioFormat." +:+ AudioFormat_name a
                  end)
       = Return target).
Proof.
  rewrite (stream_speech_to_file_opened py rt_ cfg_ given backend t out v mo
             f s steps w target format' Hmkdir Htarget Hopen).
  set (call := {| s_text := t; s_voice := v; s_model := mo;
                  s_format := FormatObject_value <$> format'; s_speed := s;
                  s_output_path := None; s_chunk_callback := None |}).
  set (w2 := {| api_calls := api_calls w;
                trace := trace w ++ [EvMkdir (path_parent rt_ out)];
                files := <[target := []]> (files w) |}).
  destruct (write_chunks_fresh rt_ cfg_ backend call request chunks failure
              target steps w2 [] eq_refl eq_refl Hvalid Hbackend Hsteps)
    as (w' & Hrun & Hfiles); [apply lookup_insert_eq |].
  rewrite Hrun. exists w'. split; [by destruct failure |].
  split; [| split; [| split]].
  - rewrite Hfiles. unfold w2. cbn [files app]. by rewrite insert_insert_eq.
  - intros e. by rewrite str_streaming_to_file_failed, str_stream_failure.
  - intros Hsuffix. unfold to_file_target in Htarget.
    rewrite Hsuffix in Htarget. congruence.
  - intros Hsuffix a ->. unfold to_file_target in Htarget.
    rewrite Hsuffix in Htarget. cbn [or_format FormatObject_value] in Htarget.
    assert (Hmember : Py.truthy_str (AudioFormat_value a) = true)
      by (by destruct a).
    rewrite Hmember in Htarget. cbn [format_spec] in Htarget. congruence.
Qed.

(** A stream of one chunk that breaks, on Python 3.11 and with the format
    of a configuration that was built without one: the chunk is in the
    file [out/speech.AudioFormat.MP3]. *)
Lemma stream_speech_to_file_keeps_what_arrives_witness :
  exists w',
    stream_speech_to_file From_3_11 Examples.rt_ok TTSConfig_default false
      (fun _ => ([Examples.chunk_ab], Some (OtherError "reset")))
      "Hello" "out/speech" None None None None 2 World_initial
    = (Some (Raise (streaming_to_file_failed
                      (stream_failure (OtherError "reset")))), w') /\
    files w' = <["out/speech.AudioFormat.MP3" := Examples.chunk_ab]> ∅.
Proof.
  destruct (stream_speech_to_file_keeps_what_arrives From_3_11
              Examples.rt_ok TTSConfig_default false
              (fun _ => ([Examples.chunk_ab], Some (OtherError "reset")))
              "Hello" "out/speech" None None None None 2 World_initial
              "out/speech.AudioFormat.MP3" (Some (FormatMember MP3))
              {| text := "Hello"; voice := "alloy"; model := "tts-1";
                 format := "mp3"; speed := 1 |}
              [Examples.chunk_ab] (Some (OtherError "reset")))
    as (w' & Hrun & Hfiles & _);
    [reflexivity | reflexivity | reflexivity | reflexivity | reflexivity
    | cbn; lia |].
  exists w'. split; [exact Hrun | exact Hfiles].
Defined.

(** X14.  [stream_speech_to_file] opens its file before the request is
    validated.  When the directory can be created and the file can be
    opened but the request is invalid, the call raises a [TTSAgentError]
    that carries the validation error, and the file is left empty: a file
    that did not exist has been created, and a file that existed has lost
    its content. *)
Theorem stream_speech_to_file_invalid_request (py : Python)
    (rt_ : Runtime) (cfg_ : TTSConfig) (given : bool)
    (backend : StreamBackend) (t out : string) (v mo : option string)
    (f : option FormatObject) (s : option float) (steps : nat) (w : World)
    (target : string) (format' : option FormatObject) (e : exn)
    (Hmkdir : mkdir_error rt_ (path_parent rt_ out) = None)
    (Htarget : to_file_target py rt_ cfg_ given out f
               = (Return target, format'))
    (Hopen : write_error rt_ target = None)
    (Hinvalid : build_request cfg_ t v mo (FormatObject_value <$> format') s
                = Raise e)
    (Hsteps : (1 <= steps)%nat) :
  exists w',
    stream_speech_to_file py rt_ cfg_ given backend t out v mo f s steps w
    = (Some (Raise (TTSAgentError
                      ("Streaming to file failed: Streaming speech failed: "
                       +:+ str e) None)), w') /\
    files w' = <[target := []]> (files w).
Proof.
  rewrite (stream_speech_to_file_opened py rt_ cfg_ given backend t out v mo
             f s steps w target format' Hmkdir Htarget Hopen).
  destruct steps as [| steps']; [lia |].
  cbn [write_chunks stream_speech_next s_text s_voice s_model s_format
       s_speed].
  rewrite Hinvalid. eexists. split; [reflexivity | done].
Qed.

(** A blank text sent to a file that holds an earlier recording. *)
Lemma stream_speech_to_file_invalid_request_witness :
  exists w',
    (stream_speech_to_file From_3_11 Examples.rt_ok TTSConfig_default false
       Examples.stream_with_empty_chunk "   " "speech" None None
       (Some (FormatMember OPUS)) None 1
       {| api_calls := 0; trace := [];
          files := <["speech.AudioFormat.OPUS" := Examples.audio]> ∅ |}).2
    = w' /\
    files w' !! "speech.AudioFormat.OPUS" = Some [].
Proof.
  destruct (stream_speech_to_file_invalid_request From_3_11 Examples.rt_ok
              TTSConfig_default false Examples.stream_with_empty_chunk "   "
              "speech" None None (Some (FormatMember OPUS)) None 1
              {| api_calls := 0; trace := [];
                 files := <["speech.AudioFormat.OPUS" := Examples.audio]> ∅ |}
              "speech.AudioFormat.OPUS" (Some (FormatMember OPUS))
              (PydanticValidationError "TTSRequest"
                 [{| loc := "text";
                     msg := "Text cannot be empty or only whitespace" |}]))
    as (w' & Hrun & Hfiles);
    [reflexivity | reflexivity | reflexivity | reflexivity | lia |].
  exists w'. rewrite Hrun. split; [reflexivity |].
  rewrite Hfiles. apply lookup_insert_eq.
Defined.

Section RunningTotals.

Lemma len_bytes_join_cons (chunk : Py.bytes) (chunks : list Py.bytes) :
  len_bytes (Py.join (chunk :: chunks))
  = len_bytes chunk + len_bytes (Py.join chunks).
Proof. unfold len_bytes, Py.join. cbn. rewrite length_app. lia. Qed.

(** The last total is the number of bytes of all the chunks. *)
Lemma running_totals_last (chunks : list Py.bytes) : forall received,
  chunks <> [] ->
  last (running_totals received chunks)
  = Some (received + len_bytes (Py.join chunks)).
Proof.
  induction chunks as [| chunk chunks IH]; intros received Hne; [done |].
  cbn [running_totals]. destruct chunks as [| chunk' chunks].
  - cbn. f_equal. unfold len_bytes, Py.join. cbn. by rewrite app_nil_r.
  - change (running_totals (received + len_bytes chunk) (chunk' :: chunks))
      with ((received + len_bytes chunk + len_bytes chunk')
            :: running_totals (received + len_bytes chunk + len_bytes chunk')
                 chunks) at 1.
    rewrite last_cons_cons.
    change ((received + len_bytes chunk + len_bytes chunk')
            :: running_totals (received + len_bytes chunk + len_bytes chunk')
                 chunks)
      with (running_totals (received + len_bytes chunk) (chunk' :: chunks)).
    rewrite IH by done. rewrite (len_bytes_join_cons chunk). f_equal. lia.
Qed.

(** The totals of chunks that are not empty grow strictly. *)
Lemma running_totals_above (chunks : list Py.bytes) : forall received,
  Forall (fun n => received < n)
         (running_totals received (nonempty_chunks chunks)).
Proof.
  induction chunks as [| chunk chunks IH]; intros received; [constructor |].
  unfold nonempty_chunks. cbn [List.filter].
  destruct chunk as [| b chunk]; cbn [truthy_bytes]; [apply IH |].
  cbn [running_totals]. constructor.
  - unfold len_bytes. cbn [length]. lia.
  - eapply Forall_impl; [apply IH |]. cbn. intros n Hn.
    unfold len_bytes in *. cbn [length] in *. lia.
Qed.

Lemma running_totals_sorted (chunks : list Py.bytes) : forall received,
  StronglySorted Z.lt (running_totals received (nonempty_chunks chunks)).
Proof.
  induction chunks as [| chunk chunks IH]; intros received; [constructor |].
  unfold nonempty_chunks. cbn [List.filter].
  destruct (truthy_bytes chunk); [| apply IH].
  cbn [running_totals]. constructor; [apply IH |].
  apply running_totals_above.
Qed.

End RunningTotals.

(** X15.  [stream_speech_with_progress] returns the concatenation of all
    the chunks that the Backend has sent, whether or not a progress
    callback is given and whatever the callback raises.  The callback is
    called once for each chunk that is not empty, with the bytes received
    so far, which grow strictly and end at the length of the audio
    returned, and with an estimate of a hundred bytes for each character of
    the text as given.  No file is touched.  When the Backend fails, the
    audio that was received is not returned: a [TTSAgentError] is
    raised. *)
Theorem stream_speech_with_progress_reports (rt_ : Runtime)
    (cfg_ : TTSConfig) (backend : StreamBackend) (t : string)
    (v mo f : option string) (s : option float)
    (callback : option ProgressCallback) (steps : nat) (w : World)
    (request : TTSRequest) (chunks : list Py.bytes) (failure : option exn)
    (Hvalid : build_request cfg_ t v mo f s = Return request)
    (Hbackend : backend request = (chunks, failure))
    (Hsteps : (length chunks < steps)%nat) :
  let totals := running_totals 0 (nonempty_chunks chunks) in
  exists w',
    stream_speech_with_progress rt_ cfg_ backend t v mo f s callback steps w
    = ({| progress_result :=
            Some match failure with
                 | None => Return (Py.join chunks)
                 | Some e =>
                     Raise (TTSAgentError
                              ("Streaming with progress failed: "
                               +:+ str (stream_failure e)) None)
                 end;
          progress_reports :=
            match callback with
            | Some _ =>
                map (fun n => (n, Z.of_nat (String.length t) * 100)) totals
            | None => []
            end |}, w') /\
    files w' = files w /\
    StronglySorted Z.lt totals /\
    (nonempty_chunks chunks <> [] ->
     last totals = Some (len_bytes (Py.join chunks))).
Proof.
  intros totals. unfold stream_speech_with_progress.
  set (call := {| s_text := t; s_voice := v; s_model := mo; s_format := f;
                  s_speed := s; s_output_path := None;
                  s_chunk_callback := None |}).
  assert (Hfresh : progress_loop rt_ cfg_ backend call callback steps Fresh
                     Progress_initial w
                   = progress_loop rt_ cfg_ backend call callback steps
                       (Running request chunks failure []) Progress_initial w).
  { destruct steps as [| steps']; [lia |].
    cbn [progress_loop stream_speech_next]. unfold call at 1 2 3 4 5.
    cbn [s_text s_voice s_model s_format s_speed]. rewrite Hvalid, Hbackend.
    reflexivity. }
  rewrite Hfresh.
  destruct (progress_loop_running rt_ cfg_ backend call request eq_refl
              eq_refl callback failure chunks steps [] w Progress_initial
              Hsteps)
    as (p' & w' & Hrun & Hchunks & Hcalls & _ & Hfiles).
  rewrite Hrun. cbn in Hchunks, Hcalls. exists w'. split.
  - rewrite Hcalls, Hchunks, join_nonempty_chunks. by destruct failure.
  - split; [done |]. split; [apply running_totals_sorted |].
    intros Hne. unfold totals. rewrite running_totals_last by done.
    by rewrite join_nonempty_chunks.
Qed.

(** Three chunks, one of them empty, and a callback that raises on every
    call: two reports, and the whole audio. *)
Lemma stream_speech_with_progress_reports_witness :
  exists w',
    stream_speech_with_progress Examples.rt_ok TTSConfig_default
      Examples.stream_with_empty_chunk "Hello" None None None None
      (Some (fun _ _ => Some (OtherError "boom"))) 4 World_initial
    = ({| progress_result :=
            Some (Return (Examples.chunk_ab ++ Examples.chunk_cd));
          progress_reports := [(2, 500); (4, 500)] |}, w').
Proof.
  destruct (stream_speech_with_progress_reports Examples.rt_ok
              TTSConfig_default Examples.stream_with_empty_chunk "Hello"
              None None None None
              (Some (fun _ _ => Some (OtherError "boom"))) 4 World_initial
              {| text := "Hello"; voice := "alloy"; model := "tts-1";
                 format := "mp3"; speed := 1 |}
              [Examples.chunk_ab; []; Examples.chunk_cd] None)
    as (w' & Hrun & _); [reflexivity | reflexivity | cbn; lia |].
  exists w'. exact Hrun.
Defined.

(** ** The chunk size *)

Section ChunkSize.

(** The object after a sequence of calls of [set_chunk_size]. *)
Lemma set_chunk_size_positive (self : StreamingTTS) (n : Z) :
  0 < get_chunk_size self -> 0 < get_chunk_size (set_chunk_size self n).2.
Proof.
  unfold set_chunk_size, get_chunk_size.
  destruct (Z.leb_spec n 0); cbn; lia.
Qed.

End ChunkSize.

(** X16.  [set_chunk_size] accepts exactly the positive sizes: a positive
    size is stored and read back by [get_chunk_size], any other size raises
    and leaves the stored size as it was.  So a chunk size that is positive
    stays positive through every sequence of calls, whether they raise or
    not; the constructor itself checks nothing. *)
Theorem set_chunk_size_keeps_positive (self : StreamingTTS) (calls : list Z) :
  (forall n,
     (0 < n ->
      set_chunk_size self n = (Return tt, StreamingTTS_new n) /\
      get_chunk_size (set_chunk_size self n).2 = n) /\
     (n <= 0 ->
      set_chunk_size self n
      = (Raise (OtherError "Chunk size must be positive"), self))) /\
  (0 < get_chunk_size self ->
   0 < get_chunk_size
         (foldl (fun object n => (set_chunk_size object n).2) self calls)) /\
  get_chunk_size (StreamingTTS_new 0) = 0.
Proof.
  split; [| split; [| done]].
  - intros n. unfold set_chunk_size.
    destruct (Z.leb_spec n 0); split; intros; try lia; done.
  - revert self. induction calls as [| n calls IH]; intros self Hpos;
      [done |].
    cbn [foldl]. apply IH. by apply set_chunk_size_positive.
Qed.

(** The default size, then a valid size, a null size and a negative
    size. *)
Lemma set_chunk_size_keeps_positive_witness :
  0 < get_chunk_size
        (foldl (fun object n => (set_chunk_size object n).2)
               (StreamingTTS_new 1024) [4096; 0; -1]).
Proof.
  apply (proj1 (proj2 (set_chunk_size_keeps_positive (StreamingTTS_new 1024)
                         [4096; 0; -1]))).
  reflexivity.
Defined.

(** ** The command generate *)

(** X17.  With [--streaming], the command [generate] never succeeds.
    Whatever the Backend, the file system and the arguments are, a run that
    ends exits with status 1 and prints no table of results: either
    [stream_speech_to_file] raised, or it returned the path of the file,
    which has no attribute [success].  In particular, when the client can
    be created and closed, the file can be written and the stream ends
    normally, the file holds the whole audio, and still the command prints
    one line, [Unexpected Error] with the message of the missing attribute,
    and exits with status 1.  The file is the output path, and for an
    output path without suffix the path with the suffix that the f-string
    renders for the member [AudioFormat(format)]: [.opus] up to
    Python 3.10, [.AudioFormat.OPUS] from Python 3.11 on. *)
Theorem generate_streaming_exits_1 (env : Cli.CliEnv) (rt_ : Runtime)
    (cfg_ : TTSConfig) (backend : Backend) (stream_backend : StreamBackend)
    (t : string) (voice_ : Voice) (model_ : TTSModel) (format_ : AudioFormat)
    (speed_ : float) (output : string) (steps : nat) (w : World) :
  (forall run w',
     Cli.generate env rt_ cfg_ backend stream_backend t voice_ model_ format_
                  speed_ output true steps w = (Some run, w') ->
     Cli.exit_status run = 1 /\
     forall rows, Cli.ResultsTable rows ∉ Cli.printed run) /\
  (forall target request chunks,
     Cli.client_init env = None -> Cli.client_close env = None ->
     mkdir_error rt_ (path_parent rt_ output) = None ->
     (if Py.truthy_str (path_suffix rt_ output) then Return output
      else path_with_suffix rt_ output
             ("." +:+ match Cli.python env with
                      | UpTo_3_10 => AudioFormat_value format_
                      | From_3_11 =>
                          "AudioFormat." +:+ AudioFormat_name format_
                      end))
     = Return target ->
     write_error rt_ target = None ->
     build_request cfg_ t (Some (Voice_value voice_))
       (Some (TTSModel_value model_)) (Some (AudioFormat_value format_))
       (Some speed_)
     = Return request ->
     stream_backend request = (chunks, None) ->
     (length chunks < steps)%nat ->
     exists w',
       Cli.generate env rt_ cfg_ backend stream_backend t voice_ model_
                    format_ speed_ output true steps w
       = (Some {| Cli.printed :=
                    [Cli.UnexpectedErrorLine
                       ("'" +:+ Cli.path_class env
                        +:+ "' object has no attribute 'success'")];
                  Cli.exit_status := 1 |}, w') /\
       files w' = <[target := Py.join chunks]> (files w)).
Proof.
  split.
  - intros run w'. unfold Cli.generate.
    destruct (Cli.client_init env) as [e |].
    + intros [= <- <-]. cbn. split; [done |]. intros rows Hin.
      apply list_elem_of_singleton in Hin. discriminate.
    + unfold Cli.generate_body.
      destruct (stream_speech_to_file (Cli.python env) rt_ cfg_ false
                  stream_backend t output (Some (Voice_value voice_))
                  (Some (TTSModel_value model_))
                  (Some (FormatMember format_)) (Some speed_) steps w)
        as [[[p | e] |] w1]; [| | discriminate];
        destruct (Cli.client_close env) as [c |]; intros [= <- <-]; cbn;
        (split; [done |]); intros rows Hin;
        apply list_elem_of_singleton in Hin;
        try match type of Hin with
            | context [if ?b then _ else _] => destruct b
            end; discriminate.
  - intros target request chunks Hinit Hclose Hmkdir Htarget Hopen
      Hvalid Hbackend Hsteps.
    unfold Cli.generate, Cli.generate_body. rewrite Hinit, Hclose.
    assert (Htarget' :
              to_file_target (Cli.python env) rt_ cfg_ false output
                (Some (FormatMember format_))
              = (Return target, Some (FormatMember format_)))
      by (rewrite to_file_target_member; cbn [format_spec];
          by rewrite Htarget).
    rewrite (stream_speech_to_file_opened (Cli.python env) rt_ cfg_ false
               stream_backend t output
               (Some (Voice_value voice_)) (Some (TTSModel_value model_))
               (Some (FormatMember format_)) (Some speed_) steps w
               target (Some (FormatMember format_)) Hmkdir Htarget' Hopen).
    cbn [fmap option_fmap option_map FormatObject_value].
    set (call := {| s_text := t; s_voice := Some (Voice_value voice_);
                    s_model := Some (TTSModel_value model_);
                    s_format := Some (AudioFormat_value format_);
                    s_speed := Some speed_;
                    s_output_path := None; s_chunk_callback := None |}).
    set (w2 := {| api_calls := api_calls w;
                  trace := trace w ++ [EvMkdir (path_parent rt_ output)];
                  files := <[target := []]> (files w) |}).
    destruct (write_chunks_fresh rt_ cfg_ stream_backend call request chunks
                None target steps w2 [] eq_refl eq_refl Hvalid Hbackend
                Hsteps)
      as (w' & Hrun & Hfiles); [apply lookup_insert_eq |].
    rewrite Hrun. exists w'. split; [done |].
    rewrite Hfiles. unfold w2. cbn [files app]. by rewrite insert_insert_eq.
Qed.

(** A greeting streamed to [speech] as [opus] on Python 3.11: the file
    [speech.AudioFormat.OPUS] is complete and the command fails. *)
Lemma generate_streaming_exits_1_witness :
  exists w',
    Cli.generate
      {| Cli.client_init := None; Cli.client_close := None;
         Cli.path_class := "PosixPath"; Cli.python := From_3_11 |}
      Examples.rt_ok TTSConfig_default (Examples.fails_first_stub 0)
      Examples.stream_with_empty_chunk "Hello" ALLOY TTS_1 OPUS 1
      "speech" true 4 World_initial
    = (Some {| Cli.printed :=
                 [Cli.UnexpectedErrorLine
                    "'PosixPath' object has no attribute 'success'"];
               Cli.exit_status := 1 |}, w') /\
    files w'
    = <["speech.AudioFormat.OPUS"
        := Examples.chunk_ab ++ Examples.chunk_cd]> ∅.
Proof.
  apply (proj2 (generate_streaming_exits_1
                  {| Cli.client_init := None; Cli.client_close := None;
                     Cli.path_class := "PosixPath";
                     Cli.python := From_3_11 |}
                  Examples.rt_ok TTSConfig_default
                  (Examples.fails_first_stub 0)
                  Examples.stream_with_empty_chunk "Hello" ALLOY TTS_1 OPUS 1
                  "speech" 4 World_initial)
           "speech.AudioFormat.OPUS"
           {| text := "Hello"; voice := "alloy"; model := "tts-1";
              format := "opus"; speed := 1 |}
           [Examples.chunk_ab; []; Examples.chunk_cd]);
    try reflexivity.
  cbn. lia.
Defined.

(** X20.  Without [--streaming], the exit status 0 of the command
    [generate] tells the truth.  When the command is given an output path
    that is not empty and exits with status 0, it has printed the table of
    results and nothing else, the request was valid, the row [Output File]
    names the path with the extension of the format added where the path
    had none, and this file holds the audio that the Backend sent: the
    chunks, joined, of its first call that was answered, which came after
    at most [max_retries] calls that failed.  The row [File Size] is the
    number of the bytes of the file ([N/A] for no bytes). *)
Theorem generate_exit_0_saved (env : Cli.CliEnv) (rt_ : Runtime)
    (cfg_ : TTSConfig) (backend : Backend) (stream_backend : StreamBackend)
    (t : string) (voice_ : Voice) (model_ : TTSModel) (format_ : AudioFormat)
    (speed_ : float) (output : string) (steps : nat) (w w' : World)
    (run : Cli.CliRun)
    (Hrun : Cli.generate env rt_ cfg_ backend stream_backend t voice_ model_
              format_ speed_ output false steps w = (Some run, w'))
    (Hpath : output <> "")
    (Hexit : Cli.exit_status run = 0) :
  exists rows request' audio retries chunks,
    Cli.printed run = [Cli.ResultsTable rows] /\
    build_request cfg_ t (Some (Voice_value voice_))
      (Some (TTSModel_value model_)) (Some (AudioFormat_value format_))
      (Some speed_)
    = Return request' /\
    ensure_suffix rt_ output (format request')
    = Return (Cli.row_output_file rows) /\
    files w' !! Cli.row_output_file rows = Some audio /\
    (retries <= max_retries cfg_)%nat /\
    (forall n, (n < retries)%nat ->
       exists e, backend (api_calls w + n)%nat request' = ApiFail e) /\
    backend (api_calls w + retries)%nat request' = ApiOk chunks /\
    audio = Py.join chunks /\
    Cli.row_file_size rows
    = match audio with
      | [] => "N/A"
      | _ => Py.str_of_Z (len_bytes audio) +:+ " bytes"
      end.
Proof.
  unfold Cli.generate in Hrun.
  destruct (Cli.client_init env) as [e |].
  { injection Hrun as <- _. discriminate. }
  unfold Cli.generate_body in Hrun.
  destruct (generate_speech rt_ cfg_ backend t (Some (Voice_value voice_))
              (Some (TTSModel_value model_))
              (Some (AudioFormat_value format_)) (Some speed_) (Some output)
              w) as [[response | e] w1] eqn:Hgs.
  2: { destruct (Cli.client_close env); injection Hrun as <- _;
       discriminate. }
  unfold Cli.report in Hrun.
  destruct (success response) eqn:Hok.
  2: { destruct (Cli.client_close env); injection Hrun as <- _;
       discriminate. }
  destruct (Cli.client_close env).
  { injection Hrun as <- _. discriminate. }
  injection Hrun as <- <-.
  apply generate_speech_Return_inv in Hgs
    as [[e ->] | (request' & audio & w2 & Hbuild & Hcall & _ & _ & _ & Hsize
                  & _ & Hsaved)]; [discriminate |].
  unfold call_openai_api in Hcall.
  destruct (api_retry_loop_schedule cfg_ backend request'
              (max_retries cfg_ + 1) 0 w)
    as (res & w3 & retries & Hloop & Hretries & _ & _ & Hfailed & Hres);
    [lia | lia |].
  rewrite Hcall in Hloop. injection Hloop as <- <-.
  destruct Hres as (chunks & Hanswer & [= ->]).
  apply truthy_str_true in Hpath. rewrite Hpath in Hsaved.
  destruct Hsaved as (saved & Hsave & Hfile).
  apply save_audio_file_Return_inv in Hsave as (Hsuffix & Hfiles & _).
  eexists _, request', (Py.join chunks), retries, chunks.
  split; [reflexivity |].
  split; [exact Hbuild |]. unfold Cli.results_table.
  cbn [Cli.row_output_file Cli.row_file_size]. rewrite Hfile, Hsize, Hfiles.
  split; [exact Hsuffix |]. split; [apply lookup_insert_eq |].
  split; [lia |]. split; [exact Hfailed |]. split; [exact Hanswer |].
  split; [reflexivity |]. by destruct (Py.join chunks).
Qed.

(** A greeting saved to [output.mp3] after one call that failed: fifteen
    bytes. *)
Lemma generate_exit_0_saved_witness :
  exists run w' rows,
    Cli.generate
      {| Cli.client_init := None; Cli.client_close := None;
         Cli.path_class := "PosixPath"; Cli.python := From_3_11 |}
      Examples.rt_ok TTSConfig_default (Examples.fails_first_stub 1)
      Examples.stream_with_empty_chunk "Hello" ALLOY TTS_1 MP3 1
      "output.mp3" false 0 World_initial
    = (Some run, w') /\
    Cli.printed run = [Cli.ResultsTable rows] /\
    files w' !! "output.mp3" = Some Examples.audio /\
    Cli.row_file_size rows = "15 bytes".
Proof.
  destruct (Cli.generate
              {| Cli.client_init := None; Cli.client_close := None;
                 Cli.path_class := "PosixPath"; Cli.python := From_3_11 |}
              Examples.rt_ok TTSConfig_default (Examples.fails_first_stub 1)
              Examples.stream_with_empty_chunk "Hello" ALLOY TTS_1 MP3 1
              "output.mp3" false 0 World_initial) as [[run |] w'] eqn:Hrun;
    [| discriminate].
  assert (Hexit : Cli.exit_status run = 0)
    by (cbn in Hrun; by injection Hrun as <- _).
  destruct (generate_exit_0_saved _ _ _ _ _ _ _ _ _ _ _ _ _ _ _ Hrun
              ltac:(discriminate) Hexit)
    as (rows & request' & audio & retries & chunks & Hprinted & [= <-]
        & [= Hfile] & Hfiles & _ & _ & _ & _ & Hsize).
  exists run, w', rows. split; [reflexivity |]. split; [exact Hprinted |].
  rewrite <- Hfile in Hfiles.
  assert (audio = Examples.audio) as ->.
  { cbn in Hrun. injection Hrun as _ <-. cbn in Hfiles.
    rewrite lookup_insert_eq in Hfiles. by injection Hfiles as <-. }
  split; [exact Hfiles | exact Hsize].
Defined.

(** ** The schedule of the agent *)


(** X18.  The retries of the agent.  [_call_openai_api] calls the
    Backend until a call is answered or [max_retries + 1] calls have
    failed.  The calls it makes are consecutive, all but the last have
    failed, before the retry number [k] it sleeps
    [rate_limit_delay * k] seconds, the product of the two as floats, and
    it does not sleep after its last call.  It
    returns the joined chunks of the call that was answered, or raises a
    [TTSAPIError] with the message of the last failure. *)
Theorem agent_backoff_schedule (cfg_ : TTSConfig) (backend : Backend)
    (request' : TTSRequest) (w : World) :
  exists res w' retries,
    call_openai_api cfg_ backend request' w = (res, w') /\
    (retries <= max_retries cfg_)%nat /\
    trace w' = trace w ++ agent_schedule cfg_ (api_calls w) 0 retries /\
    api_calls w' = (api_calls w + retries + 1)%nat /\
    (forall n, (n < retries)%nat ->
       exists e, backend (api_calls w + n)%nat request' = ApiFail e) /\
    match res with
    | Return audio =>
        exists chunks,
          backend (api_calls w + retries)%nat request' = ApiOk chunks /\
          audio = Some (Py.join chunks)
    | Raise e =>
        retries = max_retries cfg_ /\
        exists last,
          backend (api_calls w + retries)%nat request' = ApiFail last /\
          e = TTSAPIError
                ("API call failed after "
                 +:+ Py.str_of_nat (max_retries cfg_ + 1)
                 +:+ " attempts: " +:+ str last) None None
    end.
Proof.
  unfold call_openai_api.
  destruct (api_retry_loop_schedule cfg_ backend request'
              (max_retries cfg_ + 1) 0 w)
    as (res & w' & retries & Hrun & Hret & Htrace & Hcalls & Hfail & Hres);
    [lia | lia |].
  exists res, w', retries. split; [exact Hrun |]. split; [lia |].
  split; [exact Htrace |]. split; [exact Hcalls |]. split; [exact Hfail |].
  destruct res as [audio | e]; [exact Hres |].
  destruct Hres as [Hm Hlast]. split; [lia | exact Hlast].
Qed.

(** The Backend fails twice and answers the third call: two sleeps, of
    one and of two seconds. *)
Example two_failures_then_answer :
  (call_openai_api TTSConfig_default (Examples.fails_first_stub 2)
     Examples.hello World_initial).2
  = {| api_calls := 3;
       trace := [EvApiCall 0; EvSleepAgent 1; EvApiCall 1; EvSleepAgent 2;
                 EvApiCall 2];
       files := ∅ |}.
Proof. reflexivity. Qed.

(** With a delay of 0.1 the third sleep is the float 0.1 * 3, which is
    0.30000000000000004. *)
Example tenth_of_a_second :
  sleeps
    (trace (call_openai_api
              {| max_retries := 3; rate_limit_delay := 0x1.999999999999ap-4;
                 default_voice := "alloy"; default_model := "tts-1";
                 default_format := "mp3"; default_speed := 1 |}
              (Examples.fails_first_stub 3) Examples.hello World_initial).2)
  = [EvSleepAgent 0x1.999999999999ap-4; EvSleepAgent 0x1.999999999999ap-3;
     EvSleepAgent 0x1.3333333333334p-2].
Proof. reflexivity. Qed.
